(** * Status-propagation engine of the task tracker (src/main.py)

    A shallow embedding of the entity store (Task, Subtask, Dependency
    rows), of the propagation engine ([compute_task_progress],
    [has_blocking_dependencies], [enforce_blocking_status],
    [update_dependents_status], [set_dates_for_week]) and of the nine
    mutating JSON handlers, followed by the properties of the specification
    that were checked against them.

    Modelling conventions.
    - A row object of the ORM is a handle on the row with its primary key:
      every assignment [t.field = v] is written through to the store, and
      every read goes back to the store (identity map plus autoflush).
    - A handler returns the store as committed when the request ends: what
      was written before the last [commit] stays, what was pending when the
      request aborted is rolled back.
    - [Task.progress] is a Python float, i.e. an IEEE-754 binary64 number;
      it is modelled with [spec_float] at precision 53.
    - Dates are Python [datetime.date] values (proleptic Gregorian calendar,
      years 1 to 9999).
    - Strings are byte strings; titles are assumed ASCII where [lower] and
      [strip] are concerned.
    - The columns [created_at] and [updated_at] (wall-clock time) are left
      out: no function of the engine reads them. *)

From Stdlib Require Import ZArith List Bool String Ascii Lia.
From Stdlib Require Import Floats.SpecFloat.
Import ListNotations.
Open Scope string_scope.
Open Scope Z_scope.

(* ------------------------------------------------------------------ *)
(** ** Python floats *)

Module PyFloat.

Definition prec : Z := 53.
Definition emax : Z := 1024.

Definition t : Type := spec_float.

(** [float(n)] for an integer [n], correctly rounded. *)
Definition of_int (n : Z) : t := binary_normalize prec emax n 0 false.

Definition zero : t := S754_zero false.
Definition hundred : t := of_int 100.

Definition mul (x y : t) : t := SFmul prec emax x y.
Definition eqb (x y : t) : bool := SFeqb x y.
Definition ltb (x y : t) : bool := SFltb x y.

(** [a / b] on Python ints ("true division"): the correctly rounded
    quotient of the two integers.  Only non-negative numerators and
    positive denominators occur (counts of rows). *)
Definition int_truediv (a b : Z) : t :=
  match a, b with
  | Zpos p, Zpos q =>
      SFdiv prec emax (S754_finite false p 0) (S754_finite false q 0)
  | Z0, Zpos _ => S754_zero false
  | _, _ => S754_nan
  end.

(** The integer nearest to [m * 2^e], ties going to the even one. *)
Definition nearest_even (m e : Z) : Z :=
  if 0 <=? e then Z.shiftl m e
  else
    let d := Z.shiftl 1 (- e) in
    let q := m / d in
    let r := m mod d in
    match 2 * r ?= d with
    | Lt => q
    | Gt => q + 1
    | Eq => if Z.even q then q else q + 1
    end.

(** [round(x, 1)]: the exact value of the double [x] is rounded to one
    decimal place (ties to even), and the decimal [k/10] obtained is
    converted back to the nearest double. *)
Definition round1 (x : t) : t :=
  match x with
  | S754_finite s m e =>
      match nearest_even (10 * Zpos m) e with
      | Zpos k => SFdiv prec emax (S754_finite s k 0) (S754_finite false 10 0)
      | _ => S754_zero s
      end
  | _ => x
  end.

End PyFloat.

(* ------------------------------------------------------------------ *)
(** ** Python dates *)

Module PyDate.

Record date : Type := mkdate { year : Z; month : Z; day : Z }.

Definition MAXORDINAL : Z := 3652059.

Definition is_leap (y : Z) : bool :=
  (y mod 4 =? 0) && (negb (y mod 100 =? 0) || (y mod 400 =? 0)).

Definition DAYS_IN_MONTH : list Z :=
  [-1; 31; 28; 31; 30; 31; 30; 31; 31; 30; 31; 30; 31].

Definition DAYS_BEFORE_MONTH : list Z :=
  [-1; 0; 31; 59; 90; 120; 151; 181; 212; 243; 273; 304; 334].

Definition tbl (l : list Z) (m : Z) : Z := nth (Z.to_nat m) l 0.

Definition b2z (b : bool) : Z := if b then 1 else 0.

Definition days_before_year (y : Z) : Z :=
  let y' := y - 1 in y' * 365 + y' / 4 - y' / 100 + y' / 400.

Definition days_before_month (y m : Z) : Z :=
  tbl DAYS_BEFORE_MONTH m + b2z ((2 <? m) && is_leap y).

Definition ymd2ord (y m d : Z) : Z :=
  days_before_year y + days_before_month y m + d.

Definition DI400Y : Z := 146097.
Definition DI100Y : Z := 36524.
Definition DI4Y : Z := 1461.

Definition ord2ymd (n : Z) : date :=
  let n := n - 1 in
  let n400 := n / DI400Y in
  let n := n mod DI400Y in
  let y := n400 * 400 + 1 in
  let n100 := n / DI100Y in
  let n := n mod DI100Y in
  let n4 := n / DI4Y in
  let n := n mod DI4Y in
  let n1 := n / 365 in
  let n := n mod 365 in
  let y := y + n100 * 100 + n4 * 4 + n1 in
  if (n1 =? 4) || (n100 =? 4) then mkdate (y - 1) 12 31
  else
    let leapyear := (n1 =? 3) && (negb (n4 =? 24) || (n100 =? 3)) in
    let m := Z.shiftr (n + 50) 5 in
    let preceding := tbl DAYS_BEFORE_MONTH m + b2z ((2 <? m) && leapyear) in
    if n <? preceding then
      let m := m - 1 in
      let preceding :=
        preceding - (tbl DAYS_IN_MONTH m + b2z ((m =? 2) && leapyear)) in
      mkdate y m (n - preceding + 1)
    else mkdate y m (n - preceding + 1).

Definition toordinal (d : date) : Z := ymd2ord (year d) (month d) (day d).

(** [d + timedelta(days=n)]; [None] stands for OverflowError. *)
Definition add_days (d : date) (n : Z) : option date :=
  let o := toordinal d + n in
  if (0 <? o) && (o <=? MAXORDINAL) then Some (ord2ymd o) else None.

End PyDate.

Import PyDate.

(* ------------------------------------------------------------------ *)
(** ** Python strings (ASCII) *)

Module PyStr.

Definition code (c : ascii) : N := N_of_ascii c.

(** Characters removed by [str.strip()]. *)
Definition is_space (c : ascii) : bool :=
  let n := code c in
  (((9 <=? n) && (n <=? 13)) || ((28 <=? n) && (n <=? 32)))%N.

Definition is_upper (c : ascii) : bool :=
  let n := code c in ((65 <=? n) && (n <=? 90))%N.

(** The class [[a-z0-9]] of the regular expression in [slugify]. *)
Definition is_slug_char (c : ascii) : bool :=
  let n := code c in
  (((97 <=? n) && (n <=? 122)) || ((48 <=? n) && (n <=? 57)))%N.

Definition lower_char (c : ascii) : ascii :=
  if is_upper c then ascii_of_N (code c + 32) else c.

Fixpoint lstrip (p : ascii -> bool) (l : list ascii) : list ascii :=
  match l with
  | c :: r => if p c then lstrip p r else l
  | [] => []
  end.

Definition rstrip (p : ascii -> bool) (l : list ascii) : list ascii :=
  rev (lstrip p (rev l)).

Definition strip_with (p : ascii -> bool) (s : string) : string :=
  string_of_list_ascii (rstrip p (lstrip p (list_ascii_of_string s))).

Definition strip (s : string) : string := strip_with is_space s.

Definition lower (s : string) : string :=
  string_of_list_ascii (map lower_char (list_ascii_of_string s)).

(** [re.sub(r"[^a-z0-9]+", "-", s)]: every maximal run of characters
    outside the class becomes one dash. *)
Fixpoint sub_runs (l : list ascii) (in_run : bool) : list ascii :=
  match l with
  | [] => if in_run then ["-"%char] else []
  | c :: r =>
      if is_slug_char c
      then (if in_run then ["-"%char] else []) ++ c :: sub_runs r false
      else sub_runs r true
  end.

Definition is_dash (c : ascii) : bool := (code c =? 45)%N.

Definition truthy (s : string) : bool :=
  match s with EmptyString => false | _ => true end.

End PyStr.

Definition slugify (s : string) : string :=
  let s := PyStr.lower s in
  let s :=
    PyStr.strip_with PyStr.is_dash
      (string_of_list_ascii (PyStr.sub_runs (list_ascii_of_string s) false)) in
  if PyStr.truthy s then s else "task".

(* ------------------------------------------------------------------ *)
(** ** Models: the rows of the three tables *)

Module Task.
Record t : Type := mk {
  id : Z;
  slug : string;
  title : string;
  description : string;
  status : string;
  priority : Z;
  week : Z;
  start_date : option date;
  end_date : option date;
  started_at : option date;
  completed_at : option date;
  progress : PyFloat.t
}.

Definition set_status (v : string) (x : t) : t :=
  mk (id x) (slug x) (title x) (description x) v (priority x) (week x)
     (start_date x) (end_date x) (started_at x) (completed_at x) (progress x).
Definition set_progress (v : PyFloat.t) (x : t) : t :=
  mk (id x) (slug x) (title x) (description x) (status x) (priority x) (week x)
     (start_date x) (end_date x) (started_at x) (completed_at x) v.
Definition set_started_at (v : option date) (x : t) : t :=
  mk (id x) (slug x) (title x) (description x) (status x) (priority x) (week x)
     (start_date x) (end_date x) v (completed_at x) (progress x).
Definition set_completed_at (v : option date) (x : t) : t :=
  mk (id x) (slug x) (title x) (description x) (status x) (priority x) (week x)
     (start_date x) (end_date x) (started_at x) v (progress x).
Definition set_dates (sd ed : option date) (x : t) : t :=
  mk (id x) (slug x) (title x) (description x) (status x) (priority x) (week x)
     sd ed (started_at x) (completed_at x) (progress x).
Definition set_title (ti sl : string) (x : t) : t :=
  mk (id x) sl ti (description x) (status x) (priority x) (week x)
     (start_date x) (end_date x) (started_at x) (completed_at x) (progress x).
Definition set_description (v : string) (x : t) : t :=
  mk (id x) (slug x) (title x) v (status x) (priority x) (week x)
     (start_date x) (end_date x) (started_at x) (completed_at x) (progress x).
Definition set_priority (v : Z) (x : t) : t :=
  mk (id x) (slug x) (title x) (description x) (status x) v (week x)
     (start_date x) (end_date x) (started_at x) (completed_at x) (progress x).
Definition set_week (v : Z) (x : t) : t :=
  mk (id x) (slug x) (title x) (description x) (status x) (priority x) v
     (start_date x) (end_date x) (started_at x) (completed_at x) (progress x).
End Task.

Module Subtask.
Record t : Type := mk {
  id : Z;
  task_id : Z;
  title : string;
  done : bool
}.
Definition set_done (v : bool) (x : t) : t := mk (id x) (task_id x) (title x) v.
End Subtask.

Module Dependency.
Record t : Type := mk {
  id : Z;
  task_id : Z;
  depends_on_id : Z
}.
End Dependency.

(** The entity store: the three tables in rowid order. *)
Record Store : Type := mkStore {
  tasks : list Task.t;
  subtasks : list Subtask.t;
  dependencies : list Dependency.t
}.

Definition empty_store : Store := mkStore [] [] [].

Definition DEFAULT_START_DATE : date := mkdate 2025 8 25.

Definition TODO : string := "todo".
Definition IN_PROGRESS : string := "in_progress".
Definition DONE : string := "done".
Definition BLOCKED : string := "blocked".

(** *** Queries and writes of the session *)

(** [Task.query.get(tid)] *)
Definition get_task (s : Store) (tid : Z) : option Task.t :=
  find (fun x => Task.id x =? tid) (tasks s).

Definition get_subtask (s : Store) (sid : Z) : option Subtask.t :=
  find (fun x => Subtask.id x =? sid) (subtasks s).

Definition get_dependency (s : Store) (did : Z) : option Dependency.t :=
  find (fun x => Dependency.id x =? did) (dependencies s).

(** Assignment to attributes of the row [tid]. *)
Definition update_task (s : Store) (tid : Z) (f : Task.t -> Task.t) : Store :=
  mkStore (map (fun x => if Task.id x =? tid then f x else x) (tasks s))
          (subtasks s) (dependencies s).

Definition update_subtask (s : Store) (sid : Z) (f : Subtask.t -> Subtask.t)
  : Store :=
  mkStore (tasks s)
          (map (fun x => if Subtask.id x =? sid then f x else x) (subtasks s))
          (dependencies s).

(** The key SQLite gives to a new row: one more than the largest in use. *)
Definition next_id (ids : list Z) : Z := fold_right Z.max 0 ids + 1.

(** [t.subtasks]: the rows of [subtask] that belong to the task. *)
Definition subtasks_of (s : Store) (tid : Z) : list Subtask.t :=
  filter (fun st => Subtask.task_id st =? tid) (subtasks s).

(** [t.dependencies]: the edges leaving the task. *)
Definition dependencies_of (s : Store) (tid : Z) : list Dependency.t :=
  filter (fun d => Dependency.task_id d =? tid) (dependencies s).

(** [Dependency.query.filter_by(depends_on_id=tid)]: the edges entering it. *)
Definition dependents_of (s : Store) (tid : Z) : list Dependency.t :=
  filter (fun d => Dependency.depends_on_id d =? tid) (dependencies s).

(* ------------------------------------------------------------------ *)
(** ** The propagation engine *)

Definition compute_task_progress (s : Store) (t : Task.t) : PyFloat.t :=
  let total := Z.of_nat (List.length (subtasks_of s (Task.id t))) in
  if total =? 0 then
    if (Task.status t =? DONE)%string then PyFloat.hundred else PyFloat.zero
  else
    let done :=
      Z.of_nat (List.length (filter Subtask.done (subtasks_of s (Task.id t)))) in
    PyFloat.round1 (PyFloat.mul PyFloat.hundred (PyFloat.int_truediv done total)).

Definition has_blocking_dependencies (s : Store) (t : Task.t) : bool :=
  let deps := dependencies_of s (Task.id t) in
  match deps with
  | [] => false
  | _ =>
      let dep_task_ids := map Dependency.depends_on_id deps in
      match dep_task_ids with
      | [] => false
      | _ =>
          let q :=
            filter (fun x => existsb (Z.eqb (Task.id x)) dep_task_ids) (tasks s) in
          existsb (fun x => negb (Task.status x =? DONE)%string) q
      end
  end.

Definition enforce_blocking_status (s : Store) (t : Task.t) : Store :=
  if negb (Task.status t =? DONE)%string && has_blocking_dependencies s t then
    update_task s (Task.id t) (Task.set_status BLOCKED)
  else if (Task.status t =? BLOCKED)%string
          && negb (has_blocking_dependencies s t) then
    update_task s (Task.id t)
      (Task.set_status
         (if PyFloat.ltb PyFloat.zero (Task.progress t) then IN_PROGRESS else TODO))
  else s.

(** One turn of the loop of [update_dependents_status]. *)
Definition update_dependent (s : Store) (dep : Dependency.t) : Store :=
  match get_task s (Dependency.task_id dep) with
  | None => s
  | Some dt0 =>
      let p := compute_task_progress s dt0 in
      let s := update_task s (Task.id dt0) (Task.set_progress p) in
      let dt := Task.set_progress p dt0 in
      if has_blocking_dependencies s dt then
        if negb (Task.status dt =? DONE)%string
        then update_task s (Task.id dt) (Task.set_status BLOCKED)
        else s
      else
        if (Task.status dt =? BLOCKED)%string then
          if PyFloat.eqb (Task.progress dt) PyFloat.hundred then
            update_task s (Task.id dt) (Task.set_status DONE)
          else if PyFloat.ltb PyFloat.zero (Task.progress dt) then
            update_task s (Task.id dt) (Task.set_status IN_PROGRESS)
          else update_task s (Task.id dt) (Task.set_status TODO)
        else s
  end.

Definition update_dependents_status (s : Store) (changed_task_id : Z) : Store :=
  fold_left update_dependent (dependents_of s changed_task_id) s.

(** [None] is the OverflowError of the date arithmetic. *)
Definition set_dates_for_week (t : Task.t) (start_date : date) : option Task.t :=
  if negb (Task.week t =? 0) && (0 <? Task.week t) then
    let offset := (Task.week t - 1) * 7 in
    match add_days start_date offset with
    | None => None
    | Some sd =>
        match add_days sd 6 with
        | None => None
        | Some ed => Some (Task.set_dates (Some sd) (Some ed) t)
        end
    end
  else Some t.

(* ------------------------------------------------------------------ *)
(** ** The JSON API: the mutating handlers *)

(** The body of a successful answer. *)
Inductive Response : Type :=
| RespTask (t : Task.t)
| RespSubtask (st : Subtask.t)
| RespSubtaskTask (st : Subtask.t) (t : Task.t)
| RespTaskOpt (t : option Task.t)
| RespDependency (d : Dependency.t)
| RespOk.

(** How a request ends: an answer, [abort(code, description)] (no
    description: the framework's own, as with [get_or_404]), or an exception
    that escapes the handler. *)
Inductive Result : Type :=
| Ok (r : Response)
| Abort (code : Z) (description : option string)
| Raise (exception : string).

(** [x or d] on an optional string and on an optional integer of the body. *)
Definition str_or (o : option string) (d : string) : string :=
  match o with
  | Some v => if PyStr.truthy v then v else d
  | None => d
  end.

Definition int_or (o : option Z) (d : Z) : Z :=
  match o with
  | Some v => if v =? 0 then d else v
  | None => d
  end.

(** What SQLite can store in an INTEGER column. *)
Definition in_int64 (z : Z) : bool :=
  (- 2 ^ 63 <=? z) && (z <? 2 ^ 63).

(** Reading an attribute through the handle [t]: the row as it is now. *)
Definition refresh (s : Store) (t : Task.t) : Task.t :=
  match get_task s (Task.id t) with
  | Some t' => t'
  | None => t
  end.

(** Truth value of an optional date ([None] is false, a date is true). *)
Definition is_set (d : option date) : bool :=
  match d with
  | Some _ => true
  | None => false
  end.

Definition or_today (today : date) (d : option date) : option date :=
  match d with
  | Some _ => d
  | None => Some today
  end.

(** [t.progress = compute_task_progress(t)] *)
Definition store_progress (s : Store) (t : Task.t) : Store :=
  update_task s (Task.id t)
    (Task.set_progress (compute_task_progress s (refresh s t))).

(** [for st in t.subtasks.all(): st.done = v] *)
Definition set_subtasks_done (s : Store) (tid : Z) (v : bool) : Store :=
  mkStore (tasks s)
          (map (fun st => if Subtask.task_id st =? tid
                          then Subtask.set_done v st else st) (subtasks s))
          (dependencies s).

Definition slug_taken (s : Store) (self : Z) (sl : string) : bool :=
  existsb (fun x => negb (Task.id x =? self) && (Task.slug x =? sl)%string)
          (tasks s).

Definition api_tasks (s : Store)
  (title description status : option string) (priority week : option Z)
  : Store * Result :=
  let title := PyStr.strip (str_or title "") in
  if negb (PyStr.truthy title) then (s, Abort 400 (Some "title is required"))
  else
    let t :=
      Task.mk (next_id (map Task.id (tasks s))) (slugify title) title
        (PyStr.strip (str_or description "")) (str_or status TODO)
        (int_or priority 2) (int_or week 0) None None None None PyFloat.zero in
    match set_dates_for_week t DEFAULT_START_DATE with
    | None => (s, Raise "OverflowError")
    | Some t =>
        if negb (in_int64 (Task.priority t) && in_int64 (Task.week t))
        then (s, Raise "OverflowError")
        else if slug_taken s (Task.id t) (Task.slug t)
        then (s, Raise "IntegrityError")
        else
          let s := mkStore (tasks s ++ [t]) (subtasks s) (dependencies s) in
          let s := store_progress s t in
          let s := enforce_blocking_status s (refresh s t) in
          (s, Ok (RespTask (refresh s t)))
    end.

Definition api_update_task_status (s : Store) (today : date)
  (task_id : Z) (new_status : option string) : Store * Result :=
  match get_task s task_id with
  | None => (s, Abort 404 None)
  | Some t =>
      match new_status with
      | None => (s, Abort 400 (Some "invalid status"))
      | Some new_status =>
          if negb ((new_status =? TODO)%string
                   || (new_status =? IN_PROGRESS)%string
                   || (new_status =? DONE)%string)
          then (s, Abort 400 (Some "invalid status"))
          else
            let finish (s : Store) :=
              let s := store_progress s t in
              let s := enforce_blocking_status s (refresh s t) in
              let s := update_dependents_status s (Task.id t) in
              (s, Ok (RespTask (refresh s t))) in
            if (new_status =? DONE)%string then
              if has_blocking_dependencies s t
              then (s, Abort 400 (Some "Task has incomplete dependencies"))
              else
                let s := set_subtasks_done s (Task.id t) true in
                let s := update_task s (Task.id t) (Task.set_status DONE) in
                let s := update_task s (Task.id t)
                           (fun x => Task.set_completed_at
                                       (or_today today (Task.completed_at x)) x) in
                let s := update_task s (Task.id t)
                           (fun x => Task.set_started_at
                                       (or_today today (Task.started_at x)) x) in
                finish s
            else if (new_status =? TODO)%string then
              let s := set_subtasks_done s (Task.id t) false in
              let s := update_task s (Task.id t) (Task.set_status TODO) in
              let s := update_task s (Task.id t) (Task.set_completed_at None) in
              finish s
            else
              let s := update_task s (Task.id t) (Task.set_status IN_PROGRESS) in
              let s := update_task s (Task.id t)
                         (fun x => Task.set_started_at
                                     (or_today today (Task.started_at x)) x) in
              finish s
      end
  end.

Definition opt_apply {A B : Type} (o : option A) (f : A -> B -> B) (x : B) : B :=
  match o with
  | Some v => f v x
  | None => x
  end.

Definition api_edit_task (s : Store) (task_id : Z)
  (title description : option string) (priority week : option Z)
  : Store * Result :=
  match get_task s task_id with
  | None => (s, Abort 404 None)
  | Some t =>
      let t1 := opt_apply title
                  (fun v => Task.set_title (PyStr.strip v) (slugify (PyStr.strip v))) t in
      let t1 := opt_apply description
                  (fun v => Task.set_description (PyStr.strip v)) t1 in
      let t1 := opt_apply priority Task.set_priority t1 in
      let dated :=
        match week with
        | Some w => set_dates_for_week (Task.set_week w t1) DEFAULT_START_DATE
        | None => Some t1
        end in
      match dated with
      | None => (s, Raise "OverflowError")
      | Some t1 =>
          if negb (in_int64 (Task.priority t1) && in_int64 (Task.week t1))
          then (s, Raise "OverflowError")
          else if slug_taken s (Task.id t1) (Task.slug t1)
          then (s, Raise "IntegrityError")
          else
            let s := update_task s (Task.id t) (fun _ => t1) in
            let s := store_progress s t in
            let s := enforce_blocking_status s (refresh s t) in
            (s, Ok (RespTask (refresh s t)))
      end
  end.

(** The body of the loop that closes [api_delete_task]. *)
Definition recompute_task (s : Store) (dep_task_id : Z) : Store :=
  match get_task s dep_task_id with
  | None => s
  | Some dt =>
      let s := store_progress s dt in
      enforce_blocking_status s (refresh s dt)
  end.

Definition api_delete_task (s : Store) (task_id : Z) : Store * Result :=
  match get_task s task_id with
  | None => (s, Abort 404 None)
  | Some t =>
      let deps := dependents_of s task_id in
      let dep_task_ids := map Dependency.task_id deps in
      let s :=
        mkStore
          (filter (fun x => negb (Task.id x =? task_id)) (tasks s))
          (filter (fun st => negb (Subtask.task_id st =? task_id)) (subtasks s))
          (filter (fun d => negb (Dependency.depends_on_id d =? task_id)
                            && negb (Dependency.task_id d =? task_id))
                  (dependencies s)) in
      (fold_left recompute_task dep_task_ids s, Ok RespOk)
  end.

Definition api_create_subtask (s : Store) (today : date)
  (task_id : option Z) (title : option string) : Store * Result :=
  let task_id := int_or task_id 0 in
  let title := PyStr.strip (str_or title "") in
  if (task_id =? 0) || negb (PyStr.truthy title)
  then (s, Abort 400 (Some "task_id and title are required"))
  else
    match get_task s task_id with
    | None => (s, Abort 404 None)
    | Some t =>
        let st :=
          Subtask.mk (next_id (map Subtask.id (subtasks s))) (Task.id t)
                     title false in
        let s := mkStore (tasks s) (subtasks s ++ [st]) (dependencies s) in
        let s := store_progress s t in
        let s :=
          if (Task.status (refresh s t) =? DONE)%string
             && PyFloat.ltb (Task.progress (refresh s t)) PyFloat.hundred
          then
            let s := update_task s (Task.id t) (Task.set_status IN_PROGRESS) in
            update_task s (Task.id t) (Task.set_completed_at None)
          else s in
        let s :=
          if PyFloat.ltb PyFloat.zero (Task.progress (refresh s t))
             && negb (is_set (Task.started_at (refresh s t)))
          then update_task s (Task.id t) (Task.set_started_at (Some today))
          else s in
        let s := enforce_blocking_status s (refresh s t) in
        (s, Ok (RespSubtask st))
    end.

Definition api_toggle_subtask (s : Store) (today : date) (subtask_id : Z)
  : Store * Result :=
  match get_subtask s subtask_id with
  | None => (s, Abort 404 None)
  | Some st =>
      match get_task s (Subtask.task_id st) with
      | None => (s, Abort 404 (Some "Parent task not found"))
      | Some t =>
          if has_blocking_dependencies s t
          then (s, Abort 400
                     (Some "Task is blocked by dependencies; cannot toggle subtasks"))
          else
            let s := update_subtask s (Subtask.id st)
                       (fun x => Subtask.set_done (negb (Subtask.done x)) x) in
            let s := store_progress s t in
            let s :=
              if PyFloat.eqb (Task.progress (refresh s t)) PyFloat.hundred
                 && negb (has_blocking_dependencies s (refresh s t))
              then
                let s := update_task s (Task.id t) (Task.set_status DONE) in
                let s := update_task s (Task.id t)
                           (fun x => Task.set_completed_at
                                       (or_today today (Task.completed_at x)) x) in
                update_task s (Task.id t)
                  (fun x => Task.set_started_at
                              (or_today today (Task.started_at x)) x)
              else if PyFloat.ltb PyFloat.zero (Task.progress (refresh s t))
                      && negb (Task.status (refresh s t) =? DONE)%string
              then
                let s := update_task s (Task.id t) (Task.set_status IN_PROGRESS) in
                let s := update_task s (Task.id t)
                           (fun x => Task.set_started_at
                                       (or_today today (Task.started_at x)) x) in
                update_task s (Task.id t) (Task.set_completed_at None)
              else if negb (has_blocking_dependencies s (refresh s t))
              then
                let s := update_task s (Task.id t) (Task.set_status TODO) in
                update_task s (Task.id t) (Task.set_completed_at None)
              else s in
            let s := enforce_blocking_status s (refresh s t) in
            let s := update_dependents_status s (Task.id t) in
            match get_subtask s (Subtask.id st) with
            | Some st' => (s, Ok (RespSubtaskTask st' (refresh s t)))
            | None => (s, Ok (RespSubtaskTask st (refresh s t)))
            end
      end
  end.

Definition api_delete_subtask (s : Store) (today : date) (subtask_id : Z)
  : Store * Result :=
  match get_subtask s subtask_id with
  | None => (s, Abort 404 None)
  | Some st =>
      let t := get_task s (Subtask.task_id st) in
      if match t with
         | Some t => has_blocking_dependencies s t
         | None => false
         end
      then (s, Abort 400
                 (Some "Task is blocked by dependencies; cannot delete subtask"))
      else
        let s :=
          mkStore (tasks s)
                  (filter (fun x => negb (Subtask.id x =? Subtask.id st))
                          (subtasks s))
                  (dependencies s) in
        match t with
        | None => (s, Ok (RespTaskOpt None))
        | Some t =>
            let s := store_progress s t in
            let s :=
              if PyFloat.eqb (Task.progress (refresh s t)) PyFloat.hundred
                 && negb (has_blocking_dependencies s (refresh s t))
              then
                let s := update_task s (Task.id t) (Task.set_status DONE) in
                update_task s (Task.id t)
                  (fun x => Task.set_completed_at
                              (or_today today (Task.completed_at x)) x)
              else
                let s :=
                  if (Task.status (refresh s t) =? DONE)%string
                     && PyFloat.ltb (Task.progress (refresh s t)) PyFloat.hundred
                  then
                    let s :=
                      update_task s (Task.id t)
                        (Task.set_status
                           (if PyFloat.ltb PyFloat.zero
                                 (Task.progress (refresh s t))
                            then IN_PROGRESS else TODO)) in
                    update_task s (Task.id t) (Task.set_completed_at None)
                  else s in
                if PyFloat.ltb PyFloat.zero (Task.progress (refresh s t))
                   && negb (is_set (Task.started_at (refresh s t)))
                then update_task s (Task.id t) (Task.set_started_at (Some today))
                else s in
            let s := enforce_blocking_status s (refresh s t) in
            (s, Ok (RespTaskOpt (Some (refresh s t))))
        end
  end.

(** [Dependency.query.filter_by(task_id=..., depends_on_id=...).first()] *)
Definition find_dependency (s : Store) (task_id depends_on_id : Z)
  : option Dependency.t :=
  find (fun d => (Dependency.task_id d =? task_id)
                 && (Dependency.depends_on_id d =? depends_on_id))
       (dependencies s).

Definition api_add_dependency (s : Store) (task_id depends_on_id : option Z)
  : Store * Result :=
  let task_id := int_or task_id 0 in
  let depends_on_id := int_or depends_on_id 0 in
  if (task_id =? 0) || (depends_on_id =? 0) || (task_id =? depends_on_id)
  then (s, Abort 400 (Some "invalid dependency"))
  else
    match find_dependency s task_id depends_on_id with
    | Some exists_ => (s, Ok (RespDependency exists_))
    | None =>
        let dep :=
          Dependency.mk (next_id (map Dependency.id (dependencies s)))
                        task_id depends_on_id in
        let s := mkStore (tasks s) (subtasks s) (dependencies s ++ [dep]) in
        match get_task s task_id with
        | None => (s, Abort 404 None)
        | Some t =>
            let s := enforce_blocking_status s t in
            (s, Ok (RespDependency dep))
        end
    end.

Definition api_delete_dependency (s : Store) (dep_id : Z) : Store * Result :=
  match get_dependency s dep_id with
  | None => (s, Abort 404 None)
  | Some dep =>
      let task_id := Dependency.task_id dep in
      let s :=
        mkStore (tasks s) (subtasks s)
                (filter (fun d => negb (Dependency.id d =? Dependency.id dep))
                        (dependencies s)) in
      match get_task s task_id with
      | None => (s, Raise "AttributeError")
      | Some t =>
          let s := enforce_blocking_status s t in
          (s, Ok RespOk)
      end
  end.

(** *** Requests, and the stores the API can produce *)

Inductive Request : Type :=
| CreateTask (title description status : option string) (priority week : option Z)
| UpdateTaskStatus (task_id : Z) (new_status : option string)
| EditTask (task_id : Z) (title description : option string)
           (priority week : option Z)
| DeleteTask (task_id : Z)
| CreateSubtask (task_id : option Z) (title : option string)
| ToggleSubtask (subtask_id : Z)
| DeleteSubtask (subtask_id : Z)
| AddDependency (task_id depends_on_id : option Z)
| DeleteDependency (dep_id : Z).

(** One request, served on the day [today]. *)
Definition handle (s : Store) (today : date) (r : Request) : Store * Result :=
  match r with
  | CreateTask ti de st pr wk => api_tasks s ti de st pr wk
  | UpdateTaskStatus tid ns => api_update_task_status s today tid ns
  | EditTask tid ti de pr wk => api_edit_task s tid ti de pr wk
  | DeleteTask tid => api_delete_task s tid
  | CreateSubtask tid ti => api_create_subtask s today tid ti
  | ToggleSubtask sid => api_toggle_subtask s today sid
  | DeleteSubtask sid => api_delete_subtask s today sid
  | AddDependency tid did => api_add_dependency s tid did
  | DeleteDependency did => api_delete_dependency s did
  end.

(** The store after a sequence of requests. *)
Definition run (s : Store) (reqs : list (date * Request)) : Store :=
  fold_left (fun s dr => fst (handle s (fst dr) (snd dr))) reqs s.

(** The stores reached from the empty database through the API. *)
Inductive reachable : Store -> Prop :=
| reachable_empty : reachable empty_store
| reachable_step s today r :
    reachable s -> reachable (fst (handle s today r)).

(* ------------------------------------------------------------------ *)
(** ** Notions of the specification *)

(** The error kinds of the specification, read off the answer: 404 is
    NotFound; 400 is BlockedOperation when the description is one of the
    three "blocked by dependencies" messages and ValidationError otherwise. *)
Inductive ErrorKind : Type := ValidationError | NotFound | BlockedOperation.

Definition blocked_descriptions : list string :=
  [ "Task has incomplete dependencies";
    "Task is blocked by dependencies; cannot toggle subtasks";
    "Task is blocked by dependencies; cannot delete subtask" ].

Definition error_kind (r : Result) : option ErrorKind :=
  match r with
  | Abort 404 _ => Some NotFound
  | Abort 400 (Some d) =>
      if existsb (String.eqb d) blocked_descriptions
      then Some BlockedOperation else Some ValidationError
  | Abort 400 None => Some ValidationError
  | _ => None
  end.

Definition failed (r : Result) : bool :=
  match r with
  | Ok _ => false
  | _ => true
  end.

(** [t] has an unmet dependency: an edge leaving [t] whose target is a row
    of the store with a status other than done. *)
Definition has_unmet_dependency (s : Store) (t : Task.t) : Prop :=
  exists d x,
    In d (dependencies s) /\ Dependency.task_id d = Task.id t /\
    In x (tasks s) /\ Task.id x = Dependency.depends_on_id d /\
    Task.status x <> DONE.

(** There is an edge from [t] straight to the task [c]. *)
Definition depends_directly_on (s : Store) (t : Task.t) (c : Z) : Prop :=
  exists d,
    In d (dependencies s) /\ Dependency.task_id d = Task.id t /\
    Dependency.depends_on_id d = c.

(** Two versions of a row that agree on everything but [status] and
    [progress]. *)
Definition same_but_status_progress (x y : Task.t) : Prop :=
  Task.id y = Task.id x /\ Task.slug y = Task.slug x /\
  Task.title y = Task.title x /\ Task.description y = Task.description x /\
  Task.priority y = Task.priority x /\ Task.week y = Task.week x /\
  Task.start_date y = Task.start_date x /\ Task.end_date y = Task.end_date x /\
  Task.started_at y = Task.started_at x /\
  Task.completed_at y = Task.completed_at x.

(** [touches_only P s s']: from [s] to [s'] the subtasks and the edges are
    the same, every task row keeps its place and all its columns but status
    and progress, and the rows whose id is outside [P] are the same. *)
Definition touches_only (P : Z -> Prop) (s s' : Store) : Prop :=
  subtasks s' = subtasks s /\
  dependencies s' = dependencies s /\
  Forall2 (fun x y => same_but_status_progress x y /\
                      (~ P (Task.id x) -> y = x))
          (tasks s) (tasks s').

(** The endpoints of an edge, and what the API accepts as endpoints. *)
Definition endpoints (d : Dependency.t) : Z * Z :=
  (Dependency.task_id d, Dependency.depends_on_id d).

Definition edges_ok (l : list Dependency.t) : Prop :=
  NoDup (map endpoints l) /\
  forall d, In d l ->
    Dependency.task_id d <> 0 /\ Dependency.depends_on_id d <> 0 /\
    Dependency.task_id d <> Dependency.depends_on_id d.

Definition edges_wf (s : Store) : Prop := edges_ok (dependencies s).



(** The progress formula in the words of the specification,
    [round(100 * done_count / N, 1)], read as the Python expression it is:
    the integer product divided by the integer count, then rounded. *)
Definition spec_progress (done_count N : Z) : PyFloat.t :=
  PyFloat.round1 (PyFloat.int_truediv (100 * done_count) N).

(** The formula the source computes, [round(100.0 * (done / total), 1)]:
    the quotient is rounded to a double before it is scaled. *)
Definition code_progress (done_count N : Z) : PyFloat.t :=
  PyFloat.round1
    (PyFloat.mul PyFloat.hundred (PyFloat.int_truediv done_count N)).

(** The decimal literal [k/10] as a double, e.g. [decimal1 287] is [28.7]. *)
Definition decimal1 (k : Z) : PyFloat.t := PyFloat.int_truediv k 10.

(** Number of subtasks of a task, and number of those marked done. *)
Definition total_count (s : Store) (t : Task.t) : Z :=
  Z.of_nat (List.length (subtasks_of s (Task.id t))).

Definition done_count (s : Store) (t : Task.t) : Z :=
  Z.of_nat (List.length (filter Subtask.done (subtasks_of s (Task.id t)))).

(** *** The calendar, cut into the pieces [ord2ymd] cuts it into *)










(** *** Sample data *)

Definition day0 : date := mkdate 2025 9 1.

Definition plain_task (i : Z) (name : string) (st : string) : Task.t :=
  Task.mk i (slugify name) name "" st 2 0 None None None None PyFloat.zero.

Definition new_task (name : string) : Request :=
  CreateTask (Some name) None None None None.

(** A three-layer chain: A (3) depends on B (2), which depends on C (1).
    B's only subtask is done, B is set back to in progress (hence blocked
    by C), and C is then completed. *)
Definition chain_trace : list (date * Request) :=
  [ (day0, new_task "C"); (day0, new_task "B"); (day0, new_task "A");
    (day0, CreateSubtask (Some 2) (Some "s"));
    (day0, ToggleSubtask 1);
    (day0, AddDependency (Some 3) (Some 2));
    (day0, AddDependency (Some 2) (Some 1));
    (day0, UpdateTaskStatus 2 (Some IN_PROGRESS));
    (day0, UpdateTaskStatus 1 (Some DONE)) ].

Definition finished_task (i : Z) (name : string) (d : date) : Task.t :=
  Task.mk i (slugify name) name "" DONE 2 0 None None (Some d) (Some d)
          PyFloat.hundred.

(** The store that [chain_trace] leaves behind. *)
Definition chain_after : Store :=
  mkStore [finished_task 1 "C" day0; finished_task 2 "B" day0;
           plain_task 3 "A" BLOCKED]
          [Subtask.mk 1 2 "s" true]
          [Dependency.mk 1 3 2; Dependency.mk 2 2 1].

(** Task 2 waits for task 1 and has not been looked at since the edge was
    stored. *)
Definition stale_store : Store :=
  mkStore [plain_task 1 "C" TODO; plain_task 2 "B" TODO] []
          [Dependency.mk 1 2 1].

(** A store whose only task has two edges, both to ids that are not there. *)
Definition dangling_store : Store :=
  mkStore [plain_task 1 "T" TODO] []
          [Dependency.mk 1 1 7; Dependency.mk 2 1 9].

(** Task 2 (with a done subtask) depends on task 1, which is still todo. *)
Definition blocked_store : Store :=
  mkStore [plain_task 1 "C" TODO; plain_task 2 "B" BLOCKED]
          [Subtask.mk 1 2 "s" true]
          [Dependency.mk 1 2 1].

(** Only task 2 exists. *)
Definition lonely_store : Store := mkStore [plain_task 2 "B" TODO] [] [].

(** A task in progress with one subtask done and one not, and no
    [started_at] yet. *)
Definition half_done_task : Task.t :=
  Task.set_progress (decimal1 500) (plain_task 1 "T" IN_PROGRESS).

Definition half_done_store : Store :=
  mkStore [half_done_task]
          [Subtask.mk 1 1 "a" true; Subtask.mk 2 1 "b" false] [].

(** What [db-seed] leaves for a seed task marked done that has one
    subtask: the task is done, the subtask is not, no timestamp is set. *)
Definition seeded_store : Store :=
  mkStore [plain_task 1 "T" DONE] [Subtask.mk 1 1 "s" false] [].

(** Scenario of the specification: A (2) waits for B (1), whose two
    subtasks are then toggled done. *)
Definition unblock_trace : list (date * Request) :=
  [ (day0, new_task "B"); (day0, new_task "A");
    (day0, CreateSubtask (Some 1) (Some "b1"));
    (day0, CreateSubtask (Some 1) (Some "b2"));
    (day0, AddDependency (Some 2) (Some 1));
    (day0, ToggleSubtask 1);
    (day0, ToggleSubtask 2) ].

(** Scenario of the specification: a task with four subtasks, toggled two
    at a time on two days. *)
Definition day1 : date := mkdate 2025 9 2.

Definition four_subtasks_trace : list (date * Request) :=
  [ (day0, new_task "C");
    (day0, CreateSubtask (Some 1) (Some "c1"));
    (day0, CreateSubtask (Some 1) (Some "c2"));
    (day0, CreateSubtask (Some 1) (Some "c3"));
    (day0, CreateSubtask (Some 1) (Some "c4"));
    (day0, ToggleSubtask 1);
    (day0, ToggleSubtask 2) ].

(** A (2) depends on B (1), which is done; B then gets a new subtask. *)
Definition reopen_trace : list (date * Request) :=
  [ (day0, new_task "B"); (day0, new_task "A");
    (day0, UpdateTaskStatus 1 (Some DONE));
    (day0, AddDependency (Some 2) (Some 1));
    (day0, CreateSubtask (Some 1) (Some "more")) ].

(** The chain A (3) -> B (2) -> C (1) at the moment C has just been
    completed: B is still blocked, its only subtask is done, and neither B
    nor A has a timestamp (rows that predate the two timestamp columns have
    NULL there). *)
Definition chain_C : Task.t :=
  Task.set_progress PyFloat.hundred (plain_task 1 "C" DONE).
Definition chain_B : Task.t :=
  Task.set_progress PyFloat.hundred (plain_task 2 "B" BLOCKED).
Definition chain_A : Task.t := plain_task 3 "A" BLOCKED.

Definition chain_store : Store :=
  mkStore [chain_C; chain_B; chain_A]
          [Subtask.mk 1 2 "s" true]
          [Dependency.mk 1 3 2; Dependency.mk 2 2 1].

(** Eighty subtasks of task 1, the first [k] of them done. *)
Definition eighty_subtasks (k : nat) : list Subtask.t :=
  map (fun i => Subtask.mk (Z.of_nat i) 1 "s" (Nat.ltb i (S k))) (seq 1 80).

Definition store_23_of_80 : Store :=
  mkStore [plain_task 1 "T" IN_PROGRESS] (eighty_subtasks 23) [].

(* ------------------------------------------------------------------ *)
(** ** The read-only endpoint of the dependents, and more notions *)

(** [api_get_dependents]: the tasks listed as dependents of [task_id]. *)
Definition api_get_dependents (s : Store) (task_id : Z) : list Task.t :=
  let deps := dependents_of s task_id in
  let ids := map Dependency.task_id deps in
  match ids with
  | [] => []
  | _ => filter (fun x => existsb (Z.eqb (Task.id x)) ids) (tasks s)
  end.

(** The primary keys in use. *)
Definition task_ids (s : Store) : list Z := map Task.id (tasks s).
Definition subtask_ids (s : Store) : list Z := map Subtask.id (subtasks s).

(** Keys are pairwise distinct, and every subtask belongs to a task that
    is there. *)
Definition rows_wf (s : Store) : Prop :=
  NoDup (task_ids s) /\ NoDup (subtask_ids s) /\
  forall st, In st (subtasks s) -> In (Subtask.task_id st) (task_ids s).

(** [writes_only P s s']: the edges are the same, every task row keeps its
    place and its id, and the rows whose id is outside [P] are the same. *)
Definition writes_only (P : Z -> Prop) (s s' : Store) : Prop :=
  dependencies s' = dependencies s /\
  Forall2 (fun x y => Task.id y = Task.id x /\ (~ P (Task.id x) -> y = x))
          (tasks s) (tasks s').

(** A row that is done is still done afterwards. *)
Definition done_stays (x y : Task.t) : Prop :=
  Task.status x = DONE -> Task.status y = DONE.

(** The double [1.0]. *)
Definition one : PyFloat.t := PyFloat.of_int 1.

(** The characters a slug is made of. *)
Definition slug_alphabet (c : ascii) : bool :=
  PyStr.is_slug_char c || PyStr.is_dash c.

(** A list of characters that starts with a dash. *)
Definition starts_with_dash (l : list ascii) : bool :=
  match l with
  | c :: _ => PyStr.is_dash c
  | [] => false
  end.

Fixpoint no_double_dash (l : list ascii) : bool :=
  match l with
  | a :: r =>
      negb (PyStr.is_dash a && starts_with_dash r) && no_double_dash r
  | [] => true
  end.

(** Non-empty, made of [a-z0-9] and single dashes, no dash at either end. *)
Definition slug_shaped (l : list ascii) : Prop :=
  l <> [] /\ Forall (fun c => slug_alphabet c = true) l /\
  no_double_dash l = true /\
  starts_with_dash l = false /\ starts_with_dash (rev l) = false.

(** The list of characters that [slugify] keeps, before the fallback. *)
Definition slug_core (s : string) : list ascii :=
  PyStr.rstrip PyStr.is_dash
    (PyStr.lstrip PyStr.is_dash
       (PyStr.sub_runs (list_ascii_of_string (PyStr.lower s)) false)).

(** The slugs in use. *)
Definition task_slugs (s : Store) : list string := map Task.slug (tasks s).

(** What the body of an edit asks of the row: each key that is there
    overwrites its column. *)
Definition edited_columns (title description : option string)
  (priority week : option Z) (t t' : Task.t) : Prop :=
  Task.title t' = match title with
                  | Some v => PyStr.strip v | None => Task.title t end /\
  Task.slug t' = match title with
                 | Some v => slugify (PyStr.strip v) | None => Task.slug t end /\
  Task.description t' = match description with
                        | Some v => PyStr.strip v
                        | None => Task.description t end /\
  Task.priority t' = match priority with
                     | Some p => p | None => Task.priority t end /\
  Task.week t' = match week with Some w => w | None => Task.week t end.

(** Two tasks and nothing else. *)
Definition two_tasks_store : Store :=
  mkStore [plain_task 1 "C" TODO; plain_task 2 "B" TODO] [] [].

(** A store with one task, both of whose subtasks are done. *)
Definition all_done_store : Store :=
  mkStore [plain_task 1 "T" IN_PROGRESS]
          [Subtask.mk 1 1 "a" true; Subtask.mk 2 1 "b" true] [].

(* ------------------------------------------------------------------ *)
(** ** The scenarios of the specification, run on the model *)

Example slugify_examples :
  slugify "  Hello, World!! -- x " = "hello-world-x" /\
  slugify "---" = "task" /\ PyStr.strip "  a b  " = "a b".
Proof. repeat split. Qed.

Example add_days_examples :
  add_days (mkdate 2025 8 25) 14 = Some (mkdate 2025 9 8) /\
  add_days (mkdate 2024 2 28) 2 = Some (mkdate 2024 3 1) /\
  toordinal (mkdate 2025 8 25) = 739488 /\
  toordinal (mkdate 9999 12 31) = MAXORDINAL /\
  add_days (mkdate 9999 12 31) 1 = None.
Proof. repeat split. Qed.

Example progress_examples :
  code_progress 1 3 = decimal1 333 /\
  code_progress 2 4 = decimal1 500 /\
  code_progress 1 16 = decimal1 62 /\
  code_progress 4 4 = PyFloat.hundred /\
  code_progress 1999 2000 = PyFloat.hundred /\
  code_progress 1 2001 = PyFloat.zero.
Proof. repeat split; vm_compute; reflexivity. Qed.

(** Completing B unblocks A, which goes back to todo and is not completed. *)
Example scenario_unblock :
  let s5 := run empty_store (firstn 5 unblock_trace) in
  let s7 := run empty_store unblock_trace in
  option_map Task.status (get_task s5 2) = Some BLOCKED /\
  option_map Task.status (get_task s7 1) = Some DONE /\
  option_map Task.status (get_task s7 2) = Some TODO /\
  option_map Task.progress (get_task s7 2) = Some PyFloat.zero /\
  option_map Task.started_at (get_task s7 2) = Some None.
Proof. vm_compute. repeat split. Qed.

(** Two of four subtasks give 50.0 and in progress, all four give 100.0
    and done. *)
Example scenario_four_subtasks :
  let s2 := run empty_store four_subtasks_trace in
  let s4 := run s2 [(day1, ToggleSubtask 3); (day1, ToggleSubtask 4)] in
  option_map Task.progress (get_task s2 1) = Some (decimal1 500) /\
  option_map Task.status (get_task s2 1) = Some IN_PROGRESS /\
  option_map Task.started_at (get_task s2 1) = Some (Some day0) /\
  option_map Task.progress (get_task s4 1) = Some PyFloat.hundred /\
  option_map Task.status (get_task s4 1) = Some DONE /\
  option_map Task.completed_at (get_task s4 1) = Some (Some day1) /\
  option_map Task.started_at (get_task s4 1) = Some (Some day0).
Proof. vm_compute. repeat split. Qed.

(** [api_create_subtask] demotes a done task without running the cascade:
    A is left todo although B, which it depends on, is no longer done. *)
Example create_subtask_skips_cascade :
  let s := run empty_store reopen_trace in
  option_map Task.status (get_task s 1) = Some IN_PROGRESS /\
  option_map Task.status (get_task s 2) = Some TODO /\
  has_blocking_dependencies s (plain_task 2 "A" TODO) = true.
Proof. vm_compute. repeat split. Qed.

(* ------------------------------------------------------------------ *)
(** ** Basic facts about the store *)

Lemma status_eqb_true (a b : string) : (a =? b)%string = true <-> a = b.
Proof. apply String.eqb_eq. Qed.

Lemma status_eqb_false (a b : string) : (a =? b)%string = false <-> a <> b.
Proof. apply String.eqb_neq. Qed.

Lemma find_id_some (s : Store) (tid : Z) (t : Task.t) :
  get_task s tid = Some t -> In t (tasks s) /\ Task.id t = tid.
Proof.
  unfold get_task. intros H. apply find_some in H.
  destruct H as [Hin Heq]. apply Z.eqb_eq in Heq. auto.
Qed.

(** The Dependency Checker without its two early returns. *)
Lemma has_blocking_flat (s : Store) (t : Task.t) :
  has_blocking_dependencies s t =
  existsb (fun x => negb (Task.status x =? DONE)%string)
    (filter (fun x => existsb (Z.eqb (Task.id x))
                        (map Dependency.depends_on_id
                             (dependencies_of s (Task.id t))))
            (tasks s)).
Proof.
  unfold has_blocking_dependencies.
  destruct (dependencies_of s (Task.id t)) as [|d ds]; [|reflexivity].
  simpl. induction (tasks s) as [|x l IH]; [reflexivity|exact IH].
Qed.

(** The Dependency Checker answers true exactly for the tasks that have an
    unmet dependency. *)
Lemma has_blocking_spec (s : Store) (t : Task.t) :
  has_blocking_dependencies s t = true <-> has_unmet_dependency s t.
Proof.
  rewrite has_blocking_flat, existsb_exists. unfold has_unmet_dependency.
  split.
  - intros (x & Hx & Hst). apply filter_In in Hx. destruct Hx as [Hx Hex].
    apply existsb_exists in Hex. destruct Hex as (i & Hi & Hxi).
    apply in_map_iff in Hi. destruct Hi as (d & Hd & Hin).
    apply filter_In in Hin. destruct Hin as [Hin Htid].
    apply Z.eqb_eq in Hxi, Htid.
    exists d, x. repeat split; auto; try congruence.
    apply negb_true_iff, status_eqb_false in Hst. exact Hst.
  - intros (d & x & Hd & Htid & Hx & Hid & Hst).
    exists x. split.
    + apply filter_In. split; [exact Hx|].
      apply existsb_exists. exists (Dependency.depends_on_id d). split.
      * apply in_map. apply filter_In. split; [exact Hd|].
        apply Z.eqb_eq. exact Htid.
      * apply Z.eqb_eq. exact Hid.
    + apply negb_true_iff, status_eqb_false. exact Hst.
Qed.

(* ------------------------------------------------------------------ *)
(** ** The Dependency Checker and the explicit transition to done *)

(** C9.  A task all of whose dependency edges point at ids that no task
    carries is reported as not blocking. *)
Theorem dangling_edges_do_not_block (s : Store) (t : Task.t) :
  (forall d, In d (dependencies s) -> Dependency.task_id d = Task.id t ->
     forall x, In x (tasks s) -> Task.id x <> Dependency.depends_on_id d) ->
  has_blocking_dependencies s t = false.
Proof.
  intros Hdangling.
  destruct (has_blocking_dependencies s t) eqn:E; [|reflexivity].
  apply has_blocking_spec in E.
  destruct E as (d & x & Hd & Htid & Hx & Hid & _).
  exfalso. exact (Hdangling d Hd Htid x Hx Hid).
Qed.

Lemma dangling_edges_witness :
  has_blocking_dependencies dangling_store (plain_task 1 "T" TODO) = false.
Proof.
  apply dangling_edges_do_not_block.
  intros d Hd _ x Hx.
  simpl in Hd, Hx.
  destruct Hx as [<-|[]].
  destruct Hd as [<-|[<-|[]]]; simpl; lia.
Defined.

(** C2.  Asking for done on a task with an unmet dependency is refused with
    the BlockedOperation answer, and the store is the one before the call. *)
Theorem complete_blocked_task_fails (s : Store) (today : date) (t : Task.t) :
  get_task s (Task.id t) = Some t ->
  has_unmet_dependency s t ->
  api_update_task_status s today (Task.id t) (Some DONE)
  = (s, Abort 400 (Some "Task has incomplete dependencies")) /\
  error_kind (snd (api_update_task_status s today (Task.id t) (Some DONE)))
  = Some BlockedOperation.
Proof.
  intros Hget Hunmet.
  apply has_blocking_spec in Hunmet.
  assert (E : api_update_task_status s today (Task.id t) (Some DONE)
              = (s, Abort 400 (Some "Task has incomplete dependencies"))).
  { unfold api_update_task_status. rewrite Hget.
    change ((DONE =? TODO)%string) with false.
    change ((DONE =? IN_PROGRESS)%string) with false.
    change ((DONE =? DONE)%string) with true.
    cbn [orb negb]. rewrite Hunmet. reflexivity. }
  split; [exact E|]. rewrite E. reflexivity.
Qed.

Lemma complete_blocked_task_witness :
  api_update_task_status blocked_store day0 2 (Some DONE)
  = (blocked_store, Abort 400 (Some "Task has incomplete dependencies")).
Proof.
  refine (proj1 (complete_blocked_task_fails blocked_store day0
                   (plain_task 2 "B" BLOCKED) _ _)).
  - reflexivity.
  - exists (Dependency.mk 1 2 1), (plain_task 1 "C" TODO).
    simpl. repeat split; auto. discriminate.
Defined.

(* ------------------------------------------------------------------ *)
(** ** Date arithmetic *)















(* ------------------------------------------------------------------ *)
(** ** Week-to-date mapping *)




(* ------------------------------------------------------------------ *)
(** ** Progress Calculator *)

(** C4, as the source has it.  With [N > 0] subtasks of which [done] are
    done, the progress is [round(100.0 * (done / N), 1)], the quotient being
    rounded to a double before it is scaled; with no subtask it is 100.0
    for a done task and 0.0 otherwise. *)
Theorem progress_formula (s : Store) (t : Task.t) :
  (0 < total_count s t ->
   compute_task_progress s t
   = code_progress (done_count s t) (total_count s t)) /\
  (total_count s t = 0 ->
   compute_task_progress s t
   = if (Task.status t =? DONE)%string then PyFloat.hundred else PyFloat.zero).
Proof.
  unfold compute_task_progress, total_count, done_count, code_progress.
  split; intros H.
  - replace (_ =? 0) with false by (symmetry; apply Z.eqb_neq; lia).
    reflexivity.
  - rewrite H. reflexivity.
Qed.

Lemma progress_formula_witness :
  compute_task_progress store_23_of_80 (plain_task 1 "T" IN_PROGRESS)
  = code_progress 23 80 /\
  compute_task_progress empty_store (plain_task 1 "T" DONE) = PyFloat.hundred.
Proof.
  split.
  - refine (proj1 (progress_formula store_23_of_80
                     (plain_task 1 "T" IN_PROGRESS)) _).
    vm_compute. reflexivity.
  - refine (proj2 (progress_formula empty_store (plain_task 1 "T" DONE)) _).
    reflexivity.
Defined.

(** C4, as the specification words it, fails: with 23 of 80 subtasks done
    the source answers 28.7, and [round(100 * 23 / 80, 1)] is 28.8 (the
    product 2300/80 is 28.75 exactly, a tie that goes to the even 28.8,
    while 100.0 * (23/80) falls just below 28.75). *)
Lemma progress_formula_counterexample :
  let t := plain_task 1 "T" IN_PROGRESS in
  total_count store_23_of_80 t = 80 /\
  done_count store_23_of_80 t = 23 /\
  compute_task_progress store_23_of_80 t = decimal1 287 /\
  spec_progress 23 80 = decimal1 288 /\
  compute_task_progress store_23_of_80 t
  <> spec_progress (done_count store_23_of_80 t) (total_count store_23_of_80 t).
Proof.
  cbv zeta. repeat split; try (vm_compute; reflexivity).
  vm_compute. discriminate.
Qed.

(* ------------------------------------------------------------------ *)
(** ** Writes to a row, and what they leave alone *)

Lemma same_but_refl (x : Task.t) : same_but_status_progress x x.
Proof. unfold same_but_status_progress. repeat split. Qed.

Lemma same_but_trans (x y z : Task.t) :
  same_but_status_progress x y -> same_but_status_progress y z ->
  same_but_status_progress x z.
Proof.
  unfold same_but_status_progress. intros H1 H2.
  repeat match goal with H : _ /\ _ |- _ => destruct H end.
  repeat split; congruence.
Qed.

Lemma same_but_set_status (v : string) (x : Task.t) :
  same_but_status_progress x (Task.set_status v x).
Proof. unfold same_but_status_progress. repeat split. Qed.

Lemma same_but_set_progress (v : PyFloat.t) (x : Task.t) :
  same_but_status_progress x (Task.set_progress v x).
Proof. unfold same_but_status_progress. repeat split. Qed.

Create HintDb frame.
#[local] Hint Resolve same_but_refl same_but_set_status same_but_set_progress
  : frame.

Lemma touches_only_refl (P : Z -> Prop) (s : Store) : touches_only P s s.
Proof.
  unfold touches_only. repeat split.
  induction (tasks s); constructor; auto with frame.
Qed.

Lemma touches_only_trans (P : Z -> Prop) (s1 s2 s3 : Store) :
  touches_only P s1 s2 -> touches_only P s2 s3 -> touches_only P s1 s3.
Proof.
  unfold touches_only. intros (Hs & Hd & H12) (Hs' & Hd' & H23).
  repeat split; try congruence.
  revert H23. generalize (tasks s3). clear Hs Hd Hs' Hd'.
  induction H12 as [|x y l l' [Hxy Hx] _ IH]; intros l3 H23;
    inversion H23 as [|? z ? l3' [Hyz Hy] Hrest]; subst; constructor.
  - split; [eapply same_but_trans; eauto|].
    intros Hn. rewrite <- (Hx Hn). apply Hy.
    destruct Hxy as [Hid _]. rewrite Hid. exact Hn.
  - apply IH. exact Hrest.
Qed.

Lemma touches_only_weaken (P Q : Z -> Prop) (s s' : Store) :
  (forall i, P i -> Q i) -> touches_only P s s' -> touches_only Q s s'.
Proof.
  unfold touches_only. intros HPQ (Hs & Hd & H). repeat split; auto.
  induction H as [|x y l l' [Hxy Hx] _ IH]; constructor; auto.
  split; [exact Hxy|]. intros Hn. apply Hx. intros Hp. apply Hn, HPQ, Hp.
Qed.

Lemma update_task_touches (s : Store) (tid : Z) (f : Task.t -> Task.t) :
  (forall x, same_but_status_progress x (f x)) ->
  touches_only (eq tid) s (update_task s tid f).
Proof.
  intros Hf. unfold touches_only, update_task. cbn [tasks subtasks dependencies].
  repeat split.
  induction (tasks s) as [|x l IH]; cbn [map]; constructor; auto.
  destruct (Z.eqb_spec (Task.id x) tid) as [E|E].
  - split; [apply Hf|]. intros Hn. exfalso. apply Hn. symmetry. exact E.
  - split; auto with frame.
Qed.

(** One turn of the cascade writes status and progress of one row. *)
Lemma update_dependent_touches (s : Store) (dep : Dependency.t) :
  touches_only (eq (Dependency.task_id dep)) s (update_dependent s dep).
Proof.
  unfold update_dependent.
  destruct (get_task s (Dependency.task_id dep)) as [dt0|] eqn:G;
    [|apply touches_only_refl].
  apply find_id_some in G. destruct G as [_ Hid]. rewrite <- Hid.
  cbn [Task.id Task.set_progress].
  eapply touches_only_trans;
    [apply update_task_touches; auto with frame|].
  repeat match goal with
         | |- context [if ?c then _ else _] => destruct c
         end;
    try apply touches_only_refl;
    apply update_task_touches; auto with frame.
Qed.

Lemma cascade_touches (deps : list Dependency.t) :
  forall s,
    touches_only (fun i => In i (map Dependency.task_id deps))
                 s (fold_left update_dependent deps s).
Proof.
  induction deps as [|d deps IH]; intros s; cbn [fold_left map].
  - apply touches_only_refl.
  - eapply touches_only_trans.
    + eapply touches_only_weaken; [|apply (update_dependent_touches s d)].
      intros i <-. left. reflexivity.
    + eapply touches_only_weaken; [|apply IH].
      intros i Hi. right. exact Hi.
Qed.

Lemma Forall2_nth_error {A B : Type} (R : A -> B -> Prop)
  (l : list A) (l' : list B) :
  Forall2 R l l' ->
  forall i x, nth_error l i = Some x ->
  exists y, nth_error l' i = Some y /\ R x y.
Proof.
  induction 1 as [|a b l l' Hab _ IH]; intros [|i] x Hx; cbn in *;
    try discriminate.
  - injection Hx as <-. eauto.
  - apply IH. exact Hx.
Qed.

Lemma in_dependents_of (s : Store) (c i : Z) :
  In i (map Dependency.task_id (dependents_of s c)) <->
  exists d, In d (dependencies s) /\ Dependency.task_id d = i /\
            Dependency.depends_on_id d = c.
Proof.
  unfold dependents_of. rewrite in_map_iff. split.
  - intros (d & Hi & Hin). apply filter_In in Hin. destruct Hin as [Hin Hc].
    apply Z.eqb_eq in Hc. eauto.
  - intros (d & Hin & Hi & Hc). exists d. split; [exact Hi|].
    apply filter_In. split; [exact Hin|]. apply Z.eqb_eq. exact Hc.
Qed.

(* ------------------------------------------------------------------ *)
(** ** Cascade *)

(** C5.  The cascade rooted at [c] leaves subtasks and edges alone, and
    every task row without an edge straight to [c] is after the call what
    it was before, in the same place: only direct dependents are written. *)
Theorem cascade_is_single_hop (s : Store) (c : Z) :
  subtasks (update_dependents_status s c) = subtasks s /\
  dependencies (update_dependents_status s c) = dependencies s /\
  forall i U,
    nth_error (tasks s) i = Some U ->
    ~ depends_directly_on s U c ->
    nth_error (tasks (update_dependents_status s c)) i = Some U.
Proof.
  destruct (cascade_touches (dependents_of s c) s) as (Hs & Hd & HF).
  fold (update_dependents_status s c) in Hs, Hd, HF.
  repeat split; auto.
  intros i U Hi Hno.
  destruct (Forall2_nth_error _ _ _ HF i U Hi) as (U' & Hi' & _ & Hsame).
  rewrite Hi'. f_equal. apply Hsame.
  intros Hin. apply in_dependents_of in Hin.
  destruct Hin as (d & Hd' & Htid & Hc).
  apply Hno. exists d. auto.
Qed.

Lemma cascade_is_single_hop_witness :
  nth_error (tasks (update_dependents_status chain_store 1)) 2 = Some chain_A.
Proof.
  refine (proj2 (proj2 (cascade_is_single_hop chain_store 1)) 2%nat chain_A _ _).
  - reflexivity.
  - intros (d & Hd & Htid & Hc). simpl in Hd.
    destruct Hd as [<-|[<-|[]]]; simpl in Htid, Hc; discriminate.
Defined.

(** C10.  The cascade writes status and progress only: whatever it does to
    a row, [started_at] and [completed_at] (and every other column) are as
    before.  So a dependent that it promotes from blocked to done keeps null
    timestamps, as B in the chain does when C is completed. *)
Theorem cascade_keeps_timestamps :
  (forall s c i U,
     nth_error (tasks s) i = Some U ->
     exists U',
       nth_error (tasks (update_dependents_status s c)) i = Some U' /\
       same_but_status_progress U U') /\
  (Task.status chain_B = BLOCKED /\
   depends_directly_on chain_store chain_B 1 /\
   get_task (update_dependents_status chain_store 1) 2
   = Some (Task.set_status DONE chain_B) /\
   Task.progress (Task.set_status DONE chain_B) = PyFloat.hundred /\
   Task.started_at (Task.set_status DONE chain_B) = None /\
   Task.completed_at (Task.set_status DONE chain_B) = None).
Proof.
  split.
  - intros s c i U Hi.
    destruct (cascade_touches (dependents_of s c) s) as (_ & _ & HF).
    fold (update_dependents_status s c) in HF.
    destruct (Forall2_nth_error _ _ _ HF i U Hi) as (U' & Hi' & Hsame & _).
    eauto.
  - repeat split; try reflexivity.
    exists (Dependency.mk 2 2 1). simpl. auto.
Qed.

Lemma cascade_keeps_timestamps_witness :
  exists U',
    nth_error (tasks (update_dependents_status chain_store 1)) 1 = Some U' /\
    same_but_status_progress chain_B U'.
Proof.
  exact (proj1 cascade_keeps_timestamps chain_store 1 1%nat chain_B eq_refl).
Defined.

(* ------------------------------------------------------------------ *)
(** ** Status Deriver *)

Lemma NoDup_map_inj {A B : Type} (f : A -> B) (l : list A) (x y : A) :
  NoDup (map f l) -> In x l -> In y l -> f x = f y -> x = y.
Proof.
  induction l as [|a l IH]; cbn [map]; intros Hnd Hx Hy Hxy; [destruct Hx|].
  inversion Hnd as [|? ? Hnotin Hnd']; subst.
  destruct Hx as [<-|Hx], Hy as [<-|Hy]; auto.
  - exfalso. apply Hnotin. rewrite Hxy. apply in_map. exact Hy.
  - exfalso. apply Hnotin. rewrite <- Hxy. apply in_map. exact Hx.
Qed.

Lemma get_task_update (s : Store) (tid : Z) (f : Task.t -> Task.t) (t : Task.t) :
  (forall x, Task.id (f x) = Task.id x) ->
  get_task s tid = Some t ->
  get_task (update_task s tid f) tid = Some (f t).
Proof.
  intros Hf. unfold get_task, update_task. cbn [tasks].
  induction (tasks s) as [|x l IH]; cbn [find map]; [discriminate|].
  destruct (Z.eqb_spec (Task.id x) tid) as [E|E].
  - intros [= ->]. rewrite Hf. rewrite <- E, Z.eqb_refl. reflexivity.
  - destruct (Z.eqb_spec (Task.id x) tid); [contradiction|]. exact IH.
Qed.

(** Writing a status other than done into a row that is not done does not
    change which tasks have an unmet dependency. *)
Lemma unmet_after_status_write (s : Store) (t : Task.t) (v : string) :
  NoDup (map Task.id (tasks s)) ->
  get_task s (Task.id t) = Some t ->
  Task.status t <> DONE -> v <> DONE ->
  forall u u', Task.id u' = Task.id u ->
    (has_unmet_dependency (update_task s (Task.id t) (Task.set_status v)) u'
     <-> has_unmet_dependency s u).
Proof.
  intros Hnd Hget Hst Hv u u' Hu.
  apply find_id_some in Hget. destruct Hget as [Hin _].
  unfold has_unmet_dependency, update_task. cbn [tasks dependencies].
  split.
  - intros (d & x' & Hd & Htid & Hx' & Hid & Hs).
    apply in_map_iff in Hx'. destruct Hx' as (x & <- & Hx).
    exists d, x.
    destruct (Z.eqb_spec (Task.id x) (Task.id t)) as [E|E].
    + assert (x = t) by (eapply (NoDup_map_inj Task.id); eauto). subst x.
      repeat split; auto; congruence.
    + repeat split; auto; congruence.
  - intros (d & x & Hd & Htid & Hx & Hid & Hs).
    exists d.
    exists (if Task.id x =? Task.id t then Task.set_status v x else x).
    repeat split; auto; try congruence.
    + apply in_map_iff. exists x. auto.
    + destruct (Task.id x =? Task.id t); auto.
    + destruct (Task.id x =? Task.id t); auto.
Qed.

(** C1, as far as the source goes.  Right after the Status Deriver has run
    on a task, that task is blocked if and only if it has an unmet
    dependency and is not done. *)
Theorem status_deriver_blocked_iff (s : Store) (t : Task.t) :
  NoDup (map Task.id (tasks s)) ->
  get_task s (Task.id t) = Some t ->
  exists t',
    get_task (enforce_blocking_status s t) (Task.id t) = Some t' /\
    (Task.status t' = BLOCKED <->
     has_unmet_dependency (enforce_blocking_status s t) t' /\
     Task.status t' <> DONE).
Proof.
  intros Hnd Hget. unfold enforce_blocking_status.
  destruct (Task.status t =? DONE)%string eqn:Edone;
    [apply status_eqb_true in Edone | apply status_eqb_false in Edone];
    destruct (has_blocking_dependencies s t) eqn:Eb; cbn [negb andb].
  - (* done, with an unmet dependency *)
    rewrite Edone. change ((DONE =? BLOCKED)%string) with false. cbn [andb].
    exists t. split; [exact Hget|]. rewrite Edone. split.
    + discriminate.
    + intros [_ H]. contradiction.
  - rewrite Edone. change ((DONE =? BLOCKED)%string) with false. cbn [andb].
    exists t. split; [exact Hget|]. rewrite Edone. split.
    + discriminate.
    + intros [_ H]. contradiction.
  - (* not done, with an unmet dependency: blocked *)
    exists (Task.set_status BLOCKED t). split.
    + apply get_task_update; [reflexivity|exact Hget].
    + cbn [Task.status Task.set_status]. split; [intros _|reflexivity].
      split; [|discriminate].
      apply (unmet_after_status_write s t BLOCKED Hnd Hget Edone
               ltac:(discriminate) t); [reflexivity|].
      apply has_blocking_spec. exact Eb.
  - (* not done, no unmet dependency *)
    destruct (Task.status t =? BLOCKED)%string eqn:Eblk;
      [apply status_eqb_true in Eblk | apply status_eqb_false in Eblk];
      cbn [andb negb].
    + set (v := if PyFloat.ltb PyFloat.zero (Task.progress t)
                then IN_PROGRESS else TODO).
      assert (Hv : v <> DONE /\ v <> BLOCKED)
        by (unfold v; destruct (PyFloat.ltb _ _); split; discriminate).
      exists (Task.set_status v t). split.
      * apply get_task_update; [reflexivity|exact Hget].
      * cbn [Task.status Task.set_status]. split.
        -- intros E. exfalso. apply (proj2 Hv E).
        -- intros [Hun _]. exfalso.
           apply (unmet_after_status_write s t v Hnd Hget Edone
                    (proj1 Hv) t) in Hun; [|reflexivity].
           apply has_blocking_spec in Hun. congruence.
    + exists t. split; [exact Hget|]. split.
      * intros E. contradiction.
      * intros [Hun _]. apply has_blocking_spec in Hun. congruence.
Qed.

Lemma status_deriver_blocked_iff_witness :
  exists t',
    get_task (enforce_blocking_status stale_store (plain_task 2 "B" TODO)) 2
    = Some t' /\
    (Task.status t' = BLOCKED <->
     has_unmet_dependency
       (enforce_blocking_status stale_store (plain_task 2 "B" TODO)) t' /\
     Task.status t' <> DONE).
Proof.
  refine (status_deriver_blocked_iff stale_store (plain_task 2 "B" TODO) _ _).
  - simpl. repeat constructor; simpl; intuition discriminate.
  - reflexivity.
Defined.

(* ------------------------------------------------------------------ *)
(** ** Stores the API can produce *)

Lemma reachable_run (reqs : list (date * Request)) :
  forall s, reachable s -> reachable (run s reqs).
Proof.
  induction reqs as [|[d r] reqs IH]; intros s Hs; [exact Hs|].
  apply (IH (fst (handle s d r))). apply reachable_step. exact Hs.
Qed.

Lemma chain_trace_runs : run empty_store chain_trace = chain_after.
Proof. vm_compute. reflexivity. Qed.

(** C1 fails as an invariant of the reachable stores.  After [chain_trace]
    task A is blocked although B, the only task it depends on, is done: B
    was promoted by the cascade rooted at C, and the cascade stops at the
    direct dependents of C. *)
Lemma blocked_iff_counterexample :
  ~ (forall s, reachable s ->
     forall T, In T (tasks s) ->
       (Task.status T = BLOCKED <->
        has_unmet_dependency s T /\ Task.status T <> DONE)).
Proof.
  intros H.
  assert (Hr : reachable chain_after).
  { rewrite <- chain_trace_runs. apply reachable_run, reachable_empty. }
  specialize (H chain_after Hr (plain_task 3 "A" BLOCKED)).
  destruct H as [H _]; [simpl; auto|].
  destruct (H eq_refl) as [(d & x & Hd & Htid & Hx & Hid & Hs) _].
  simpl in Hd, Hx.
  destruct Hd as [<-|[<-|[]]]; simpl in Htid, Hid; try discriminate.
  destruct Hx as [<-|[<-|[<-|[]]]]; simpl in Hid, Hs; try discriminate.
  apply Hs. reflexivity.
Qed.

(* ------------------------------------------------------------------ *)
(** ** Failures and what they leave behind *)

(** C3, at its own example.  Adding an edge whose [task_id] names no task
    answers 404, yet the edge is in the store afterwards: the handler stores
    and commits the edge before it looks the task up. *)
Theorem add_dependency_unknown_task_persists_edge :
  api_add_dependency lonely_store (Some 1) (Some 2)
  = (mkStore [plain_task 2 "B" TODO] [] [Dependency.mk 1 1 2], Abort 404 None)
  /\ error_kind (snd (api_add_dependency lonely_store (Some 1) (Some 2)))
     = Some NotFound
  /\ dependencies (fst (api_add_dependency lonely_store (Some 1) (Some 2)))
     <> dependencies lonely_store.
Proof.
  repeat split. vm_compute. discriminate.
Qed.

(* ------------------------------------------------------------------ *)
(** ** Subtask deletion *)

(** C8, where the source falls short.  Deleting the only open subtask of a
    task that has no [started_at] brings the progress to 100.0 and the
    status to done with [completed_at] set to today, but [started_at] stays
    null (the toggle handler and the status handler set both). *)
Theorem delete_subtask_leaves_started_at_unset :
  let t' :=
    Task.mk 1 "t" "T" "" DONE 2 0 None None None (Some day0) PyFloat.hundred in
  has_blocking_dependencies half_done_store half_done_task = false /\
  Task.started_at half_done_task = None /\
  api_delete_subtask half_done_store day0 2
  = (mkStore [t'] [Subtask.mk 1 1 "a" true] [], Ok (RespTaskOpt (Some t'))) /\
  api_delete_subtask seeded_store day0 1
  = (mkStore [t'] [] [], Ok (RespTaskOpt (Some t'))).
Proof.
  cbv zeta. repeat split.
Qed.

(* ------------------------------------------------------------------ *)
(** ** Dependency edges *)

Lemma deps_enforce (s : Store) (t : Task.t) :
  dependencies (enforce_blocking_status s t) = dependencies s.
Proof.
  unfold enforce_blocking_status.
  repeat match goal with
         | |- context [if ?c then _ else _] => destruct c
         end; reflexivity.
Qed.

Lemma deps_cascade (s : Store) (c : Z) :
  dependencies (update_dependents_status s c) = dependencies s.
Proof. apply (cascade_touches (dependents_of s c) s). Qed.

Lemma deps_store_progress (s : Store) (t : Task.t) :
  dependencies (store_progress s t) = dependencies s.
Proof. reflexivity. Qed.

Lemma deps_update_task (s : Store) (i : Z) (f : Task.t -> Task.t) :
  dependencies (update_task s i f) = dependencies s.
Proof. reflexivity. Qed.

Lemma deps_update_subtask (s : Store) (i : Z) (f : Subtask.t -> Subtask.t) :
  dependencies (update_subtask s i f) = dependencies s.
Proof. reflexivity. Qed.

Lemma deps_set_subtasks_done (s : Store) (i : Z) (v : bool) :
  dependencies (set_subtasks_done s i v) = dependencies s.
Proof. reflexivity. Qed.

Lemma deps_recompute (ids : list Z) :
  forall s, dependencies (fold_left recompute_task ids s) = dependencies s.
Proof.
  induction ids as [|i ids IH]; intros s; cbn [fold_left]; [reflexivity|].
  rewrite IH. unfold recompute_task.
  destruct (get_task s i); [|reflexivity].
  rewrite deps_enforce. reflexivity.
Qed.

Create Rewrite HintDb deps.
#[local] Hint Rewrite deps_enforce deps_cascade deps_store_progress
  deps_update_task deps_update_subtask deps_set_subtasks_done deps_recompute
  : deps.

Ltac split_cases :=
  repeat match goal with
         | |- context [match ?x with _ => _ end] => destruct x eqn:?
         end.

Ltac same_deps :=
  cbv zeta; split_cases; cbn [fst];
  repeat (autorewrite with deps; cbn [dependencies]; split_cases);
  try reflexivity.

(** The handlers that never write to the dependency table. *)
Lemma handle_keeps_edges (s : Store) (today : date) (r : Request) :
  match r with
  | AddDependency _ _ | DeleteDependency _ | DeleteTask _ => True
  | _ => dependencies (fst (handle s today r)) = dependencies s
  end.
Proof.
  destruct r; cbn [handle]; try exact I.
  - unfold api_tasks. same_deps.
  - unfold api_update_task_status. same_deps.
  - unfold api_edit_task. same_deps.
  - unfold api_create_subtask. same_deps.
  - unfold api_toggle_subtask. same_deps.
  - unfold api_delete_subtask. same_deps.
Qed.

(** Dropping edges keeps the pairs of endpoints distinct. *)
Lemma endpoints_filter (keep : Dependency.t -> bool) (l : list Dependency.t) :
  NoDup (map endpoints l) -> NoDup (map endpoints (filter keep l)).
Proof.
  induction l as [|d l IH]; cbn [map filter]; intros Hnd; [constructor|].
  apply NoDup_cons_iff in Hnd. destruct Hnd as [Hfresh Hnd].
  destruct (keep d); cbn [map]; [|exact (IH Hnd)].
  apply NoDup_cons; [|exact (IH Hnd)].
  intros Hin. apply Hfresh. apply in_map_iff in Hin.
  destruct Hin as (d' & Hd' & Hin). apply filter_In in Hin.
  rewrite <- Hd'. apply in_map. apply Hin.
Qed.

(** A new edge whose pair is not yet there keeps them distinct too. *)
Lemma endpoints_snoc (l : list Dependency.t) (d : Dependency.t) :
  NoDup (map endpoints l) -> ~ In (endpoints d) (map endpoints l) ->
  NoDup (map endpoints (l ++ [d])).
Proof.
  intros Hnd Hfresh. rewrite map_app. cbn [map].
  apply NoDup_app; [exact Hnd| |].
  - constructor; [intros []|constructor].
  - intros x Hx [<-|[]]. exact (Hfresh Hx).
Qed.

Lemma edges_ok_filter (p : Dependency.t -> bool) (l : list Dependency.t) :
  edges_ok l -> edges_ok (filter p l).
Proof.
  intros [Hnd Hok]. split; [apply endpoints_filter, Hnd|].
  intros d Hd. apply filter_In in Hd. apply Hok. tauto.
Qed.

Lemma find_dependency_none (s : Store) (a b : Z) :
  find_dependency s a b = None ->
  ~ In (a, b) (map endpoints (dependencies s)).
Proof.
  unfold find_dependency. intros Hnone Hin.
  apply in_map_iff in Hin. destruct Hin as (d & Hd & Hin).
  pose proof (find_none _ _ Hnone d Hin) as H. cbn beta in H.
  unfold endpoints in Hd. injection Hd as <- <-.
  rewrite !Z.eqb_refl in H. discriminate.
Qed.

(** With one edge per pair, the lookup by endpoints finds that very edge. *)
Lemma find_dependency_in (s : Store) (e : Dependency.t) :
  edges_wf s -> In e (dependencies s) ->
  find_dependency s (Dependency.task_id e) (Dependency.depends_on_id e)
  = Some e.
Proof.
  intros [Hnd _] Hin. unfold find_dependency.
  destruct (find _ (dependencies s)) as [e'|] eqn:F.
  - apply find_some in F. destruct F as [Hin' Heq].
    apply andb_true_iff in Heq. destruct Heq as [H1 H2].
    apply Z.eqb_eq in H1, H2. f_equal.
    apply (NoDup_map_inj endpoints (dependencies s)); auto.
    unfold endpoints. congruence.
  - pose proof (find_none _ _ F e Hin) as H. cbn beta in H.
    rewrite !Z.eqb_refl in H. discriminate.
Qed.

(** Every handler keeps the edges well formed: one edge per pair of
    endpoints, endpoints non-zero and distinct. *)
Lemma handle_edges_wf (s : Store) (today : date) (r : Request) :
  edges_wf s -> edges_wf (fst (handle s today r)).
Proof.
  intros Hwf. pose proof (handle_keeps_edges s today r) as Hk.
  unfold edges_wf in *.
  destruct r; try (rewrite Hk; exact Hwf); cbn [handle]; clear Hk.
  - (* delete task *)
    unfold api_delete_task. destruct (get_task s task_id); [|exact Hwf].
    cbn [fst]. rewrite deps_recompute. cbn [dependencies].
    apply edges_ok_filter, Hwf.
  - (* add dependency *)
    unfold api_add_dependency.
    set (a := int_or task_id 0). set (b := int_or depends_on_id 0).
    destruct ((a =? 0) || (b =? 0) || (a =? b)) eqn:Eguard; [exact Hwf|].
    apply orb_false_iff in Eguard. destruct Eguard as [Eguard Eab].
    apply orb_false_iff in Eguard. destruct Eguard as [Ea Eb].
    apply Z.eqb_neq in Ea, Eb, Eab.
    destruct (find_dependency s a b) eqn:F; [exact Hwf|].
    assert (Hnew : edges_ok (dependencies s ++ [Dependency.mk
                     (next_id (map Dependency.id (dependencies s))) a b])).
    { destruct Hwf as [Hnd Hok]. split.
      - apply endpoints_snoc; [exact Hnd|].
        apply (find_dependency_none s a b F).
      - intros d Hd. apply in_app_iff in Hd. destruct Hd as [Hd|[<-|[]]].
        + apply Hok, Hd.
        + cbn. auto. }
    cbv zeta. split_cases; cbn [fst]; rewrite ?deps_enforce;
      cbn [dependencies]; exact Hnew.
  - (* delete dependency *)
    unfold api_delete_dependency.
    destruct (get_dependency s dep_id); [|exact Hwf].
    cbv zeta. split_cases; cbn [fst]; rewrite ?deps_enforce;
      cbn [dependencies]; apply edges_ok_filter, Hwf.
Qed.

Lemma reachable_edges_wf (s : Store) : reachable s -> edges_wf s.
Proof.
  induction 1 as [|s today r _ IH].
  - split; [constructor|intros d []].
  - apply handle_edges_wf, IH.
Qed.

(** C6.  In every store the API can produce there is one edge per pair of
    endpoints, and asking again for an edge that exists answers with that
    edge and leaves the store as it is. *)
Theorem add_dependency_idempotent (s : Store) :
  reachable s ->
  NoDup (map endpoints (dependencies s)) /\
  forall e, In e (dependencies s) ->
    api_add_dependency s (Some (Dependency.task_id e))
                         (Some (Dependency.depends_on_id e))
    = (s, Ok (RespDependency e)).
Proof.
  intros Hr. pose proof (reachable_edges_wf s Hr) as Hwf.
  split; [apply Hwf|].
  intros e He. destruct (proj2 Hwf e He) as (Ha & Hb & Hab).
  unfold api_add_dependency, int_or.
  apply Z.eqb_neq in Ha, Hb, Hab.
  rewrite Ha, Hb. rewrite Ha, Hb, Hab. cbn [orb].
  rewrite (find_dependency_in s e Hwf He). reflexivity.
Qed.

Lemma add_dependency_idempotent_witness :
  api_add_dependency chain_after (Some 3) (Some 2)
  = (chain_after, Ok (RespDependency (Dependency.mk 1 3 2))).
Proof.
  refine (proj2 (add_dependency_idempotent chain_after _)
                (Dependency.mk 1 3 2) _).
  - rewrite <- chain_trace_runs. apply reachable_run, reachable_empty.
  - simpl. auto.
Defined.

(* ------------------------------------------------------------------ *)
(** ** Failed requests *)

(** X20.  Apart from the two lookups that come after a commit (the 404 of
    [api_add_dependency] and the AttributeError of [api_delete_dependency]
    on an edge whose task is gone), a request that fails leaves the store as
    it found it. *)
Lemma failure_leaves_store (s : Store) (today : date) (r : Request) :
  failed (snd (handle s today r)) = true ->
  fst (handle s today r) = s \/
  (exists a b, r = AddDependency a b /\
               snd (handle s today r) = Abort 404 None) \/
  (exists d, r = DeleteDependency d /\
             snd (handle s today r) = Raise "AttributeError").
Proof.
  destruct r; cbn [handle].
  - unfold api_tasks. cbv zeta. split_cases; cbn [fst snd failed];
      intros; try discriminate; auto.
  - unfold api_update_task_status. cbv zeta. split_cases; cbn [fst snd failed];
      intros; try discriminate; auto.
  - unfold api_edit_task. cbv zeta. split_cases; cbn [fst snd failed];
      intros; try discriminate; auto.
  - unfold api_delete_task. cbv zeta. split_cases; cbn [fst snd failed];
      intros; try discriminate; auto.
  - unfold api_create_subtask. cbv zeta. split_cases; cbn [fst snd failed];
      intros; try discriminate; auto.
  - unfold api_toggle_subtask. cbv zeta. split_cases; cbn [fst snd failed];
      intros; try discriminate; auto.
  - unfold api_delete_subtask. cbv zeta. split_cases; cbn [fst snd failed];
      intros; try discriminate; auto.
  - unfold api_add_dependency. cbv zeta. split_cases; cbn [fst snd failed];
      intros; try discriminate; auto.
    right; left. eauto.
  - unfold api_delete_dependency. cbv zeta. split_cases; cbn [fst snd failed];
      intros; try discriminate; auto.
    right; right. eauto.
Qed.

(* ------------------------------------------------------------------ *)
(** ** More on the Dependency Checker and the Progress Calculator *)

(** X1.  The Dependency Checker answers true exactly when some edge that
    leaves the task points at a row of the store whose status is not done;
    edges to missing rows and edges of other tasks play no part. *)
Theorem blocking_iff_unmet_dependency (s : Store) (t : Task.t) :
  has_blocking_dependencies s t = true <-> has_unmet_dependency s t.
Proof. exact (has_blocking_spec s t). Qed.

Lemma int_truediv_self (p : positive) :
  PyFloat.int_truediv (Zpos p) (Zpos p) = one.
Proof.
  unfold PyFloat.int_truediv, SFdiv, SFdiv_core_binary.
  replace (Z.min _ _) with (-53).
  2:{ unfold fexp, emin, PyFloat.prec, PyFloat.emax.
      replace (Zdigits2 (Z.pos p) + 0 - (Zdigits2 (Z.pos p) + 0)) with 0 by lia.
      reflexivity. }
  change (0 - 0 - -53) with 53.
  rewrite Z.shiftl_mul_pow2 by lia.
  replace (Z.div_eucl (Z.pos p * 2 ^ 53) (Z.pos p)) with (2 ^ 53, 0).
  2:{ assert (Hq : Z.pos p * 2 ^ 53 / Z.pos p = 2 ^ 53)
        by (rewrite Z.mul_comm; apply Z.div_mul; lia).
      assert (Hr : (Z.pos p * 2 ^ 53) mod Z.pos p = 0)
        by (rewrite Z.mul_comm; apply Z.mod_mul; lia).
      unfold Z.div, Z.modulo in Hq, Hr.
      destruct (Z.div_eucl (Z.pos p * 2 ^ 53) (Z.pos p)) as [q r].
      subst; reflexivity. }
  unfold new_location, new_location_even, new_location_odd.
  destruct (Z.even (Z.pos p)); vm_compute; reflexivity.
Qed.

Lemma code_progress_all (n : Z) : 0 < n -> code_progress n n = PyFloat.hundred.
Proof.
  intros Hn. unfold code_progress. destruct n as [|p|p]; try lia.
  rewrite int_truediv_self. vm_compute. reflexivity.
Qed.

Lemma code_progress_none (n : Z) : 0 < n -> code_progress 0 n = PyFloat.zero.
Proof.
  intros Hn. unfold code_progress. destruct n as [|p|p]; try lia.
  vm_compute. reflexivity.
Qed.

Lemma filter_all {A : Type} (p : A -> bool) (l : list A) :
  (forall x, In x l -> p x = true) -> filter p l = l.
Proof.
  induction l as [|a l IH]; cbn [filter]; intros H; [reflexivity|].
  rewrite (H a (or_introl eq_refl)). f_equal. apply IH.
  intros x Hx. apply H. right. exact Hx.
Qed.

Lemma filter_none {A : Type} (p : A -> bool) (l : list A) :
  (forall x, In x l -> p x = false) -> filter p l = [].
Proof.
  induction l as [|a l IH]; cbn [filter]; intros H; [reflexivity|].
  rewrite (H a (or_introl eq_refl)). apply IH.
  intros x Hx. apply H. right. exact Hx.
Qed.

Lemma progress_when_all_done (s : Store) (t : Task.t) :
  (forall st, In st (subtasks_of s (Task.id t)) -> Subtask.done st = true) ->
  0 < total_count s t \/ Task.status t = DONE ->
  compute_task_progress s t = PyFloat.hundred.
Proof.
  intros Hall Hor. unfold compute_task_progress.
  fold (total_count s t). rewrite (filter_all _ _ Hall). fold (total_count s t).
  destruct (Z.eqb_spec (total_count s t) 0) as [E|E].
  - destruct Hor as [H|H]; [lia|]. rewrite H. reflexivity.
  - apply code_progress_all. unfold total_count in *. lia.
Qed.

Lemma progress_when_none_done (s : Store) (t : Task.t) :
  (forall st, In st (subtasks_of s (Task.id t)) -> Subtask.done st = false) ->
  0 < total_count s t \/ Task.status t <> DONE ->
  compute_task_progress s t = PyFloat.zero.
Proof.
  intros Hnone Hor. unfold compute_task_progress.
  fold (total_count s t). rewrite (filter_none _ _ Hnone). cbn [List.length].
  destruct (Z.eqb_spec (total_count s t) 0) as [E|E].
  - destruct Hor as [H|H]; [lia|].
    apply status_eqb_false in H. rewrite H. reflexivity.
  - apply code_progress_none. unfold total_count in *. lia.
Qed.

(** X2.  Whatever the number of subtasks, a task all of whose subtasks are
    done has progress exactly 100.0, and a task with subtasks none of which
    is done has progress exactly 0.0: the two roundings never move these two
    values. *)
Theorem progress_all_or_nothing (s : Store) (t : Task.t) :
  0 < total_count s t ->
  (done_count s t = total_count s t ->
   compute_task_progress s t = PyFloat.hundred) /\
  (done_count s t = 0 -> compute_task_progress s t = PyFloat.zero).
Proof.
  intros Hn. unfold compute_task_progress.
  fold (total_count s t) (done_count s t).
  replace (total_count s t =? 0) with false by (symmetry; apply Z.eqb_neq; lia).
  split; intros ->.
  - apply code_progress_all, Hn.
  - apply code_progress_none, Hn.
Qed.

Lemma progress_all_or_nothing_witness :
  compute_task_progress all_done_store (plain_task 1 "T" IN_PROGRESS)
  = PyFloat.hundred.
Proof.
  refine (proj1 (progress_all_or_nothing all_done_store
                   (plain_task 1 "T" IN_PROGRESS) _) _);
    vm_compute; reflexivity.
Defined.

(* ------------------------------------------------------------------ *)
(** ** Subtask handlers of a blocked task *)

(** X3.  Toggling a subtask whose task has an unmet dependency is refused
    with the BlockedOperation answer, and nothing is written. *)
Theorem toggle_blocked_subtask_fails
  (s : Store) (today : date) (st : Subtask.t) (t : Task.t) :
  get_subtask s (Subtask.id st) = Some st ->
  get_task s (Subtask.task_id st) = Some t ->
  has_unmet_dependency s t ->
  api_toggle_subtask s today (Subtask.id st)
  = (s, Abort 400
          (Some "Task is blocked by dependencies; cannot toggle subtasks")) /\
  error_kind (snd (api_toggle_subtask s today (Subtask.id st)))
  = Some BlockedOperation.
Proof.
  intros Hst Ht Hun. apply has_blocking_spec in Hun.
  assert (E : api_toggle_subtask s today (Subtask.id st)
              = (s, Abort 400
                      (Some "Task is blocked by dependencies; cannot toggle subtasks"))).
  { unfold api_toggle_subtask. rewrite Hst, Ht, Hun. reflexivity. }
  split; [exact E|]. rewrite E. reflexivity.
Qed.

Lemma toggle_blocked_subtask_witness :
  api_toggle_subtask blocked_store day0 1
  = (blocked_store,
     Abort 400 (Some "Task is blocked by dependencies; cannot toggle subtasks")).
Proof.
  refine (proj1 (toggle_blocked_subtask_fails blocked_store day0
                   (Subtask.mk 1 2 "s" true) (plain_task 2 "B" BLOCKED) _ _ _)).
  - reflexivity.
  - reflexivity.
  - exists (Dependency.mk 1 2 1), (plain_task 1 "C" TODO).
    simpl. repeat split; auto. discriminate.
Defined.

(** X4.  Deleting a subtask whose task has an unmet dependency is refused
    with the BlockedOperation answer, and the subtask stays. *)
Theorem delete_blocked_subtask_fails
  (s : Store) (today : date) (st : Subtask.t) (t : Task.t) :
  get_subtask s (Subtask.id st) = Some st ->
  get_task s (Subtask.task_id st) = Some t ->
  has_unmet_dependency s t ->
  api_delete_subtask s today (Subtask.id st)
  = (s, Abort 400
          (Some "Task is blocked by dependencies; cannot delete subtask")) /\
  error_kind (snd (api_delete_subtask s today (Subtask.id st)))
  = Some BlockedOperation.
Proof.
  intros Hst Ht Hun. apply has_blocking_spec in Hun.
  assert (E : api_delete_subtask s today (Subtask.id st)
              = (s, Abort 400
                      (Some "Task is blocked by dependencies; cannot delete subtask"))).
  { unfold api_delete_subtask. rewrite Hst, Ht, Hun. reflexivity. }
  split; [exact E|]. rewrite E. reflexivity.
Qed.

Lemma delete_blocked_subtask_witness :
  api_delete_subtask blocked_store day0 1
  = (blocked_store,
     Abort 400 (Some "Task is blocked by dependencies; cannot delete subtask")).
Proof.
  refine (proj1 (delete_blocked_subtask_fails blocked_store day0
                   (Subtask.mk 1 2 "s" true) (plain_task 2 "B" BLOCKED) _ _ _)).
  - reflexivity.
  - reflexivity.
  - exists (Dependency.mk 1 2 1), (plain_task 1 "C" TODO).
    simpl. repeat split; auto. discriminate.
Defined.

(* ------------------------------------------------------------------ *)
(** ** Primary keys and parents *)

Lemma touches_only_ids (P : Z -> Prop) (s s' : Store) :
  touches_only P s s' -> task_ids s' = task_ids s.
Proof.
  intros (_ & _ & H). unfold task_ids.
  induction H as [|x y l l' [Hxy _] _ IH]; cbn [map]; [reflexivity|].
  destruct Hxy as [Hid _]. rewrite Hid, IH. reflexivity.
Qed.

Lemma enforce_touches (s : Store) (t : Task.t) :
  touches_only (eq (Task.id t)) s (enforce_blocking_status s t).
Proof.
  unfold enforce_blocking_status.
  repeat match goal with
         | |- context [if ?c then _ else _] => destruct c
         end;
    try apply touches_only_refl;
    apply update_task_touches; auto with frame.
Qed.

Lemma store_progress_touches (s : Store) (t : Task.t) :
  touches_only (eq (Task.id t)) s (store_progress s t).
Proof. apply update_task_touches. auto with frame. Qed.

Lemma recompute_touches (ids : list Z) :
  forall s, touches_only (fun i => In i ids) s (fold_left recompute_task ids s).
Proof.
  induction ids as [|i ids IH]; intros s; cbn [fold_left].
  - apply touches_only_refl.
  - eapply touches_only_trans; [|eapply touches_only_weaken; [|apply IH]].
    + unfold recompute_task.
      destruct (get_task s i) as [dt|] eqn:G; [|apply touches_only_refl].
      apply find_id_some in G. destruct G as [_ <-].
      eapply touches_only_trans.
      * eapply touches_only_weaken; [|apply store_progress_touches].
        intros j <-. left. reflexivity.
      * assert (E : Task.id (refresh (store_progress s dt) dt) = Task.id dt).
        { unfold refresh.
          destruct (get_task (store_progress s dt) (Task.id dt)) eqn:G';
            [|reflexivity].
          apply find_id_some in G'. apply G'. }
        eapply touches_only_weaken; [|apply enforce_touches].
        intros j <-. left. symmetry. exact E.
    + intros j Hj. right. exact Hj.
Qed.

Lemma task_ids_update_task (s : Store) (i : Z) (f : Task.t -> Task.t) :
  (forall x, Task.id (f x) = Task.id x) ->
  task_ids (update_task s i f) = task_ids s.
Proof.
  intros Hf. unfold task_ids, update_task. cbn [tasks].
  rewrite map_map. apply map_ext. intros x.
  destruct (Task.id x =? i); auto.
Qed.

Lemma task_ids_enforce (s : Store) (t : Task.t) :
  task_ids (enforce_blocking_status s t) = task_ids s.
Proof. exact (touches_only_ids _ _ _ (enforce_touches s t)). Qed.

Lemma task_ids_store_progress (s : Store) (t : Task.t) :
  task_ids (store_progress s t) = task_ids s.
Proof. exact (touches_only_ids _ _ _ (store_progress_touches s t)). Qed.

Lemma task_ids_cascade (s : Store) (c : Z) :
  task_ids (update_dependents_status s c) = task_ids s.
Proof.
  exact (touches_only_ids _ _ _ (cascade_touches (dependents_of s c) s)).
Qed.

Lemma task_ids_recompute (ids : list Z) (s : Store) :
  task_ids (fold_left recompute_task ids s) = task_ids s.
Proof. exact (touches_only_ids _ _ _ (recompute_touches ids s)). Qed.

Lemma task_ids_update_subtask (s : Store) (i : Z) (f : Subtask.t -> Subtask.t) :
  task_ids (update_subtask s i f) = task_ids s.
Proof. reflexivity. Qed.

Lemma task_ids_set_subtasks_done (s : Store) (i : Z) (v : bool) :
  task_ids (set_subtasks_done s i v) = task_ids s.
Proof. reflexivity. Qed.

Lemma subtasks_enforce (s : Store) (t : Task.t) :
  subtasks (enforce_blocking_status s t) = subtasks s.
Proof. apply (enforce_touches s t). Qed.

Lemma subtasks_cascade (s : Store) (c : Z) :
  subtasks (update_dependents_status s c) = subtasks s.
Proof. apply (cascade_touches (dependents_of s c) s). Qed.

Lemma subtasks_recompute (ids : list Z) (s : Store) :
  subtasks (fold_left recompute_task ids s) = subtasks s.
Proof. apply (recompute_touches ids s). Qed.

Lemma subtasks_store_progress (s : Store) (t : Task.t) :
  subtasks (store_progress s t) = subtasks s.
Proof. reflexivity. Qed.

Lemma subtasks_update_task (s : Store) (i : Z) (f : Task.t -> Task.t) :
  subtasks (update_task s i f) = subtasks s.
Proof. reflexivity. Qed.

Create Rewrite HintDb rows.
#[local] Hint Rewrite task_ids_enforce task_ids_store_progress task_ids_cascade
  task_ids_recompute task_ids_update_subtask task_ids_set_subtasks_done
  subtasks_enforce subtasks_cascade subtasks_recompute subtasks_store_progress
  subtasks_update_task : rows.
#[local] Hint Rewrite task_ids_update_task using (intros; reflexivity) : rows.

(** The key given to a new row is not in use. *)
Lemma next_id_fresh (ids : list Z) : ~ In (next_id ids) ids.
Proof.
  assert (H : forall x, In x ids -> x <= fold_right Z.max 0 ids).
  { induction ids as [|a l IH]; cbn [fold_right]; intros x [].
    - subst. lia.
    - specialize (IH x H). lia. }
  intros Hin. apply H in Hin. unfold next_id in Hin. lia.
Qed.

Lemma NoDup_snoc {A : Type} (l : list A) (a : A) :
  NoDup l -> ~ In a l -> NoDup (l ++ [a]).
Proof.
  intros Hnd Hfresh. apply NoDup_app; [exact Hnd| |].
  - constructor; [intros []|constructor].
  - intros x Hx [<-|[]]. exact (Hfresh Hx).
Qed.

Lemma set_dates_for_week_id (t t' : Task.t) (d : date) :
  set_dates_for_week t d = Some t' ->
  Task.id t' = Task.id t /\ Task.slug t' = Task.slug t /\
  Task.priority t' = Task.priority t /\ Task.week t' = Task.week t.
Proof.
  unfold set_dates_for_week.
  destruct (_ && _); [|intros [= <-]; auto].
  destruct (add_days d _) as [sd|]; [|discriminate].
  destruct (add_days sd 6) as [ed|]; [|discriminate].
  intros [= <-]. auto.
Qed.

Lemma task_ids_mk (l : list Task.t) (a : list Subtask.t) (b : list Dependency.t) : task_ids (mkStore l a b) = map Task.id l.
Proof. reflexivity. Qed.
#[local] Hint Rewrite task_ids_mk : rows.

Ltac rows_norm :=
  unfold rows_wf, subtask_ids; cbv zeta; split_cases; cbn [fst];
  repeat (autorewrite with rows; cbn [subtasks]).


Lemma rows_wf_map_subtasks (s : Store) (g : Subtask.t -> Subtask.t) :
  (forall x, Subtask.id (g x) = Subtask.id x /\
             Subtask.task_id (g x) = Subtask.task_id x) ->
  rows_wf s ->
  NoDup (task_ids s) /\
  NoDup (map Subtask.id (map g (subtasks s))) /\
  (forall st, In st (map g (subtasks s)) ->
     In (Subtask.task_id st) (task_ids s)).
Proof.
  intros Hg (Ht & Hs & Hp). repeat split; [exact Ht| |].
  - rewrite map_map.
    rewrite (map_ext _ Subtask.id (fun x => proj1 (Hg x))). exact Hs.
  - intros st Hst. apply in_map_iff in Hst. destruct Hst as (x & <- & Hx).
    rewrite (proj2 (Hg x)). apply Hp, Hx.
Qed.

(** Dropping rows keeps their keys distinct. *)
Lemma keys_of_filter {A K : Type} (l : list A) (keep : A -> bool) (key : A -> K) :
  NoDup (map key l) -> NoDup (map key (filter keep l)).
Proof.
  intros Hnd. induction l as [|a l IH]; cbn [map filter]; [constructor|].
  cbn [map] in Hnd. apply NoDup_cons_iff in Hnd. destruct Hnd as [Hfresh Hnd].
  destruct (keep a); cbn [map]; [|exact (IH Hnd)].
  apply NoDup_cons; [|exact (IH Hnd)].
  intros Hin. apply Hfresh. apply in_map_iff in Hin.
  destruct Hin as (x & Hx & Hin). apply filter_In in Hin.
  rewrite <- Hx. apply in_map. apply Hin.
Qed.

Lemma edited_row_id (t t0 : Task.t)
  (title description : option string) (priority week : option Z) :
  match week with
  | Some w =>
      set_dates_for_week
        (Task.set_week w
           (opt_apply priority Task.set_priority
              (opt_apply description
                 (fun v => Task.set_description (PyStr.strip v))
                 (opt_apply title
                    (fun v => Task.set_title (PyStr.strip v)
                                (slugify (PyStr.strip v))) t))))
        DEFAULT_START_DATE
  | None =>
      Some (opt_apply priority Task.set_priority
              (opt_apply description
                 (fun v => Task.set_description (PyStr.strip v))
                 (opt_apply title
                    (fun v => Task.set_title (PyStr.strip v)
                                (slugify (PyStr.strip v))) t)))
  end = Some t0 ->
  Task.id t0 = Task.id t.
Proof.
  destruct week, title, description, priority; cbn [opt_apply]; intros H;
    try (apply set_dates_for_week_id in H; destruct H as [H _]; rewrite H);
    try (injection H as <-); reflexivity.
Qed.

Lemma task_ids_update_const (s : Store) (i : Z) (t0 : Task.t) :
  Task.id t0 = i -> task_ids (update_task s i (fun _ => t0)) = task_ids s.
Proof.
  intros Hid. unfold task_ids, update_task. cbn [tasks].
  rewrite map_map. apply map_ext. intros x.
  destruct (Z.eqb_spec (Task.id x) i); congruence.
Qed.

(** Every handler keeps the keys distinct and the subtasks attached. *)
Lemma handle_rows_wf (s : Store) (today : date) (r : Request) :
  rows_wf s -> rows_wf (fst (handle s today r)).
Proof.
  intros Hwf. destruct r; cbn [handle].
  - unfold api_tasks. rows_norm. all: try exact Hwf.
    destruct Hwf as (Ht & Hs & Hp).
    match goal with H : set_dates_for_week _ _ = Some _ |- _ =>
      apply set_dates_for_week_id in H; destruct H as (Hid & _) end.
    cbn [Task.id] in Hid.
    rewrite map_app. cbn [map]. rewrite Hid. repeat split; [|exact Hs|].
    + apply NoDup_snoc; [exact Ht|apply next_id_fresh].
    + intros st Hst. apply in_app_iff. left. apply Hp, Hst.
  - unfold api_update_task_status. rows_norm. all: try exact Hwf.
    all: apply rows_wf_map_subtasks; [|exact Hwf];
      intros x; destruct (Subtask.task_id x =? _); auto.
  - unfold api_edit_task. rows_norm. all: try exact Hwf.
    match goal with H : _ = Some _ |- _ => apply edited_row_id in H end.
    rewrite task_ids_update_const by assumption. exact Hwf.
  - unfold api_delete_task. rows_norm. all: try exact Hwf.
    destruct Hwf as (Ht & Hs & Hp). repeat split.
    + apply keys_of_filter, Ht.
    + apply keys_of_filter, Hs.
    + intros st Hst. apply filter_In in Hst. destruct Hst as [Hst Hne].
      specialize (Hp st Hst). unfold task_ids in Hp.
      apply in_map_iff in Hp. destruct Hp as (x & Hx & Hin).
      apply in_map_iff. exists x. split; [exact Hx|].
      apply filter_In. split; [exact Hin|]. rewrite Hx. exact Hne.
  - unfold api_create_subtask. rows_norm. all: try exact Hwf.
    all: destruct Hwf as (Ht & Hs & Hp);
      (repeat split; [exact Ht| |]);
      [ rewrite map_app; cbn [map Subtask.id];
        apply NoDup_snoc; [exact Hs|apply next_id_fresh]
      | intros st Hst; apply in_app_iff in Hst;
        destruct Hst as [Hst|[<-|[]]]; [apply Hp, Hst|];
        cbn [Subtask.task_id];
        match goal with H : get_task _ _ = Some _ |- _ =>
          apply find_id_some in H; destruct H as [Hin _] end;
        apply in_map; exact Hin ].
  - unfold api_toggle_subtask. rows_norm. all: try exact Hwf.
    all: apply rows_wf_map_subtasks; [|exact Hwf];
      intros x; destruct (Subtask.id x =? _); auto.
  - unfold api_delete_subtask. rows_norm. all: try exact Hwf.
    all: destruct Hwf as (Ht & Hs & Hp);
      (repeat split; [exact Ht|apply keys_of_filter, Hs|]);
      intros st0 Hst; apply filter_In in Hst; apply Hp, Hst.
  - unfold api_add_dependency. rows_norm. all: try exact Hwf.
  - unfold api_delete_dependency. rows_norm. all: try exact Hwf.
Qed.

(** X5.  In every store the API can produce, task ids are pairwise distinct,
    subtask ids are pairwise distinct, and every subtask belongs to a task
    that exists: [api_create_subtask] looks the task up before it inserts,
    and [api_delete_task] removes the subtasks with the task. *)
Theorem reachable_rows_wf (s : Store) : reachable s -> rows_wf s.
Proof.
  induction 1 as [|s today r _ IH].
  - repeat split; try constructor. intros st [].
  - apply handle_rows_wf, IH.
Qed.

Lemma reachable_rows_wf_witness : rows_wf chain_after.
Proof.
  apply reachable_rows_wf.
  rewrite <- chain_trace_runs. apply reachable_run, reachable_empty.
Defined.

(* ------------------------------------------------------------------ *)
(** ** The explicit status transition, when it succeeds *)

Lemma touches_writes (P : Z -> Prop) (s s' : Store) :
  touches_only P s s' -> writes_only P s s'.
Proof.
  intros (_ & Hd & H). split; [exact Hd|].
  induction H as [|x y l l' [Hxy Hx] _ IH]; constructor; auto.
  split; [apply Hxy|exact Hx].
Qed.

Lemma writes_only_refl (P : Z -> Prop) (s : Store) : writes_only P s s.
Proof. apply touches_writes, touches_only_refl. Qed.

Lemma writes_only_trans (P : Z -> Prop) (s1 s2 s3 : Store) :
  writes_only P s1 s2 -> writes_only P s2 s3 -> writes_only P s1 s3.
Proof.
  unfold writes_only. intros (Hd & H12) (Hd' & H23).
  split; [congruence|].
  revert H23. generalize (tasks s3). clear Hd Hd'.
  induction H12 as [|x y l l' [Hxy Hx] _ IH]; intros l3 H23;
    inversion H23 as [|? z ? l3' [Hyz Hy] Hrest]; subst; constructor.
  - split; [congruence|].
    intros Hn. rewrite <- (Hx Hn). apply Hy. rewrite Hxy. exact Hn.
  - apply IH. exact Hrest.
Qed.

Lemma update_task_writes (s : Store) (i : Z) (f : Task.t -> Task.t) :
  (forall x, Task.id (f x) = Task.id x) ->
  writes_only (eq i) s (update_task s i f).
Proof.
  intros Hf. split; [reflexivity|]. unfold update_task. cbn [tasks].
  induction (tasks s) as [|x l IH]; cbn [map]; constructor; auto.
  destruct (Z.eqb_spec (Task.id x) i) as [E|E].
  - split; [apply Hf|]. intros Hn. exfalso. apply Hn. symmetry. exact E.
  - split; auto.
Qed.

(** A row outside [P] is found as before. *)
Lemma get_task_writes (P : Z -> Prop) (s s' : Store) (j : Z) :
  writes_only P s s' -> ~ P j -> get_task s' j = get_task s j.
Proof.
  intros (_ & H) Hj. unfold get_task.
  induction H as [|x y l l' [Hid Hx] _ IH]; cbn [find]; [reflexivity|].
  rewrite Hid.
  destruct (Z.eqb_spec (Task.id x) j) as [E|E]; [|exact IH].
  rewrite Hx; [reflexivity|]. rewrite E. exact Hj.
Qed.

Lemma writes_only_in_l (P : Z -> Prop) (s s' : Store) (x : Task.t) :
  writes_only P s s' -> In x (tasks s) ->
  exists y, In y (tasks s') /\ Task.id y = Task.id x /\
            (~ P (Task.id x) -> y = x).
Proof.
  intros (_ & H) Hx.
  induction H as [|a b l l' [Hab Ha] _ IH]; [destruct Hx|].
  destruct Hx as [<-|Hx].
  - exists b. split; [left; reflexivity|]. split; [exact Hab|exact Ha].
  - destruct (IH Hx) as (y & Hy & Hrest).
    exists y. split; [right; exact Hy|exact Hrest].
Qed.

Lemma writes_only_in_r (P : Z -> Prop) (s s' : Store) (y : Task.t) :
  writes_only P s s' -> In y (tasks s') ->
  exists x, In x (tasks s) /\ Task.id y = Task.id x /\
            (~ P (Task.id x) -> y = x).
Proof.
  intros (_ & H) Hy.
  induction H as [|a b l l' [Hab Ha] _ IH]; [destruct Hy|].
  destruct Hy as [<-|Hy].
  - exists a. split; [left; reflexivity|]. split; [exact Hab|exact Ha].
  - destruct (IH Hy) as (x & Hx & Hrest).
    exists x. split; [right; exact Hx|exact Hrest].
Qed.

(** Writes to rows that [t] does not depend on do not change what the
    Dependency Checker says of [t]. *)
Lemma has_blocking_writes (P : Z -> Prop) (s s' : Store) (t t' : Task.t) :
  writes_only P s s' ->
  (forall d, In d (dependencies s) -> Dependency.task_id d = Task.id t ->
             ~ P (Dependency.depends_on_id d)) ->
  Task.id t' = Task.id t ->
  has_blocking_dependencies s' t' = has_blocking_dependencies s t.
Proof.
  intros Ht Hno Hid.
  apply eq_true_iff_eq. rewrite !has_blocking_spec.
  pose proof Ht as (Hdeps & _).
  unfold has_unmet_dependency. rewrite Hdeps, Hid. split.
  - intros (d & y & Hd & Htid & Hy & Hyid & Hst).
    destruct (writes_only_in_r P s s' y Ht Hy) as (x & Hx & Hxid & Hsame).
    assert (y = x)
      by (apply Hsame; rewrite <- Hxid, Hyid; apply (Hno d Hd Htid)).
    subst y. exists d, x. auto.
  - intros (d & x & Hd & Htid & Hx & Hxid & Hst).
    destruct (writes_only_in_l P s s' x Ht Hx) as (y & Hy & Hyid & Hsame).
    assert (y = x) by (apply Hsame; rewrite Hxid; apply (Hno d Hd Htid)).
    subst y. exists d, x. auto.
Qed.

Lemma enforce_done_noop (s : Store) (t : Task.t) :
  Task.status t = DONE -> enforce_blocking_status s t = s.
Proof.
  intros H. unfold enforce_blocking_status. rewrite H. reflexivity.
Qed.

Lemma refresh_get (s : Store) (t t' : Task.t) :
  get_task s (Task.id t) = Some t' -> refresh s t = t'.
Proof. intros H. unfold refresh. rewrite H. reflexivity. Qed.

Lemma subtasks_of_set_done (s : Store) (tid : Z) (v : bool) (st : Subtask.t) :
  In st (subtasks_of (set_subtasks_done s tid v) tid) -> Subtask.done st = v.
Proof.
  unfold subtasks_of, set_subtasks_done. cbn [subtasks].
  intros H. apply filter_In in H. destruct H as [H Htid].
  apply in_map_iff in H. destruct H as (x & Hx & _).
  destruct (Z.eqb_spec (Subtask.task_id x) tid) as [E|E]; subst st.
  - reflexivity.
  - apply Z.eqb_eq in Htid. contradiction.
Qed.

(** X6.  Asking for done on a task without an unmet dependency (and without
    an edge to itself) succeeds: the task ends done with progress 100.0,
    [completed_at] and [started_at] are today where they were unset and kept
    where they were set, all its subtasks are done, and no edge is written. *)
Theorem complete_task_succeeds (s : Store) (today : date) (t : Task.t) :
  get_task s (Task.id t) = Some t ->
  has_blocking_dependencies s t = false ->
  ~ depends_directly_on s t (Task.id t) ->
  exists s' t',
    api_update_task_status s today (Task.id t) (Some DONE)
    = (s', Ok (RespTask t')) /\
    get_task s' (Task.id t) = Some t' /\
    Task.status t' = DONE /\
    Task.progress t' = PyFloat.hundred /\
    Task.completed_at t' = or_today today (Task.completed_at t) /\
    Task.started_at t' = or_today today (Task.started_at t) /\
    (forall st, In st (subtasks_of s' (Task.id t)) -> Subtask.done st = true) /\
    dependencies s' = dependencies s.
Proof.
  intros Hget Hnb Hself.
  unfold api_update_task_status. rewrite Hget.
  change ((DONE =? TODO)%string) with false.
  change ((DONE =? IN_PROGRESS)%string) with false.
  change ((DONE =? DONE)%string) with true.
  cbn [orb negb]. rewrite Hnb. cbv zeta.
  set (s1 := set_subtasks_done s (Task.id t) true).
  set (s2 := update_task s1 (Task.id t) (Task.set_status DONE)).
  set (s3 := update_task s2 (Task.id t) _).
  set (s4 := update_task s3 (Task.id t) _).
  assert (G1 : get_task s1 (Task.id t) = Some t) by exact Hget.
  assert (G2 : get_task s2 (Task.id t) = Some (Task.set_status DONE t))
    by (apply get_task_update; [reflexivity|exact G1]).
  set (t2 := Task.set_status DONE t) in *.
  set (t3 := Task.set_completed_at (or_today today (Task.completed_at t2)) t2).
  set (t4 := Task.set_started_at (or_today today (Task.started_at t3)) t3).
  assert (G3 : get_task s3 (Task.id t) = Some t3)
    by (apply (get_task_update s2 (Task.id t)
          (fun x => Task.set_completed_at (or_today today (Task.completed_at x)) x)
          t2); [reflexivity|exact G2]).
  assert (G4 : get_task s4 (Task.id t) = Some t4)
    by (apply (get_task_update s3 (Task.id t)
          (fun x => Task.set_started_at (or_today today (Task.started_at x)) x)
          t3); [reflexivity|exact G3]).
  assert (P4 : compute_task_progress s4 t4 = PyFloat.hundred).
  { apply progress_when_all_done; [|right; reflexivity].
    intros st Hst. apply (subtasks_of_set_done s (Task.id t) true). exact Hst. }
  set (s5 := update_task s4 (Task.id t) (Task.set_progress PyFloat.hundred)).
  assert (E5 : store_progress s4 t = s5)
    by (unfold store_progress; rewrite (refresh_get s4 t t4 G4), P4; reflexivity).
  rewrite !E5.
  set (t5 := Task.set_progress PyFloat.hundred t4).
  assert (G5 : get_task s5 (Task.id t) = Some t5)
    by (apply (get_task_update s4 (Task.id t)
          (Task.set_progress PyFloat.hundred) t4); [reflexivity|exact G4]).
  rewrite !(refresh_get s5 t t5 G5).
  rewrite !(enforce_done_noop s5 t5 eq_refl).
  set (s7 := update_dependents_status s5 (Task.id t)).
  assert (T7 : touches_only (fun i => In i (map Dependency.task_id
                                             (dependents_of s5 (Task.id t))))
                            s5 s7) by apply cascade_touches.
  assert (G7 : get_task s7 (Task.id t) = Some t5).
  { rewrite (get_task_writes _ s5 s7 (Task.id t) (touches_writes _ _ _ T7)); [exact G5|].
    intros Hin. apply in_dependents_of in Hin.
    destruct Hin as (d & Hd & Htid & Hc). apply Hself. exists d. auto. }
  rewrite (refresh_get s7 t t5 G7).
  exists s7, t5. repeat split; auto.
  - intros st Hst. unfold subtasks_of in Hst.
    destruct T7 as (Hsub & _). rewrite Hsub in Hst.
    apply (subtasks_of_set_done s (Task.id t) true). exact Hst.
  - destruct T7 as (_ & Hdep & _). exact Hdep.
Qed.

(** The cascade rooted at a task that has no edge to itself leaves the
    task's own row alone. *)
Lemma cascade_skips_root (s : Store) (t : Task.t) :
  ~ depends_directly_on s t (Task.id t) ->
  get_task (update_dependents_status s (Task.id t)) (Task.id t)
  = get_task s (Task.id t).
Proof.
  intros Hself.
  apply (get_task_writes _ s _ (Task.id t)
           (touches_writes _ _ _ (cascade_touches (dependents_of s (Task.id t)) s))).
  intros Hin. apply in_dependents_of in Hin.
  destruct Hin as (d & Hd & Htid & Hc). apply Hself. exists d. auto.
Qed.

(** The Status Deriver on a row that is neither done nor blocked. *)
Lemma enforce_open (s : Store) (t : Task.t) :
  Task.status t <> DONE -> Task.status t <> BLOCKED ->
  enforce_blocking_status s t
  = if has_blocking_dependencies s t
    then update_task s (Task.id t) (Task.set_status BLOCKED) else s.
Proof.
  intros Hd Hb. unfold enforce_blocking_status.
  apply status_eqb_false in Hd, Hb. rewrite Hd, Hb. cbn [negb andb].
  reflexivity.
Qed.

(** X7.  Asking for todo (on a task without an edge to itself) marks all
    its subtasks not done, clears [completed_at], keeps [started_at], sets
    progress to 0.0, and leaves the status todo, or blocked when the task
    has an unmet dependency. *)
Theorem reset_task_to_todo (s : Store) (today : date) (t : Task.t) :
  get_task s (Task.id t) = Some t ->
  ~ depends_directly_on s t (Task.id t) ->
  exists s' t',
    api_update_task_status s today (Task.id t) (Some TODO)
    = (s', Ok (RespTask t')) /\
    get_task s' (Task.id t) = Some t' /\
    Task.status t'
    = (if has_blocking_dependencies s t then BLOCKED else TODO) /\
    Task.progress t' = PyFloat.zero /\
    Task.completed_at t' = None /\
    Task.started_at t' = Task.started_at t /\
    (forall st, In st (subtasks_of s' (Task.id t)) -> Subtask.done st = false) /\
    dependencies s' = dependencies s.
Proof.
  intros Hget Hself.
  unfold api_update_task_status. rewrite Hget.
  change ((TODO =? TODO)%string) with true.
  change ((TODO =? DONE)%string) with false.
  cbn [orb negb]. cbv zeta.
  set (s1 := set_subtasks_done s (Task.id t) false).
  set (s2 := update_task s1 (Task.id t) (Task.set_status TODO)).
  set (s3 := update_task s2 (Task.id t) (Task.set_completed_at None)).
  set (t2 := Task.set_status TODO t).
  set (t3 := Task.set_completed_at None t2).
  assert (G1 : get_task s1 (Task.id t) = Some t) by exact Hget.
  assert (G2 : get_task s2 (Task.id t) = Some t2)
    by (apply get_task_update; [reflexivity|exact G1]).
  assert (G3 : get_task s3 (Task.id t) = Some t3)
    by (apply (get_task_update s2 (Task.id t) (Task.set_completed_at None) t2);
        [reflexivity|exact G2]).
  assert (P3 : compute_task_progress s3 t3 = PyFloat.zero).
  { apply progress_when_none_done; [|right; discriminate].
    intros st Hst. apply (subtasks_of_set_done s (Task.id t) false). exact Hst. }
  set (s5 := update_task s3 (Task.id t) (Task.set_progress PyFloat.zero)).
  assert (E5 : store_progress s3 t = s5)
    by (unfold store_progress; rewrite (refresh_get s3 t t3 G3), P3; reflexivity).
  rewrite !E5.
  set (t5 := Task.set_progress PyFloat.zero t3).
  assert (G5 : get_task s5 (Task.id t) = Some t5)
    by (apply (get_task_update s3 (Task.id t)
                 (Task.set_progress PyFloat.zero) t3); [reflexivity|exact G3]).
  rewrite !(refresh_get s5 t t5 G5).
  assert (W5 : writes_only (eq (Task.id t)) s1 s5).
  { eapply writes_only_trans; [|apply update_task_writes; reflexivity].
    eapply writes_only_trans; apply update_task_writes; reflexivity. }
  assert (B5 : has_blocking_dependencies s5 t5 = has_blocking_dependencies s t).
  { change (has_blocking_dependencies s t)
      with (has_blocking_dependencies s1 t).
    apply (has_blocking_writes _ s1 s5 t t5 W5); [|reflexivity].
    intros d Hd Htid Heq. apply Hself. exists d. auto. }
  rewrite !(enforce_open s5 t5 ltac:(discriminate) ltac:(discriminate)), !B5.
  destruct (has_blocking_dependencies s t).
  - set (s6 := update_task s5 (Task.id t5) (Task.set_status BLOCKED)).
    set (t6 := Task.set_status BLOCKED t5).
    assert (G6 : get_task s6 (Task.id t) = Some t6)
      by (apply (get_task_update s5 (Task.id t) (Task.set_status BLOCKED) t5);
          [reflexivity|exact G5]).
    assert (G7 : get_task (update_dependents_status s6 (Task.id t)) (Task.id t)
                 = Some t6).
    { rewrite cascade_skips_root; [exact G6|].
      intros (d & Hd & Hrest). apply Hself. exists d. auto. }
    rewrite (refresh_get _ t t6 G7).
    eexists _, t6. repeat split; auto.
    + intros st Hst. unfold subtasks_of in Hst.
      rewrite subtasks_cascade in Hst.
      apply (subtasks_of_set_done s (Task.id t) false). exact Hst.
    + rewrite deps_cascade. reflexivity.
  - assert (G7 : get_task (update_dependents_status s5 (Task.id t)) (Task.id t)
                 = Some t5).
    { rewrite cascade_skips_root; [exact G5|].
      intros (d & Hd & Hrest). apply Hself. exists d. auto. }
    rewrite (refresh_get _ t t5 G7).
    eexists _, t5. repeat split; auto.
    + intros st Hst. unfold subtasks_of in Hst.
      rewrite subtasks_cascade in Hst.
      apply (subtasks_of_set_done s (Task.id t) false). exact Hst.
    + rewrite deps_cascade. reflexivity.
Qed.

(** X8.  Asking for in_progress (on a task without an edge to itself) sets
    [started_at] to today if it was unset, keeps [completed_at], touches no
    subtask, and leaves the status in_progress, or blocked when the task has
    an unmet dependency. *)
Theorem start_task (s : Store) (today : date) (t : Task.t) :
  get_task s (Task.id t) = Some t ->
  ~ depends_directly_on s t (Task.id t) ->
  exists s' t',
    api_update_task_status s today (Task.id t) (Some IN_PROGRESS)
    = (s', Ok (RespTask t')) /\
    get_task s' (Task.id t) = Some t' /\
    Task.status t'
    = (if has_blocking_dependencies s t then BLOCKED else IN_PROGRESS) /\
    Task.progress t'
    = compute_task_progress s (Task.set_status IN_PROGRESS t) /\
    Task.started_at t' = or_today today (Task.started_at t) /\
    Task.completed_at t' = Task.completed_at t /\
    subtasks s' = subtasks s /\
    dependencies s' = dependencies s.
Proof.
  intros Hget Hself.
  unfold api_update_task_status. rewrite Hget.
  change ((IN_PROGRESS =? TODO)%string) with false.
  change ((IN_PROGRESS =? IN_PROGRESS)%string) with true.
  change ((IN_PROGRESS =? DONE)%string) with false.
  cbn [orb negb]. cbv zeta.
  set (s2 := update_task s (Task.id t) (Task.set_status IN_PROGRESS)).
  set (f3 := fun x => Task.set_started_at (or_today today (Task.started_at x)) x).
  set (s3 := update_task s2 (Task.id t) f3).
  set (t2 := Task.set_status IN_PROGRESS t).
  set (t3 := f3 t2).
  assert (G2 : get_task s2 (Task.id t) = Some t2)
    by (apply get_task_update; [reflexivity|exact Hget]).
  assert (G3 : get_task s3 (Task.id t) = Some t3)
    by (apply (get_task_update s2 (Task.id t) f3 t2); [reflexivity|exact G2]).
  set (p := compute_task_progress s t2).
  assert (P3 : compute_task_progress s3 t3 = p) by reflexivity.
  set (s5 := update_task s3 (Task.id t) (Task.set_progress p)).
  assert (E5 : store_progress s3 t = s5)
    by (unfold store_progress; rewrite (refresh_get s3 t t3 G3), P3; reflexivity).
  rewrite !E5.
  set (t5 := Task.set_progress p t3).
  assert (G5 : get_task s5 (Task.id t) = Some t5)
    by (apply (get_task_update s3 (Task.id t) (Task.set_progress p) t3);
        [reflexivity|exact G3]).
  rewrite !(refresh_get s5 t t5 G5).
  assert (W5 : writes_only (eq (Task.id t)) s s5).
  { eapply writes_only_trans; [|apply update_task_writes; reflexivity].
    eapply writes_only_trans; apply update_task_writes; reflexivity. }
  assert (B5 : has_blocking_dependencies s5 t5 = has_blocking_dependencies s t).
  { apply (has_blocking_writes _ s s5 t t5 W5); [|reflexivity].
    intros d Hd Htid Heq. apply Hself. exists d. auto. }
  rewrite !(enforce_open s5 t5 ltac:(discriminate) ltac:(discriminate)), !B5.
  destruct (has_blocking_dependencies s t).
  - set (s6 := update_task s5 (Task.id t5) (Task.set_status BLOCKED)).
    set (t6 := Task.set_status BLOCKED t5).
    assert (G6 : get_task s6 (Task.id t) = Some t6)
      by (apply (get_task_update s5 (Task.id t) (Task.set_status BLOCKED) t5);
          [reflexivity|exact G5]).
    assert (G7 : get_task (update_dependents_status s6 (Task.id t)) (Task.id t)
                 = Some t6).
    { rewrite cascade_skips_root; [exact G6|].
      intros (d & Hd & Hrest). apply Hself. exists d. auto. }
    rewrite (refresh_get _ t t6 G7).
    eexists _, t6. repeat split; auto.
    + rewrite subtasks_cascade. reflexivity.
    + rewrite deps_cascade. reflexivity.
  - assert (G7 : get_task (update_dependents_status s5 (Task.id t)) (Task.id t)
                 = Some t5).
    { rewrite cascade_skips_root; [exact G5|].
      intros (d & Hd & Hrest). apply Hself. exists d. auto. }
    rewrite (refresh_get _ t t5 G7).
    eexists _, t5. repeat split; auto.
    + rewrite subtasks_cascade. reflexivity.
    + rewrite deps_cascade. reflexivity.
Qed.

Lemma half_done_no_self_edge :
  ~ depends_directly_on half_done_store half_done_task 1.
Proof. intros (d & Hd & _). destruct Hd. Qed.

Lemma complete_task_witness :
  exists s' t',
    api_update_task_status half_done_store day0 1 (Some DONE)
    = (s', Ok (RespTask t')) /\
    get_task s' 1 = Some t' /\
    Task.status t' = DONE /\
    Task.progress t' = PyFloat.hundred /\
    Task.completed_at t' = Some day0 /\
    Task.started_at t' = Some day0 /\
    (forall st, In st (subtasks_of s' 1) -> Subtask.done st = true) /\
    dependencies s' = [].
Proof.
  exact (complete_task_succeeds half_done_store day0 half_done_task
           eq_refl eq_refl half_done_no_self_edge).
Defined.

Lemma reset_task_witness :
  exists s' t',
    api_update_task_status half_done_store day0 1 (Some TODO)
    = (s', Ok (RespTask t')) /\
    get_task s' 1 = Some t' /\
    Task.status t' = TODO /\
    Task.progress t' = PyFloat.zero /\
    Task.completed_at t' = None /\
    Task.started_at t' = None /\
    (forall st, In st (subtasks_of s' 1) -> Subtask.done st = false) /\
    dependencies s' = [].
Proof.
  exact (reset_task_to_todo half_done_store day0 half_done_task
           eq_refl half_done_no_self_edge).
Defined.

Lemma start_task_witness :
  exists s' t',
    api_update_task_status half_done_store day0 1 (Some IN_PROGRESS)
    = (s', Ok (RespTask t')) /\
    get_task s' 1 = Some t' /\
    Task.status t' = IN_PROGRESS /\
    Task.progress t'
    = compute_task_progress half_done_store
        (Task.set_status IN_PROGRESS half_done_task) /\
    Task.started_at t' = Some day0 /\
    Task.completed_at t' = None /\
    subtasks s' = subtasks half_done_store /\
    dependencies s' = [].
Proof.
  exact (start_task half_done_store day0 half_done_task
           eq_refl half_done_no_self_edge).
Defined.

(* ------------------------------------------------------------------ *)
(** ** What the Status Deriver and the cascade never do *)

Lemma nth_error_update_task (s : Store) (i : Z) (f : Task.t -> Task.t) (n : nat) :
  nth_error (tasks (update_task s i f)) n
  = option_map (fun x => if Task.id x =? i then f x else x)
               (nth_error (tasks s) n).
Proof. unfold update_task. cbn [tasks]. apply nth_error_map. Qed.

Lemma row_is_found (s : Store) (t U : Task.t) (n : nat) :
  NoDup (task_ids s) -> get_task s (Task.id t) = Some t ->
  nth_error (tasks s) n = Some U -> Task.id U = Task.id t -> U = t.
Proof.
  intros Hnd Hget Hn Hid. apply find_id_some in Hget.
  apply (NoDup_map_inj Task.id (tasks s)); auto.
  - eapply nth_error_In; eauto.
  - apply Hget.
Qed.

(** X9.  The Status Deriver writes nothing but the status column of the
    row it is run on: subtasks, edges, every other row, and the progress and
    all other columns of its own row are as before; and it never completes
    a task nor reopens a done one. *)
Theorem status_deriver_effect (s : Store) (t : Task.t) :
  NoDup (task_ids s) ->
  get_task s (Task.id t) = Some t ->
  subtasks (enforce_blocking_status s t) = subtasks s /\
  dependencies (enforce_blocking_status s t) = dependencies s /\
  forall n U,
    nth_error (tasks s) n = Some U ->
    exists U',
      nth_error (tasks (enforce_blocking_status s t)) n = Some U' /\
      same_but_status_progress U U' /\
      Task.progress U' = Task.progress U /\
      (Task.id U <> Task.id t -> U' = U) /\
      (Task.status U' = DONE <-> Task.status U = DONE).
Proof.
  intros Hnd Hget. split; [apply subtasks_enforce|]. split; [apply deps_enforce|].
  intros n U Hn.
  assert (Hsame : exists U', nth_error (tasks s) n = Some U' /\
            same_but_status_progress U U' /\ Task.progress U' = Task.progress U /\
            (Task.id U <> Task.id t -> U' = U) /\
            (Task.status U' = DONE <-> Task.status U = DONE)).
  { exists U. repeat split; auto with frame. }
  assert (Hwrite : forall v, v <> DONE -> Task.status t <> DONE ->
            exists U',
              nth_error (tasks (update_task s (Task.id t) (Task.set_status v))) n
              = Some U' /\
              same_but_status_progress U U' /\
              Task.progress U' = Task.progress U /\
              (Task.id U <> Task.id t -> U' = U) /\
              (Task.status U' = DONE <-> Task.status U = DONE)).
  { intros v Hv Ht. rewrite nth_error_update_task, Hn. cbn [option_map].
    destruct (Z.eqb_spec (Task.id U) (Task.id t)) as [E|E].
    - assert (U = t) by (eapply row_is_found; eauto). subst U.
      eexists. split; [reflexivity|]. repeat split; auto with frame.
      + intros H; contradiction.
      + cbn. intros H. contradiction.
      + intros H. contradiction.
    - exists U. repeat split; auto with frame. }
  unfold enforce_blocking_status.
  destruct (Task.status t =? DONE)%string eqn:Ed;
    [apply status_eqb_true in Ed | apply status_eqb_false in Ed];
    cbn [negb andb].
  - rewrite Ed. change ((DONE =? BLOCKED)%string) with false. exact Hsame.
  - destruct (has_blocking_dependencies s t); cbn [negb andb].
    + apply Hwrite; [discriminate|exact Ed].
    + rewrite andb_true_r.
      destruct (Task.status t =? BLOCKED)%string; [|exact Hsame].
      apply Hwrite; [|exact Ed].
      destruct (PyFloat.ltb _ _); discriminate.
Qed.

Lemma update_task_again (s : Store) (i : Z) (f : Task.t -> Task.t) :
  (forall x, Task.id (f x) = Task.id x) -> (forall x, f (f x) = f x) ->
  update_task (update_task s i f) i f = update_task s i f.
Proof.
  intros Hid Hf. unfold update_task. cbn [tasks subtasks dependencies].
  f_equal. rewrite map_map. apply map_ext. intros x.
  destruct (Z.eqb_spec (Task.id x) i) as [E|E].
  - rewrite Hid. rewrite <- E, Z.eqb_refl. apply Hf.
  - destruct (Z.eqb_spec (Task.id x) i); [contradiction|reflexivity].
Qed.

Lemma blocking_after_status_write (s : Store) (t : Task.t) (v : string) :
  NoDup (task_ids s) -> get_task s (Task.id t) = Some t ->
  Task.status t <> DONE -> v <> DONE ->
  has_blocking_dependencies (update_task s (Task.id t) (Task.set_status v))
                            (Task.set_status v t)
  = has_blocking_dependencies s t.
Proof.
  intros Hnd Hget Ht Hv. apply eq_true_iff_eq. rewrite !has_blocking_spec.
  apply (unmet_after_status_write s t v Hnd Hget Ht Hv t). reflexivity.
Qed.

(** X10.  Running the Status Deriver a second time on the same task
    changes nothing. *)
Theorem status_deriver_idempotent (s : Store) (t : Task.t) :
  NoDup (task_ids s) ->
  get_task s (Task.id t) = Some t ->
  enforce_blocking_status (enforce_blocking_status s t)
                          (refresh (enforce_blocking_status s t) t)
  = enforce_blocking_status s t.
Proof.
  intros Hnd Hget.
  assert (Hstay : enforce_blocking_status s t = s ->
            enforce_blocking_status (enforce_blocking_status s t)
              (refresh (enforce_blocking_status s t) t)
            = enforce_blocking_status s t).
  { intros E. rewrite !E. rewrite (refresh_get s t t Hget). exact E. }
  unfold enforce_blocking_status at 2 3 4. unfold enforce_blocking_status in Hstay.
  destruct (Task.status t =? DONE)%string eqn:Ed;
    [apply status_eqb_true in Ed | apply status_eqb_false in Ed];
    cbn [negb andb] in *.
  - rewrite Ed in *. change ((DONE =? BLOCKED)%string) with false in *.
    apply Hstay. reflexivity.
  - destruct (has_blocking_dependencies s t) eqn:Eb; cbn [negb andb] in *.
    + set (s1 := update_task s (Task.id t) (Task.set_status BLOCKED)).
      assert (G1 : get_task s1 (Task.id t) = Some (Task.set_status BLOCKED t))
        by (apply get_task_update; [reflexivity|exact Hget]).
      rewrite (refresh_get s1 t _ G1).
      unfold enforce_blocking_status.
      unfold s1. rewrite (blocking_after_status_write s t BLOCKED Hnd Hget Ed);
        [|discriminate].
      rewrite Eb. cbn. apply update_task_again; reflexivity.
    + rewrite andb_true_r in *.
      destruct (Task.status t =? BLOCKED)%string eqn:Ek;
        [|apply Hstay; reflexivity].
      set (v := if PyFloat.ltb PyFloat.zero (Task.progress t)
                then IN_PROGRESS else TODO).
      assert (Hv : v <> DONE /\ v <> BLOCKED)
        by (unfold v; destruct (PyFloat.ltb _ _); split; discriminate).
      set (s1 := update_task s (Task.id t) (Task.set_status v)).
      assert (G1 : get_task s1 (Task.id t) = Some (Task.set_status v t))
        by (apply get_task_update; [reflexivity|exact Hget]).
      rewrite (refresh_get s1 t _ G1).
      unfold enforce_blocking_status.
      unfold s1. rewrite (blocking_after_status_write s t v Hnd Hget Ed (proj1 Hv)).
      rewrite Eb. cbn [Task.status Task.set_status negb andb].
      rewrite andb_false_r.
      destruct Hv as [_ Hv]. apply status_eqb_false in Hv. rewrite Hv.
      reflexivity.
Qed.

Lemma done_stays_refl (l : list Task.t) : Forall2 done_stays l l.
Proof. induction l; constructor; auto. intros H; exact H. Qed.

Lemma done_stays_trans (l1 l2 l3 : list Task.t) :
  Forall2 done_stays l1 l2 -> Forall2 done_stays l2 l3 ->
  Forall2 done_stays l1 l3.
Proof.
  intros H12. revert l3.
  induction H12 as [|x y l l' Hxy _ IH]; intros l3 H23;
    inversion H23; subst; constructor; auto.
  intros H. auto.
Qed.

Lemma Forall2_map_self {A : Type} (R : A -> A -> Prop) (g : A -> A) (l : list A) :
  (forall x, In x l -> R x (g x)) -> Forall2 R l (map g l).
Proof.
  induction l as [|x l IH]; cbn [map]; intros H; constructor.
  - apply H. left. reflexivity.
  - apply IH. intros y Hy. apply H. right. exact Hy.
Qed.

Lemma done_stays_write (s : Store) (t : Task.t) (f : Task.t -> Task.t) :
  NoDup (task_ids s) -> get_task s (Task.id t) = Some t ->
  done_stays t (f t) ->
  Forall2 done_stays (tasks s) (tasks (update_task s (Task.id t) f)).
Proof.
  intros Hnd Hget Hf. apply find_id_some in Hget. destruct Hget as [Hin _].
  unfold update_task. cbn [tasks]. apply Forall2_map_self.
  intros x Hx. destruct (Z.eqb_spec (Task.id x) (Task.id t)) as [E|E].
  - assert (x = t) by (apply (NoDup_map_inj Task.id (tasks s)); auto).
    subst x. exact Hf.
  - intros H; exact H.
Qed.

Lemma update_dependent_done_stays (s : Store) (dep : Dependency.t) :
  NoDup (task_ids s) ->
  Forall2 done_stays (tasks s) (tasks (update_dependent s dep)).
Proof.
  intros Hnd. unfold update_dependent.
  destruct (get_task s (Dependency.task_id dep)) as [dt0|] eqn:G;
    [|apply done_stays_refl].
  assert (Hid : Task.id dt0 = Dependency.task_id dep)
    by (apply find_id_some in G; apply G).
  rewrite <- Hid in G.
  set (p := compute_task_progress s dt0).
  set (s1 := update_task s (Task.id dt0) (Task.set_progress p)).
  set (dt := Task.set_progress p dt0).
  assert (H1 : Forall2 done_stays (tasks s) (tasks s1))
    by (apply done_stays_write; auto; intros H; exact H).
  assert (G1 : get_task s1 (Task.id dt0) = Some dt)
    by (apply get_task_update; [reflexivity|exact G]).
  assert (Hnd1 : NoDup (task_ids s1))
    by (unfold s1; rewrite task_ids_update_task; auto).
  cbn [Task.id Task.set_progress] in *. fold dt.
  assert (Hw : forall v, Task.status dt <> DONE ->
            Forall2 done_stays (tasks s)
              (tasks (update_task s1 (Task.id dt0) (Task.set_status v)))).
  { intros v Hnot. eapply done_stays_trans; [exact H1|].
    apply (done_stays_write s1 dt (Task.set_status v) Hnd1 G1).
    intros H. contradiction. }
  destruct (has_blocking_dependencies s1 dt).
  - destruct (Task.status dt =? DONE)%string eqn:Ed; cbn [negb]; [exact H1|].
    apply Hw. apply status_eqb_false. exact Ed.
  - destruct (Task.status dt =? BLOCKED)%string eqn:Ek; [|exact H1].
    apply status_eqb_true in Ek.
    assert (Hnot : Task.status dt <> DONE) by (rewrite Ek; discriminate).
    repeat match goal with
           | |- context [if ?c then _ else _] => destruct c
           end; apply Hw; exact Hnot.
Qed.

Lemma cascade_done_stays (deps : list Dependency.t) :
  forall s, NoDup (task_ids s) ->
    Forall2 done_stays (tasks s) (tasks (fold_left update_dependent deps s)).
Proof.
  induction deps as [|d deps IH]; intros s Hnd; cbn [fold_left].
  - apply done_stays_refl.
  - eapply done_stays_trans; [apply update_dependent_done_stays, Hnd|].
    apply IH.
    rewrite (touches_only_ids _ _ _ (update_dependent_touches s d)). exact Hnd.
Qed.

(** X11.  The cascade never takes a task out of done: a row that is done
    before [update_dependents_status] is done after it, whatever the edges. *)
Theorem cascade_never_reopens_done (s : Store) (c : Z) :
  NoDup (task_ids s) ->
  forall n U,
    nth_error (tasks s) n = Some U -> Task.status U = DONE ->
    exists U',
      nth_error (tasks (update_dependents_status s c)) n = Some U' /\
      Task.status U' = DONE.
Proof.
  intros Hnd n U Hn Hdone.
  pose proof (cascade_done_stays (dependents_of s c) s Hnd) as H.
  destruct (Forall2_nth_error _ _ _ H n U Hn) as (U' & Hn' & HU).
  exists U'. split; [exact Hn'|]. apply HU, Hdone.
Qed.

Lemma stale_store_keys : NoDup (task_ids stale_store).
Proof. repeat constructor; simpl; intuition discriminate. Qed.

Lemma chain_store_keys : NoDup (task_ids chain_store).
Proof. repeat constructor; simpl; intuition discriminate. Qed.

Lemma status_deriver_effect_witness :
  exists U',
    nth_error (tasks (enforce_blocking_status stale_store
                        (plain_task 2 "B" TODO))) 0
    = Some U' /\
    same_but_status_progress (plain_task 1 "C" TODO) U' /\
    Task.progress U' = Task.progress (plain_task 1 "C" TODO) /\
    (Task.id (plain_task 1 "C" TODO) <> Task.id (plain_task 2 "B" TODO) ->
     U' = plain_task 1 "C" TODO) /\
    (Task.status U' = DONE <-> Task.status (plain_task 1 "C" TODO) = DONE).
Proof.
  exact (proj2 (proj2 (status_deriver_effect stale_store (plain_task 2 "B" TODO)
                         stale_store_keys eq_refl))
               0%nat (plain_task 1 "C" TODO) eq_refl).
Defined.

Lemma status_deriver_idempotent_witness :
  enforce_blocking_status
    (enforce_blocking_status stale_store (plain_task 2 "B" TODO))
    (refresh (enforce_blocking_status stale_store (plain_task 2 "B" TODO))
             (plain_task 2 "B" TODO))
  = enforce_blocking_status stale_store (plain_task 2 "B" TODO).
Proof.
  exact (status_deriver_idempotent stale_store (plain_task 2 "B" TODO)
           stale_store_keys eq_refl).
Defined.

Lemma cascade_never_reopens_done_witness :
  exists U',
    nth_error (tasks (update_dependents_status chain_store 1)) 0 = Some U' /\
    Task.status U' = DONE.
Proof.
  exact (cascade_never_reopens_done chain_store 1 chain_store_keys
           0%nat chain_C eq_refl eq_refl).
Defined.

(* ------------------------------------------------------------------ *)
(** ** Creating and deleting tasks *)

Lemma get_task_absent (s : Store) (j : Z) :
  ~ In j (task_ids s) -> get_task s j = None.
Proof.
  intros Hno. unfold get_task.
  destruct (find _ (tasks s)) as [x|] eqn:F; [|reflexivity].
  apply find_some in F. destruct F as [Hin Heq]. apply Z.eqb_eq in Heq.
  exfalso. apply Hno. rewrite <- Heq. apply in_map. exact Hin.
Qed.

Lemma touches_only_in (P : Z -> Prop) (s s' : Store) (x : Task.t) :
  touches_only P s s' -> In x (tasks s) ->
  exists y, In y (tasks s') /\ same_but_status_progress x y /\
            (~ P (Task.id x) -> y = x).
Proof.
  intros (_ & _ & H) Hx.
  induction H as [|a b l l' [Hab Ha] _ IH]; [destruct Hx|].
  destruct Hx as [<-|Hx].
  - exists b. split; [left; reflexivity|]. split; [exact Hab|exact Ha].
  - destruct (IH Hx) as (y & Hy & Hrest).
    exists y. split; [right; exact Hy|exact Hrest].
Qed.

(** X12.  Deleting a task that exists answers ok and removes the task, its
    subtasks and every edge that has it as an endpoint, and nothing else:
    the other subtasks and edges stay, every other task row stays with all
    its columns but status and progress, and the rows that had no edge to
    the deleted task are exactly as before. *)
Theorem delete_task_removes_everything (s : Store) (tid : Z) (t : Task.t) :
  get_task s tid = Some t ->
  let s' := fst (api_delete_task s tid) in
  snd (api_delete_task s tid) = Ok RespOk /\
  get_task s' tid = None /\
  (forall st, In st (subtasks s') <->
              In st (subtasks s) /\ Subtask.task_id st <> tid) /\
  (forall d, In d (dependencies s') <->
             In d (dependencies s) /\ Dependency.task_id d <> tid /\
             Dependency.depends_on_id d <> tid) /\
  (forall x, In x (tasks s) -> Task.id x <> tid ->
     exists y, In y (tasks s') /\ same_but_status_progress x y /\
               (~ depends_directly_on s x tid -> y = x)).
Proof.
  intros Hget. unfold api_delete_task. rewrite Hget. cbv zeta. cbn [fst snd].
  set (ids := map Dependency.task_id (dependents_of s tid)).
  set (s1 := mkStore _ _ _).
  pose proof (recompute_touches ids s1) as T.
  split; [reflexivity|]. split; [|split; [|split]].
  - apply get_task_absent. rewrite task_ids_recompute.
    unfold s1, task_ids. cbn [tasks]. intros Hin.
    apply in_map_iff in Hin. destruct Hin as (x & Hx & Hin).
    apply filter_In in Hin. destruct Hin as [_ Hne].
    rewrite Hx, Z.eqb_refl in Hne. discriminate.
  - intros st. rewrite subtasks_recompute. unfold s1. cbn [subtasks].
    rewrite filter_In, negb_true_iff, Z.eqb_neq. reflexivity.
  - intros d. rewrite deps_recompute. unfold s1. cbn [dependencies].
    rewrite filter_In, andb_true_iff, !negb_true_iff, !Z.eqb_neq. tauto.
  - intros x Hx Hne.
    assert (Hx1 : In x (tasks s1)).
    { unfold s1. cbn [tasks]. apply filter_In. split; [exact Hx|].
      apply negb_true_iff, Z.eqb_neq. exact Hne. }
    destruct (touches_only_in _ s1 _ x T Hx1) as (y & Hy & Hsame & Heq).
    exists y. split; [exact Hy|]. split; [exact Hsame|].
    intros Hno. apply Heq. intros Hin. apply Hno.
    apply in_dependents_of in Hin. destruct Hin as (d & Hd & Htid & Hc).
    exists d. auto.
Qed.

Lemma touches_only_fresh (P : Z -> Prop) (l : list Task.t) (t : Task.t)
  (a : list Subtask.t) (b : list Dependency.t) (s' : Store) :
  touches_only P (mkStore (l ++ [t]) a b) s' ->
  (forall x, In x l -> ~ P (Task.id x)) ->
  exists t', s' = mkStore (l ++ [t']) a b /\ same_but_status_progress t t'.
Proof.
  intros (Hs & Hd & H) Hl. cbn [tasks subtasks dependencies] in *.
  destruct s' as [l' a' b']. cbn [tasks subtasks dependencies] in *. subst a' b'.
  apply Forall2_app_inv_l in H. destruct H as (l1 & l2 & H1 & H2 & ->).
  inversion H2 as [|? t' ? l2' [Hsame _] Hnil]; subst.
  inversion Hnil; subst.
  exists t'. split; [|exact Hsame]. f_equal. f_equal.
  clear H2 Hnil. induction H1 as [|x y l l1 [_ Hx] _ IH]; [reflexivity|].
  rewrite Hx by (apply Hl; left; reflexivity). f_equal. apply IH.
  intros z Hz. apply Hl. right. exact Hz.
Qed.

Lemma find_snoc_fresh {A : Type} (p : A -> bool) (l : list A) (a : A) :
  (forall x, In x l -> p x = false) -> p a = true ->
  find p (l ++ [a]) = Some a.
Proof.
  intros Hl Ha. induction l as [|x l IH]; cbn [app find].
  - rewrite Ha. reflexivity.
  - rewrite (Hl x (or_introl eq_refl)). apply IH.
    intros y Hy. apply Hl. right. exact Hy.
Qed.

(** X13.  A task creation that answers ok appends one row and touches no
    other row, subtask or edge.  The new row has a key that was not in use,
    the stripped (non-empty) title, the slug of that title, priority 2 and
    week 0 unless given, and no timestamps. *)
Theorem create_task_appends (s : Store)
  (title description status : option string) (priority week : option Z)
  (r : Response) :
  snd (api_tasks s title description status priority week) = Ok r ->
  exists t',
    r = RespTask t' /\
    fst (api_tasks s title description status priority week)
    = mkStore (tasks s ++ [t']) (subtasks s) (dependencies s) /\
    Task.id t' = next_id (task_ids s) /\
    ~ In (Task.id t') (task_ids s) /\
    Task.title t' = PyStr.strip (str_or title "") /\
    Task.title t' <> "" /\
    Task.slug t' = slugify (Task.title t') /\
    Task.priority t' = int_or priority 2 /\
    Task.week t' = int_or week 0 /\
    Task.started_at t' = None /\ Task.completed_at t' = None.
Proof.
  unfold api_tasks. cbv zeta.
  destruct (PyStr.truthy (PyStr.strip (str_or title ""))) eqn:Etitle;
    cbn [negb]; [|discriminate].
  destruct (set_dates_for_week _ DEFAULT_START_DATE) as [t0|] eqn:Edates;
    [|discriminate].
  destruct (negb _); [discriminate|].
  destruct (slug_taken _ _ _); [discriminate|].
  cbn [fst snd]. intros [= <-].
  assert (H0 : Task.id t0 = next_id (task_ids s) /\
               Task.title t0 = PyStr.strip (str_or title "") /\
               Task.slug t0 = slugify (PyStr.strip (str_or title "")) /\
               Task.priority t0 = int_or priority 2 /\
               Task.week t0 = int_or week 0 /\
               Task.started_at t0 = None /\ Task.completed_at t0 = None).
  { unfold set_dates_for_week in Edates. cbn [Task.week] in Edates.
    destruct (_ && _) in Edates.
    - destruct (add_days _ _) as [sd|] in Edates; [|discriminate].
      destruct (add_days sd 6) as [ed|] in Edates; [|discriminate].
      injection Edates as <-. repeat split.
    - injection Edates as <-. repeat split. }
  destruct H0 as (Hid & Hti & Hsl & Hpr & Hwk & Hst & Hco).
  assert (Hfresh : forall x, In x (tasks s) -> Task.id t0 <> Task.id x).
  { intros x Hx E. apply (next_id_fresh (task_ids s)).
    rewrite <- Hid, E. apply in_map. exact Hx. }
  set (s1 := mkStore (tasks s ++ [t0]) (subtasks s) (dependencies s)).
  assert (T : touches_only (eq (Task.id t0)) s1
                (enforce_blocking_status (store_progress s1 t0)
                   (refresh (store_progress s1 t0) t0))).
  { eapply touches_only_trans; [apply store_progress_touches|].
    assert (E : Task.id (refresh (store_progress s1 t0) t0) = Task.id t0).
    { unfold refresh.
      destruct (get_task (store_progress s1 t0) (Task.id t0)) eqn:G';
        [|reflexivity].
      apply find_id_some in G'. apply G'. }
    rewrite <- E at 1. apply enforce_touches. }
  destruct (touches_only_fresh _ _ _ _ _ _ T Hfresh) as (t' & Es & Hsame).
  rewrite Es.
  assert (Hid' : Task.id t' = Task.id t0) by apply Hsame.
  assert (G : get_task (mkStore (tasks s ++ [t']) (subtasks s) (dependencies s))
                (Task.id t0) = Some t').
  { unfold get_task. cbn [tasks]. apply find_snoc_fresh.
    - intros x Hx. apply Z.eqb_neq. intros E.
      apply (Hfresh x Hx). symmetry. exact E.
    - apply Z.eqb_eq. exact Hid'. }
  rewrite (refresh_get _ t0 t' G).
  destruct Hsame as (_ & Hsl' & Hti' & _ & Hpr' & Hwk' & _ & _ & Hst' & Hco').
  exists t'. repeat split; try congruence.
  - rewrite Hid', Hid. apply next_id_fresh.
  - rewrite Hti', Hti. intros E. rewrite E in Etitle. discriminate.
Qed.

Lemma delete_task_witness :
  let s' := fst (api_delete_task chain_store 1) in
  snd (api_delete_task chain_store 1) = Ok RespOk /\
  get_task s' 1 = None /\
  (forall st, In st (subtasks s') <->
              In st (subtasks chain_store) /\ Subtask.task_id st <> 1) /\
  (forall d, In d (dependencies s') <->
             In d (dependencies chain_store) /\ Dependency.task_id d <> 1 /\
             Dependency.depends_on_id d <> 1) /\
  (forall x, In x (tasks chain_store) -> Task.id x <> 1 ->
     exists y, In y (tasks s') /\ same_but_status_progress x y /\
               (~ depends_directly_on chain_store x 1 -> y = x)).
Proof.
  exact (delete_task_removes_everything chain_store 1 chain_C eq_refl).
Defined.

Lemma create_task_witness :
  exists t',
    RespTask (plain_task 1 "C" TODO) = RespTask t' /\
    fst (api_tasks empty_store (Some "C") None None None None)
    = mkStore (tasks empty_store ++ [t']) [] [] /\
    Task.id t' = next_id (task_ids empty_store) /\
    ~ In (Task.id t') (task_ids empty_store) /\
    Task.title t' = PyStr.strip (str_or (Some "C") "") /\
    Task.title t' <> "" /\
    Task.slug t' = slugify (Task.title t') /\
    Task.priority t' = int_or None 2 /\
    Task.week t' = int_or None 0 /\
    Task.started_at t' = None /\ Task.completed_at t' = None.
Proof.
  exact (create_task_appends empty_store (Some "C") None None None None
           (RespTask (plain_task 1 "C" TODO)) eq_refl).
Defined.

(* ------------------------------------------------------------------ *)
(** ** Handlers and the tables they write *)

(** X14.  No store the API can produce holds an edge from a task to itself
    or an edge with a zero endpoint: such requests are refused before
    anything is stored. *)
Theorem reachable_edges_have_two_ends (s : Store) :
  reachable s ->
  forall d, In d (dependencies s) ->
    Dependency.task_id d <> Dependency.depends_on_id d /\
    Dependency.task_id d <> 0 /\ Dependency.depends_on_id d <> 0.
Proof.
  intros Hr d Hd. destruct (reachable_edges_wf s Hr) as [_ H].
  destruct (H d Hd) as (Ha & Hb & Hab). auto.
Qed.

Ltac rows_frame :=
  cbv zeta; split_cases; cbn [fst];
  repeat (autorewrite with rows; cbn [subtasks]).

(** X15.  Which handler writes which table.  The dependency table is
    written only by adding or deleting a dependency and by deleting a task;
    creating or editing a task and adding or deleting a dependency never
    write a subtask; and only task creation and task deletion add or remove
    a task row. *)
Theorem tables_written_by (s : Store) (today : date) (r : Request) :
  match r with
  | AddDependency _ _ | DeleteDependency _ | DeleteTask _ => True
  | _ => dependencies (fst (handle s today r)) = dependencies s
  end /\
  match r with
  | CreateTask _ _ _ _ _ | EditTask _ _ _ _ _
  | AddDependency _ _ | DeleteDependency _ =>
      subtasks (fst (handle s today r)) = subtasks s
  | _ => True
  end /\
  match r with
  | CreateTask _ _ _ _ _ | DeleteTask _ => True
  | _ => task_ids (fst (handle s today r)) = task_ids s
  end.
Proof.
  split; [exact (handle_keeps_edges s today r)|].
  destruct r; cbn [handle]; split; try exact I.
  - unfold api_tasks. rows_frame; reflexivity.
  - unfold api_update_task_status. rows_frame; reflexivity.
  - unfold api_edit_task. rows_frame; reflexivity.
  - unfold api_edit_task. rows_frame; try reflexivity.
    match goal with H : _ = Some _ |- _ => apply edited_row_id in H end.
    rewrite task_ids_update_const by assumption. reflexivity.
  - unfold api_create_subtask. rows_frame; reflexivity.
  - unfold api_toggle_subtask. rows_frame; reflexivity.
  - unfold api_delete_subtask. rows_frame; reflexivity.
  - unfold api_add_dependency. rows_frame; reflexivity.
  - unfold api_add_dependency. rows_frame; reflexivity.
  - unfold api_delete_dependency. rows_frame; reflexivity.
  - unfold api_delete_dependency. rows_frame; reflexivity.
Qed.

(** X16.  A toggle that is not refused answers ok, negates the [done]
    flag of that one subtask, and leaves every other subtask and every edge
    as it was. *)
Theorem toggle_flips_one_flag
  (s : Store) (today : date) (st : Subtask.t) (t : Task.t) :
  get_subtask s (Subtask.id st) = Some st ->
  get_task s (Subtask.task_id st) = Some t ->
  has_blocking_dependencies s t = false ->
  failed (snd (api_toggle_subtask s today (Subtask.id st))) = false /\
  subtasks (fst (api_toggle_subtask s today (Subtask.id st)))
  = map (fun x => if Subtask.id x =? Subtask.id st
                  then Subtask.set_done (negb (Subtask.done x)) x else x)
        (subtasks s) /\
  dependencies (fst (api_toggle_subtask s today (Subtask.id st)))
  = dependencies s.
Proof.
  intros Hst Ht Hb. unfold api_toggle_subtask. rewrite Hst, Ht, Hb.
  cbv zeta. repeat split.
  - split_cases; reflexivity.
  - split_cases; cbn [fst];
      repeat (autorewrite with rows; cbn [subtasks]); reflexivity.
  - split_cases; cbn [fst];
      repeat (autorewrite with deps; cbn [dependencies]); reflexivity.
Qed.

(** X17.  The dependents endpoint lists exactly the tasks that have an
    edge straight to the given task (in task order, each once per row). *)
Theorem dependents_endpoint_lists_direct_dependents
  (s : Store) (c : Z) (x : Task.t) :
  In x (api_get_dependents s c) <->
  In x (tasks s) /\ depends_directly_on s x c.
Proof.
  unfold api_get_dependents. cbv zeta.
  assert (H : In x (filter (fun y => existsb (Z.eqb (Task.id y))
                                      (map Dependency.task_id (dependents_of s c)))
                           (tasks s))
              <-> In x (tasks s) /\ depends_directly_on s x c).
  { rewrite filter_In, existsb_exists. unfold depends_directly_on. split.
    - intros (Hx & i & Hi & Heq). split; [exact Hx|].
      apply Z.eqb_eq in Heq. apply in_dependents_of in Hi.
      destruct Hi as (d & Hd & Htid & Hc). exists d. repeat split; congruence.
    - intros (Hx & d & Hd & Htid & Hc). split; [exact Hx|].
      exists (Task.id x). split; [|apply Z.eqb_refl].
      apply in_dependents_of. exists d. auto. }
  destruct (map Dependency.task_id (dependents_of s c)) eqn:E; [|exact H].
  rewrite <- H. cbn [existsb]. split; [intros []|].
  intros Hin. apply filter_In in Hin. destruct Hin as [_ Hf]. discriminate.
Qed.

(** X18.  Adding a new edge from a task that is not done to an existing
    task that is not done answers ok, stores the edge, and blocks the
    depending task in the same request; no other row changes. *)
Theorem add_dependency_blocks_at_once
  (s : Store) (a b : Z) (t x : Task.t) :
  a <> 0 -> b <> 0 -> a <> b ->
  find_dependency s a b = None ->
  get_task s a = Some t -> Task.status t <> DONE ->
  In x (tasks s) -> Task.id x = b -> Task.status x <> DONE ->
  exists dep,
    api_add_dependency s (Some a) (Some b)
    = (mkStore (map (fun y => if Task.id y =? a
                              then Task.set_status BLOCKED y else y) (tasks s))
               (subtasks s) (dependencies s ++ [dep]),
       Ok (RespDependency dep)) /\
    Dependency.task_id dep = a /\ Dependency.depends_on_id dep = b /\
    get_task (fst (api_add_dependency s (Some a) (Some b))) a
    = Some (Task.set_status BLOCKED t).
Proof.
  intros Ha Hb Hab Hnone Hget Hst Hx Hxid Hxst.
  pose proof (find_id_some s a t Hget) as [Hin Hid].
  set (dep := Dependency.mk (next_id (map Dependency.id (dependencies s))) a b).
  set (s1 := mkStore (tasks s) (subtasks s) (dependencies s ++ [dep])).
  assert (Hblk : has_blocking_dependencies s1 t = true).
  { apply has_blocking_spec. exists dep, x. unfold s1. cbn [tasks dependencies].
    split; [apply in_app_iff; right; left; reflexivity|].
    split; [cbn; congruence|]. split; [exact Hx|].
    split; [cbn; exact Hxid|exact Hxst]. }
  assert (E : api_add_dependency s (Some a) (Some b)
              = (update_task s1 a (Task.set_status BLOCKED),
                 Ok (RespDependency dep))).
  { unfold api_add_dependency, int_or.
    apply Z.eqb_neq in Ha, Hb, Hab. rewrite Ha, Hb. rewrite Ha, Hb, Hab.
    cbn [orb]. rewrite Hnone. cbv zeta. fold dep. fold s1.
    change (get_task s1 a) with (get_task s a). rewrite Hget.
    unfold enforce_blocking_status. rewrite Hblk.
    apply status_eqb_false in Hst. rewrite Hst. cbn [negb andb].
    rewrite Hid. reflexivity. }
  exists dep. rewrite E. repeat split.
  cbn [fst]. rewrite <- Hid. apply get_task_update; [reflexivity|].
  rewrite Hid. exact Hget.
Qed.

(** X19.  Deleting the edge that was the last unmet dependency of a
    blocked task unblocks the task to in_progress (progress above zero) or
    todo, never to done, whatever its subtasks: this handler runs the
    Status Deriver and nothing else. *)
Theorem delete_last_blocker_never_completes
  (s : Store) (dep : Dependency.t) (t : Task.t) :
  get_dependency s (Dependency.id dep) = Some dep ->
  get_task s (Dependency.task_id dep) = Some t ->
  Task.status t = BLOCKED ->
  has_blocking_dependencies
    (mkStore (tasks s) (subtasks s)
       (filter (fun d => negb (Dependency.id d =? Dependency.id dep))
               (dependencies s))) t = false ->
  let v := if PyFloat.ltb PyFloat.zero (Task.progress t)
           then IN_PROGRESS else TODO in
  snd (api_delete_dependency s (Dependency.id dep)) = Ok RespOk /\
  get_task (fst (api_delete_dependency s (Dependency.id dep)))
           (Dependency.task_id dep)
  = Some (Task.set_status v t) /\
  Task.status (Task.set_status v t) <> DONE /\
  subtasks (fst (api_delete_dependency s (Dependency.id dep))) = subtasks s.
Proof.
  intros Hdep Hget Hst Hnb v.
  pose proof (find_id_some s _ t Hget) as [Hin Hid].
  unfold api_delete_dependency. rewrite Hdep. cbv zeta.
  set (s1 := mkStore _ _ _) in *.
  change (get_task s1 (Dependency.task_id dep))
    with (get_task s (Dependency.task_id dep)).
  rewrite Hget. cbn [fst snd].
  unfold enforce_blocking_status. rewrite Hnb, Hst. cbn.
  fold v. repeat split.
  - rewrite <- Hid. apply get_task_update; [reflexivity|].
    rewrite Hid. exact Hget.
  - unfold v. destruct (PyFloat.ltb _ _); discriminate.
Qed.

Lemma reachable_edges_witness :
  3 <> 2 /\ 3 <> 0 /\ 2 <> 0.
Proof.
  refine (reachable_edges_have_two_ends chain_after _ (Dependency.mk 1 3 2) _).
  - rewrite <- chain_trace_runs. apply reachable_run, reachable_empty.
  - simpl. auto.
Defined.

Lemma toggle_flips_one_flag_witness :
  failed (snd (api_toggle_subtask half_done_store day0 2)) = false /\
  subtasks (fst (api_toggle_subtask half_done_store day0 2))
  = [Subtask.mk 1 1 "a" true; Subtask.mk 2 1 "b" true] /\
  dependencies (fst (api_toggle_subtask half_done_store day0 2)) = [].
Proof.
  exact (toggle_flips_one_flag half_done_store day0 (Subtask.mk 2 1 "b" false)
           half_done_task eq_refl eq_refl eq_refl).
Defined.

Lemma add_dependency_blocks_witness :
  exists dep,
    api_add_dependency two_tasks_store (Some 2) (Some 1)
    = (mkStore [plain_task 1 "C" TODO; plain_task 2 "B" BLOCKED] []
               ([] ++ [dep]),
       Ok (RespDependency dep)) /\
    Dependency.task_id dep = 2 /\ Dependency.depends_on_id dep = 1 /\
    get_task (fst (api_add_dependency two_tasks_store (Some 2) (Some 1))) 2
    = Some (plain_task 2 "B" BLOCKED).
Proof.
  refine (add_dependency_blocks_at_once two_tasks_store 2 1
            (plain_task 2 "B" TODO) (plain_task 1 "C" TODO)
            _ _ _ eq_refl eq_refl _ _ eq_refl _);
    try discriminate.
  simpl. auto.
Defined.

Lemma delete_last_blocker_witness :
  snd (api_delete_dependency blocked_store 1) = Ok RespOk /\
  get_task (fst (api_delete_dependency blocked_store 1)) 2
  = Some (plain_task 2 "B" TODO) /\
  Task.status (plain_task 2 "B" TODO) <> DONE /\
  subtasks (fst (api_delete_dependency blocked_store 1))
  = subtasks blocked_store.
Proof.
  exact (delete_last_blocker_never_completes blocked_store
           (Dependency.mk 1 2 1) (plain_task 2 "B" BLOCKED)
           eq_refl eq_refl eq_refl eq_refl).
Defined.

(* ------------------------------------------------------------------ *)
(** ** Slugs *)

Lemma slug_char_facts (c : ascii) :
  PyStr.is_slug_char c = true ->
  PyStr.is_dash c = false /\ PyStr.is_upper c = false.
Proof.
  unfold PyStr.is_slug_char, PyStr.is_dash, PyStr.is_upper.
  generalize (PyStr.code c). intros n H.
  rewrite orb_true_iff, !andb_true_iff, !N.leb_le in H.
  split.
  - apply N.eqb_neq. lia.
  - apply andb_false_iff. rewrite !N.leb_gt. lia.
Qed.

Lemma dash_not_upper (c : ascii) :
  PyStr.is_dash c = true -> PyStr.is_upper c = false.
Proof.
  unfold PyStr.is_dash, PyStr.is_upper. generalize (PyStr.code c). intros n H.
  apply N.eqb_eq in H. subst n. reflexivity.
Qed.

Lemma alphabet_cases (c : ascii) :
  slug_alphabet c = true ->
  (PyStr.is_slug_char c = true /\ PyStr.is_dash c = false) \/
  (PyStr.is_slug_char c = false /\ PyStr.is_dash c = true).
Proof.
  unfold slug_alphabet. intros H.
  destruct (PyStr.is_slug_char c) eqn:E.
  - left. split; [reflexivity|]. apply slug_char_facts, E.
  - right. split; [reflexivity|]. exact H.
Qed.

Lemma dash_is_dash : PyStr.is_dash "-"%char = true.
Proof. reflexivity. Qed.

(** *** What [sub_runs] produces *)

Lemma sub_runs_alphabet (l : list ascii) :
  forall b, Forall (fun c => slug_alphabet c = true) (PyStr.sub_runs l b).
Proof.
  induction l as [|c r IH]; intros b; cbn [PyStr.sub_runs].
  - destruct b; repeat constructor.
  - destruct (PyStr.is_slug_char c) eqn:E; [|apply IH].
    apply Forall_app. split; [destruct b; repeat constructor|].
    constructor; [|apply IH]. unfold slug_alphabet. rewrite E. reflexivity.
Qed.

Lemma sub_runs_single_dashes (l : list ascii) :
  forall b, no_double_dash (PyStr.sub_runs l b) = true.
Proof.
  induction l as [|c r IH]; intros b; cbn [PyStr.sub_runs].
  - destruct b; reflexivity.
  - destruct (PyStr.is_slug_char c) eqn:E; [|apply IH].
    destruct (slug_char_facts c E) as [Hd _].
    assert (H : no_double_dash (c :: PyStr.sub_runs r false) = true).
    { cbn [no_double_dash]. rewrite Hd, IH. reflexivity. }
    destruct b; cbn [app]; [|exact H].
    cbn [no_double_dash starts_with_dash] in *. rewrite Hd in *.
    rewrite andb_false_r. cbn [negb andb]. exact H.
Qed.

(** *** Stripping *)

Lemma lstrip_suffix (p : ascii -> bool) (l : list ascii) :
  exists pre : list ascii, l = (pre ++ PyStr.lstrip p l)%list.
Proof.
  induction l as [|c r [pre IH]]; cbn [PyStr.lstrip].
  - exists []. reflexivity.
  - destruct (p c).
    + exists (c :: pre). cbn [app]. f_equal. exact IH.
    + exists []. reflexivity.
Qed.

Lemma lstrip_head (l : list ascii) :
  starts_with_dash (PyStr.lstrip PyStr.is_dash l) = false.
Proof.
  induction l as [|c r IH]; cbn [PyStr.lstrip]; [reflexivity|].
  destruct (PyStr.is_dash c) eqn:E; [exact IH|]. cbn. exact E.
Qed.

Lemma lstrip_fixed (l : list ascii) :
  starts_with_dash l = false -> PyStr.lstrip PyStr.is_dash l = l.
Proof.
  destruct l as [|c r]; cbn; [reflexivity|]. intros ->. reflexivity.
Qed.

Lemma rstrip_prefix (p : ascii -> bool) (l : list ascii) :
  exists post : list ascii, l = (PyStr.rstrip p l ++ post)%list.
Proof.
  unfold PyStr.rstrip. destruct (lstrip_suffix p (rev l)) as [pre H].
  exists (rev pre). rewrite <- rev_app_distr, <- H, rev_involutive. reflexivity.
Qed.

Lemma no_double_dash_suffix (a b : list ascii) :
  no_double_dash (a ++ b)%list = true -> no_double_dash b = true.
Proof.
  induction a as [|c a IH]; cbn [app no_double_dash]; [auto|].
  intros H. apply andb_true_iff in H. apply IH, H.
Qed.

Lemma starts_with_dash_app (a b : list ascii) :
  a <> [] -> starts_with_dash (a ++ b)%list = starts_with_dash a.
Proof. destruct a; [congruence|reflexivity]. Qed.

Lemma no_double_dash_prefix (a b : list ascii) :
  no_double_dash (a ++ b)%list = true -> no_double_dash a = true.
Proof.
  induction a as [|c a IH]; cbn [app no_double_dash]; [auto|].
  intros H. apply andb_true_iff in H. destruct H as [H1 H2].
  rewrite (IH H2), andb_true_r.
  destruct a as [|d a]; [|exact H1].
  cbn [starts_with_dash]. rewrite andb_false_r. reflexivity.
Qed.

Lemma slugify_core (s : string) :
  slugify s
  = match slug_core s with
    | [] => "task"
    | l => string_of_list_ascii l
    end.
Proof.
  unfold slugify, slug_core, PyStr.strip_with.
  rewrite list_ascii_of_string_of_list_ascii.
  destruct (PyStr.rstrip _ _); reflexivity.
Qed.

Lemma slug_core_shaped (s : string) :
  slug_core s <> [] -> slug_shaped (slug_core s).
Proof.
  unfold slug_core.
  set (l1 := PyStr.sub_runs _ false).
  set (x := PyStr.lstrip PyStr.is_dash l1).
  intros Hne.
  destruct (lstrip_suffix PyStr.is_dash l1) as [pre Hpre]. fold x in Hpre.
  destruct (rstrip_prefix PyStr.is_dash x) as [post Hpost].
  assert (Hall1 : Forall (fun c => slug_alphabet c = true) l1)
    by apply sub_runs_alphabet.
  assert (Hnd1 : no_double_dash l1 = true) by apply sub_runs_single_dashes.
  rewrite Hpre in Hall1, Hnd1.
  apply Forall_app in Hall1. destruct Hall1 as [_ Hallx].
  apply no_double_dash_suffix in Hnd1.
  rewrite Hpost in Hallx, Hnd1.
  apply Forall_app in Hallx. destruct Hallx as [Hall _].
  apply no_double_dash_prefix in Hnd1.
  repeat split; auto.
  - rewrite <- (starts_with_dash_app _ post Hne), <- Hpost. apply lstrip_head.
  - unfold PyStr.rstrip. rewrite rev_involutive. apply lstrip_head.
Qed.

Lemma task_shaped : slug_shaped (list_ascii_of_string "task").
Proof. repeat split; try discriminate; repeat constructor. Qed.

Lemma slugify_is_shaped (s : string) :
  slug_shaped (list_ascii_of_string (slugify s)).
Proof.
  rewrite slugify_core. destruct (slug_core s) as [|c l] eqn:E.
  - exact task_shaped.
  - rewrite list_ascii_of_string_of_list_ascii. rewrite <- E.
    apply slug_core_shaped. rewrite E. discriminate.
Qed.

(** X21.  Whatever the title, the slug is not empty, is made only of
    lower-case letters, digits and dashes, never has two dashes in a row,
    and neither starts nor ends with a dash. *)
Theorem slugify_shape (s : string) :
  slug_shaped (list_ascii_of_string (slugify s)).
Proof. exact (slugify_is_shaped s). Qed.

(** *** A slug is its own slug *)

Lemma lower_shaped (l : list ascii) :
  Forall (fun c => slug_alphabet c = true) l -> map PyStr.lower_char l = l.
Proof.
  induction 1 as [|c l Hc _ IH]; cbn [map]; [reflexivity|].
  rewrite IH. f_equal. unfold PyStr.lower_char.
  destruct (alphabet_cases c Hc) as [[H _]|[_ H]].
  - rewrite (proj2 (slug_char_facts c H)). reflexivity.
  - rewrite (dash_not_upper c H). reflexivity.
Qed.

Lemma dash_char (c : ascii) : PyStr.is_dash c = true -> c = "-"%char.
Proof.
  unfold PyStr.is_dash, PyStr.code. intros H. apply N.eqb_eq in H.
  rewrite <- (ascii_N_embedding c), H. reflexivity.
Qed.

Lemma sub_runs_shaped (l : list ascii) :
  Forall (fun c => slug_alphabet c = true) l ->
  no_double_dash l = true ->
  starts_with_dash (rev l) = false ->
  PyStr.sub_runs l false = l /\
  (starts_with_dash l = false -> l <> [] ->
   PyStr.sub_runs l true = "-"%char :: l).
Proof.
  induction 1 as [|c r Hc _ IH]; intros Hnd Hlast.
  - split; [reflexivity|]. intros _ H. congruence.
  - cbn [no_double_dash] in Hnd. apply andb_true_iff in Hnd.
    destruct Hnd as [Hpair Hnd].
    assert (Hlast' : r <> [] -> starts_with_dash (rev r) = false).
    { intros Hr. cbn [rev] in Hlast.
      rewrite starts_with_dash_app in Hlast; [exact Hlast|].
      intros E. apply Hr. apply (f_equal (@rev ascii)) in E.
      rewrite rev_involutive in E. exact E. }
    assert (IH' : r <> [] ->
              PyStr.sub_runs r false = r /\
              (starts_with_dash r = false -> r <> [] ->
               PyStr.sub_runs r true = "-"%char :: r))
      by (intros Hr; apply IH; auto).
    cbn [PyStr.sub_runs].
    destruct (alphabet_cases c Hc) as [[Hs Hd]|[Hs Hd]]; rewrite Hs.
    + assert (E : PyStr.sub_runs r false = r).
      { destruct r as [|d r']; [reflexivity|]. apply IH'. discriminate. }
      rewrite E. split; [reflexivity|]. intros _ _. reflexivity.
    + (* a dash: it is followed by a character that is not a dash *)
      assert (Hr : r <> []).
      { intros ->. cbn in Hlast. congruence. }
      rewrite Hd in Hpair. cbn [andb] in Hpair. apply negb_true_iff in Hpair.
      destruct (IH' Hr) as [_ IH2].
      split.
      * rewrite (IH2 Hpair Hr). rewrite (dash_char c Hd). reflexivity.
      * cbn [starts_with_dash]. rewrite Hd. discriminate.
Qed.

Lemma slugify_of_shaped (l : list ascii) :
  slug_shaped l -> slugify (string_of_list_ascii l) = string_of_list_ascii l.
Proof.
  intros (Hne & Hall & Hnd & Hhead & Hlast).
  rewrite slugify_core. unfold slug_core, PyStr.lower.
  rewrite !list_ascii_of_string_of_list_ascii.
  rewrite (lower_shaped l Hall).
  rewrite (proj1 (sub_runs_shaped l Hall Hnd Hlast)).
  rewrite (lstrip_fixed l Hhead).
  unfold PyStr.rstrip. rewrite (lstrip_fixed (rev l) Hlast), rev_involutive.
  destruct l; [congruence|reflexivity].
Qed.

(** X22.  [slugify] is idempotent: the slug of a slug is that slug (so a
    task renamed to its own slug keeps it). *)
Theorem slugify_idempotent (s : string) : slugify (slugify s) = slugify s.
Proof.
  pose proof (slugify_of_shaped _ (slugify_is_shaped s)) as H.
  rewrite string_of_list_ascii_of_string in H. exact H.
Qed.

(* ------------------------------------------------------------------ *)
(** ** The unique index on slugs *)

Lemma touches_only_slugs (P : Z -> Prop) (s s' : Store) :
  touches_only P s s' -> task_slugs s' = task_slugs s.
Proof.
  intros (_ & _ & H). unfold task_slugs.
  induction H as [|x y l l' [Hxy _] _ IH]; cbn [map]; [reflexivity|].
  destruct Hxy as (_ & Hsl & _). rewrite Hsl, IH. reflexivity.
Qed.

Lemma task_slugs_update_task (s : Store) (i : Z) (f : Task.t -> Task.t) :
  (forall x, Task.slug (f x) = Task.slug x) ->
  task_slugs (update_task s i f) = task_slugs s.
Proof.
  intros Hf. unfold task_slugs, update_task. cbn [tasks].
  rewrite map_map. apply map_ext. intros x.
  destruct (Task.id x =? i); auto.
Qed.

Lemma task_slugs_enforce (s : Store) (t : Task.t) :
  task_slugs (enforce_blocking_status s t) = task_slugs s.
Proof. exact (touches_only_slugs _ _ _ (enforce_touches s t)). Qed.

Lemma task_slugs_store_progress (s : Store) (t : Task.t) :
  task_slugs (store_progress s t) = task_slugs s.
Proof. exact (touches_only_slugs _ _ _ (store_progress_touches s t)). Qed.

Lemma task_slugs_cascade (s : Store) (c : Z) :
  task_slugs (update_dependents_status s c) = task_slugs s.
Proof.
  exact (touches_only_slugs _ _ _ (cascade_touches (dependents_of s c) s)).
Qed.

Lemma task_slugs_recompute (ids : list Z) (s : Store) :
  task_slugs (fold_left recompute_task ids s) = task_slugs s.
Proof. exact (touches_only_slugs _ _ _ (recompute_touches ids s)). Qed.

Lemma task_slugs_update_subtask (s : Store) (i : Z) (f : Subtask.t -> Subtask.t) :
  task_slugs (update_subtask s i f) = task_slugs s.
Proof. reflexivity. Qed.

Lemma task_slugs_set_subtasks_done (s : Store) (i : Z) (v : bool) :
  task_slugs (set_subtasks_done s i v) = task_slugs s.
Proof. reflexivity. Qed.

Lemma task_slugs_mk (l : list Task.t) (a : list Subtask.t)
  (b : list Dependency.t) :
  task_slugs (mkStore l a b) = map Task.slug l.
Proof. reflexivity. Qed.

Create Rewrite HintDb slugs.
#[local] Hint Rewrite task_slugs_enforce task_slugs_store_progress
  task_slugs_cascade task_slugs_recompute task_slugs_update_subtask
  task_slugs_set_subtasks_done task_slugs_mk : slugs.
#[local] Hint Rewrite task_slugs_update_task using (intros; reflexivity) : slugs.

Ltac slugs_norm :=
  cbv zeta; split_cases; cbn [fst];
  repeat (autorewrite with slugs; cbn [tasks]).

(** Replacing the row with key [i] by a row whose slug no other row has. *)
Lemma slugs_after_rename (l : list Task.t) (i : Z) (t1 : Task.t) :
  NoDup (map Task.id l) -> NoDup (map Task.slug l) ->
  (forall x, In x l -> Task.id x <> i -> Task.slug x <> Task.slug t1) ->
  NoDup (map Task.slug (map (fun x => if Task.id x =? i then t1 else x) l)).
Proof.
  induction l as [|x l IH]; cbn [map]; intros Hid Hsl Hother; [constructor|].
  apply NoDup_cons_iff in Hid. destruct Hid as [Hxid Hid].
  apply NoDup_cons_iff in Hsl. destruct Hsl as [Hxsl Hsl].
  assert (IH' : NoDup (map Task.slug
                         (map (fun y => if Task.id y =? i then t1 else y) l))).
  { apply IH; auto. intros y Hy. apply Hother. right. exact Hy. }
  apply NoDup_cons; [|exact IH'].
  intros Hin. apply in_map_iff in Hin. destruct Hin as (y' & Hy' & Hin).
  apply in_map_iff in Hin. destruct Hin as (y & <- & Hy).
  destruct (Z.eqb_spec (Task.id x) i) as [Ex|Ex];
    destruct (Z.eqb_spec (Task.id y) i) as [Ey|Ey].
  - apply Hxid. rewrite Ex, <- Ey. apply in_map. exact Hy.
  - apply (Hother y (or_intror Hy) Ey). exact Hy'.
  - apply (Hother x (or_introl eq_refl) Ex). symmetry. exact Hy'.
  - apply Hxsl. rewrite <- Hy'. apply in_map. exact Hy.
Qed.

Lemma slug_not_taken (s : Store) (self : Z) (sl : string) :
  slug_taken s self sl = false ->
  forall x, In x (tasks s) -> Task.id x <> self -> Task.slug x <> sl.
Proof.
  unfold slug_taken. intros H x Hx Hne Hsl.
  assert (E : existsb (fun y => negb (Task.id y =? self)
                                && (Task.slug y =? sl)%string) (tasks s) = true).
  { apply existsb_exists. exists x. split; [exact Hx|].
    apply andb_true_iff. split.
    - apply negb_true_iff, Z.eqb_neq. exact Hne.
    - apply String.eqb_eq. exact Hsl. }
  congruence.
Qed.

Lemma handle_slugs (s : Store) (today : date) (r : Request) :
  rows_wf s -> NoDup (task_slugs s) ->
  NoDup (task_slugs (fst (handle s today r))).
Proof.
  intros Hwf Hsl. destruct r; cbn [handle].
  - unfold api_tasks. slugs_norm; try exact Hsl.
    rewrite map_app. cbn [map]. apply NoDup_snoc; [exact Hsl|].
    intros Hin. apply in_map_iff in Hin. destruct Hin as (x & Hx & Hin).
    match goal with H : slug_taken _ _ _ = false |- _ =>
      apply (slug_not_taken _ _ _ H x Hin); [|exact Hx] end.
    match goal with H : set_dates_for_week _ _ = Some _ |- _ =>
      apply set_dates_for_week_id in H; destruct H as (Hid & _) end.
    cbn [Task.id] in Hid. rewrite Hid. intros E.
    apply (next_id_fresh (map Task.id (tasks s))). rewrite <- E.
    apply in_map. exact Hin.
  - unfold api_update_task_status. slugs_norm; exact Hsl.
  - unfold api_edit_task. slugs_norm; try exact Hsl.
    match goal with H : _ = Some _ |- _ => apply edited_row_id in H end.
    unfold task_slugs, update_task. cbn [tasks].
    apply slugs_after_rename; [apply Hwf|exact Hsl|].
    intros x Hx Hne.
    match goal with H : slug_taken _ _ _ = false |- _ =>
      apply (slug_not_taken _ _ _ H x Hx) end.
    congruence.
  - unfold api_delete_task. slugs_norm; try exact Hsl.
    apply keys_of_filter, Hsl.
  - unfold api_create_subtask. slugs_norm; exact Hsl.
  - unfold api_toggle_subtask. slugs_norm; exact Hsl.
  - unfold api_delete_subtask. slugs_norm; exact Hsl.
  - unfold api_add_dependency. slugs_norm; exact Hsl.
  - unfold api_delete_dependency. slugs_norm; exact Hsl.
Qed.

(** X23.  No two tasks of a store the API can produce share a slug: a
    creation or a rename that would collide with another task's slug is
    refused by the unique index and writes nothing. *)
Theorem reachable_slugs_distinct (s : Store) :
  reachable s -> NoDup (task_slugs s).
Proof.
  intros Hr.
  assert (H : rows_wf s /\ NoDup (task_slugs s)); [|apply H].
  induction Hr as [|s today r _ [IHw IHs]].
  - repeat split; try constructor. intros st [].
  - split; [apply handle_rows_wf, IHw|apply handle_slugs; assumption].
Qed.

Lemma reachable_slugs_witness : NoDup (task_slugs chain_after).
Proof.
  apply reachable_slugs_distinct.
  rewrite <- chain_trace_runs. apply reachable_run, reachable_empty.
Defined.

(* ------------------------------------------------------------------ *)
(** ** Subtask toggles that complete or reopen a task *)

Lemma subtasks_of_flipped (s : Store) (sid tid : Z) (v : bool) :
  (forall x, In x (subtasks s) -> Subtask.task_id x = tid ->
             Subtask.done x = if Subtask.id x =? sid then negb v else v) ->
  forall y,
    In y (subtasks_of
            (update_subtask s sid
               (fun x => Subtask.set_done (negb (Subtask.done x)) x)) tid) ->
    Subtask.done y = v.
Proof.
  intros H y Hy. unfold subtasks_of, update_subtask in Hy. cbn [subtasks] in Hy.
  apply filter_In in Hy. destruct Hy as [Hy Htid]. apply Z.eqb_eq in Htid.
  apply in_map_iff in Hy. destruct Hy as (x & <- & Hx).
  destruct (Z.eqb_spec (Subtask.id x) sid) as [E|E].
  - cbn in Htid |- *. rewrite (H x Hx Htid).
    apply Z.eqb_eq in E. rewrite E. apply negb_involutive.
  - rewrite (H x Hx Htid). apply Z.eqb_neq in E. rewrite E. reflexivity.
Qed.

Lemma total_count_flipped (s : Store) (st : Subtask.t) (t : Task.t) :
  get_subtask s (Subtask.id st) = Some st ->
  Subtask.task_id st = Task.id t ->
  0 < total_count
        (update_subtask s (Subtask.id st)
           (fun x => Subtask.set_done (negb (Subtask.done x)) x)) t.
Proof.
  intros Hst Htid. unfold get_subtask in Hst. apply find_some in Hst.
  destruct Hst as [Hin _].
  unfold total_count, subtasks_of, update_subtask. cbn [subtasks].
  set (g := fun x => if Subtask.id x =? Subtask.id st
                     then Subtask.set_done (negb (Subtask.done x)) x else x).
  assert (Hg : In (g st) (filter (fun x => Subtask.task_id x =? Task.id t)
                                 (map g (subtasks s)))).
  { apply filter_In. split; [apply in_map; exact Hin|].
    unfold g. rewrite Z.eqb_refl. cbn. apply Z.eqb_eq. exact Htid. }
  destruct (filter _ (map g (subtasks s))); [destruct Hg|]. cbn. lia.
Qed.

(** X24.  Toggling the last open subtask of a task that has no unmet
    dependency (and no edge to itself) completes the task: the answer is
    ok, the task is done with progress 100.0, and [completed_at] and
    [started_at] are today where they were unset and unchanged where set. *)
Theorem toggle_last_open_subtask_completes
  (s : Store) (today : date) (st : Subtask.t) (t : Task.t) :
  get_subtask s (Subtask.id st) = Some st ->
  get_task s (Task.id t) = Some t ->
  Subtask.task_id st = Task.id t ->
  has_blocking_dependencies s t = false ->
  ~ depends_directly_on s t (Task.id t) ->
  (forall x, In x (subtasks s) -> Subtask.task_id x = Task.id t ->
             Subtask.done x = negb (Subtask.id x =? Subtask.id st)) ->
  exists t',
    get_task (fst (api_toggle_subtask s today (Subtask.id st))) (Task.id t)
    = Some t' /\
    failed (snd (api_toggle_subtask s today (Subtask.id st))) = false /\
    Task.status t' = DONE /\
    Task.progress t' = PyFloat.hundred /\
    Task.completed_at t' = or_today today (Task.completed_at t) /\
    Task.started_at t' = or_today today (Task.started_at t).
Proof.
  intros Hst Hget Htid Hnb Hself Hall.
  unfold api_toggle_subtask. rewrite Hst, Htid, Hget, Hnb. cbv zeta.
  set (s1 := update_subtask s (Subtask.id st) _).
  assert (G1 : get_task s1 (Task.id t) = Some t) by exact Hget.
  assert (P1 : compute_task_progress s1 t = PyFloat.hundred).
  { apply progress_when_all_done.
    - apply (subtasks_of_flipped s (Subtask.id st) (Task.id t) true).
      intros x Hx Hxt. rewrite (Hall x Hx Hxt).
      destruct (Subtask.id x =? Subtask.id st); reflexivity.
    - left. apply total_count_flipped; assumption. }
  set (s2 := update_task s1 (Task.id t) (Task.set_progress PyFloat.hundred)).
  assert (E2 : store_progress s1 t = s2)
    by (unfold store_progress; rewrite (refresh_get s1 t t G1), P1; reflexivity).
  rewrite !E2.
  set (t2 := Task.set_progress PyFloat.hundred t).
  assert (G2 : get_task s2 (Task.id t) = Some t2)
    by (apply (get_task_update s1 (Task.id t)
                 (Task.set_progress PyFloat.hundred) t); [reflexivity|exact G1]).
  rewrite !(refresh_get s2 t t2 G2).
  assert (B2 : has_blocking_dependencies s2 t2 = false).
  { rewrite <- Hnb.
    change (has_blocking_dependencies s t)
      with (has_blocking_dependencies s1 t).
    apply (has_blocking_writes (eq (Task.id t)) s1 s2 t t2); [|
      intros d Hd Hdt Heq; apply Hself; exists d; auto | reflexivity].
    apply update_task_writes. reflexivity. }
  rewrite B2.
  change (PyFloat.eqb (Task.progress t2) PyFloat.hundred) with true.
  cbn [negb andb].
  set (f4 := fun x => Task.set_completed_at (or_today today (Task.completed_at x)) x).
  set (f5 := fun x => Task.set_started_at (or_today today (Task.started_at x)) x).
  set (s3 := update_task s2 (Task.id t) (Task.set_status DONE)).
  set (s4 := update_task s3 (Task.id t) f4).
  set (s5 := update_task s4 (Task.id t) f5).
  set (t5 := f5 (f4 (Task.set_status DONE t2))).
  assert (G5 : get_task s5 (Task.id t) = Some t5).
  { apply (get_task_update s4 (Task.id t) f5); [reflexivity|].
    apply (get_task_update s3 (Task.id t) f4); [reflexivity|].
    apply (get_task_update s2 (Task.id t) (Task.set_status DONE));
      [reflexivity|exact G2]. }
  rewrite !(refresh_get s5 t t5 G5).
  rewrite !(enforce_done_noop s5 t5 eq_refl).
  assert (G7 : get_task (update_dependents_status s5 (Task.id t)) (Task.id t)
               = Some t5).
  { rewrite cascade_skips_root; [exact G5|].
    intros (d & Hd & Hrest). apply Hself. exists d. auto. }
  exists t5.
  split.
  - destruct (get_subtask (update_dependents_status _ _) _); cbn [fst]; exact G7.
  - split; [destruct (get_subtask (update_dependents_status _ _) _); reflexivity|].
    repeat split.
Qed.

(** X25.  Toggling back the only done subtask of such a task reopens it:
    the answer is ok, the task is todo with progress 0.0, [completed_at] is
    cleared and [started_at] is kept. *)
Theorem toggle_only_done_subtask_reopens
  (s : Store) (today : date) (st : Subtask.t) (t : Task.t) :
  get_subtask s (Subtask.id st) = Some st ->
  get_task s (Task.id t) = Some t ->
  Subtask.task_id st = Task.id t ->
  has_blocking_dependencies s t = false ->
  ~ depends_directly_on s t (Task.id t) ->
  (forall x, In x (subtasks s) -> Subtask.task_id x = Task.id t ->
             Subtask.done x = (Subtask.id x =? Subtask.id st)) ->
  exists t',
    get_task (fst (api_toggle_subtask s today (Subtask.id st))) (Task.id t)
    = Some t' /\
    failed (snd (api_toggle_subtask s today (Subtask.id st))) = false /\
    Task.status t' = TODO /\
    Task.progress t' = PyFloat.zero /\
    Task.completed_at t' = None /\
    Task.started_at t' = Task.started_at t.
Proof.
  intros Hst Hget Htid Hnb Hself Hall.
  unfold api_toggle_subtask. rewrite Hst, Htid, Hget, Hnb. cbv zeta.
  set (s1 := update_subtask s (Subtask.id st) _).
  assert (G1 : get_task s1 (Task.id t) = Some t) by exact Hget.
  assert (P1 : compute_task_progress s1 t = PyFloat.zero).
  { apply progress_when_none_done.
    - apply (subtasks_of_flipped s (Subtask.id st) (Task.id t) false).
      intros x Hx Hxt. rewrite (Hall x Hx Hxt).
      destruct (Subtask.id x =? Subtask.id st); reflexivity.
    - left. apply total_count_flipped; assumption. }
  set (s2 := update_task s1 (Task.id t) (Task.set_progress PyFloat.zero)).
  assert (E2 : store_progress s1 t = s2)
    by (unfold store_progress; rewrite (refresh_get s1 t t G1), P1; reflexivity).
  rewrite !E2.
  set (t2 := Task.set_progress PyFloat.zero t).
  assert (G2 : get_task s2 (Task.id t) = Some t2)
    by (apply (get_task_update s1 (Task.id t)
                 (Task.set_progress PyFloat.zero) t); [reflexivity|exact G1]).
  rewrite !(refresh_get s2 t t2 G2).
  assert (B2 : has_blocking_dependencies s2 t2 = false).
  { rewrite <- Hnb.
    change (has_blocking_dependencies s t)
      with (has_blocking_dependencies s1 t).
    apply (has_blocking_writes (eq (Task.id t)) s1 s2 t t2); [|
      intros d Hd Hdt Heq; apply Hself; exists d; auto | reflexivity].
    apply update_task_writes. reflexivity. }
  rewrite B2.
  change (PyFloat.eqb (Task.progress t2) PyFloat.hundred) with false.
  change (PyFloat.ltb PyFloat.zero (Task.progress t2)) with false.
  cbn [negb andb].
  set (s3 := update_task s2 (Task.id t) (Task.set_status TODO)).
  set (s4 := update_task s3 (Task.id t) (Task.set_completed_at None)).
  set (t4 := Task.set_completed_at None (Task.set_status TODO t2)).
  assert (G4 : get_task s4 (Task.id t) = Some t4).
  { apply (get_task_update s3 (Task.id t) (Task.set_completed_at None));
      [reflexivity|].
    apply (get_task_update s2 (Task.id t) (Task.set_status TODO));
      [reflexivity|exact G2]. }
  rewrite !(refresh_get s4 t t4 G4).
  assert (B4 : has_blocking_dependencies s4 t4 = false).
  { rewrite <- Hnb.
    change (has_blocking_dependencies s t)
      with (has_blocking_dependencies s1 t).
    apply (has_blocking_writes (eq (Task.id t)) s1 s4 t t4); [|
      intros d Hd Hdt Heq; apply Hself; exists d; auto | reflexivity].
    eapply writes_only_trans; [|apply update_task_writes; reflexivity].
    eapply writes_only_trans; apply update_task_writes; reflexivity. }
  rewrite !(enforce_open s4 t4 ltac:(discriminate) ltac:(discriminate)), !B4.
  assert (G7 : get_task (update_dependents_status s4 (Task.id t)) (Task.id t)
               = Some t4).
  { rewrite cascade_skips_root; [exact G4|].
    intros (d & Hd & Hrest). apply Hself. exists d. auto. }
  exists t4.
  split.
  - destruct (get_subtask (update_dependents_status _ _) _); cbn [fst]; exact G7.
  - split; [destruct (get_subtask (update_dependents_status _ _) _); reflexivity|].
    repeat split.
Qed.

(* ------------------------------------------------------------------ *)
(** ** Creating and deleting subtasks *)

Lemma refresh_id (s : Store) (t : Task.t) : Task.id (refresh s t) = Task.id t.
Proof.
  unfold refresh. destruct (get_task s (Task.id t)) as [x|] eqn:E; [|reflexivity].
  apply find_id_some in E. apply E.
Qed.

Lemma enforce_writes (s : Store) (t : Task.t) :
  writes_only (eq (Task.id t)) s
    (enforce_blocking_status s (refresh s t)).
Proof.
  rewrite <- (refresh_id s t) at 1. apply touches_writes, enforce_touches.
Qed.

Lemma store_progress_writes (s : Store) (t : Task.t) :
  writes_only (eq (Task.id t)) s (store_progress s t).
Proof. apply touches_writes, store_progress_touches. Qed.

Lemma writes_only_subtasks (P : Z -> Prop) (s : Store) (l : list Subtask.t) :
  writes_only P s (mkStore (tasks s) l (dependencies s)).
Proof. exact (writes_only_refl P s). Qed.

Ltac writes_steps :=
  repeat first
    [ apply writes_only_subtasks
    | apply writes_only_refl
    | eapply writes_only_trans; [|apply enforce_writes]
    | eapply writes_only_trans; [|apply store_progress_writes]
    | eapply writes_only_trans; [|apply update_task_writes; reflexivity] ].

Lemma create_subtask_writes (s : Store) (today : date)
  (task_id : option Z) (title : option string) :
  writes_only (eq (int_or task_id 0)) s
    (fst (api_create_subtask s today task_id title)).
Proof.
  unfold api_create_subtask. cbv zeta.
  destruct (_ || _); [apply writes_only_refl|].
  destruct (get_task s (int_or task_id 0)) as [t|] eqn:E;
    [|apply writes_only_refl].
  apply find_id_some in E. destruct E as [_ <-].
  split_cases; cbn [fst]; writes_steps.
Qed.

Lemma delete_subtask_writes (s : Store) (today : date) (st : Subtask.t) :
  get_subtask s (Subtask.id st) = Some st ->
  writes_only (eq (Subtask.task_id st)) s
    (fst (api_delete_subtask s today (Subtask.id st))).
Proof.
  intros Hst. unfold api_delete_subtask. rewrite Hst. cbv zeta.
  destruct (get_task s (Subtask.task_id st)) as [t|] eqn:E.
  - apply find_id_some in E. destruct E as [_ <-].
    split_cases; cbn [fst]; writes_steps.
  - cbn [fst]. writes_steps.
Qed.

Lemma find_filter_out (l : list Subtask.t) (i : Z) :
  find (fun x => Subtask.id x =? i)
       (filter (fun x => negb (Subtask.id x =? i)) l) = None.
Proof.
  induction l as [|x l IH]; [reflexivity|]. cbn [filter].
  destruct (Subtask.id x =? i) eqn:E; cbn [negb]; [exact IH|].
  cbn [find]. rewrite E. exact IH.
Qed.

(** X26.  Creating a subtask for a task that exists, with a title that is
    not blank, answers with the new subtask and appends exactly that row:
    a key not in use, the task's id, the stripped title, not done.  The
    rows that were there stay in place, no edge changes, and no task row
    other than the parent changes. *)
Theorem create_subtask_appends
  (s : Store) (today : date) (tid : Z) (title : string) (t : Task.t) :
  tid <> 0 -> PyStr.truthy (PyStr.strip title) = true ->
  get_task s tid = Some t ->
  let st := Subtask.mk (next_id (subtask_ids s)) tid (PyStr.strip title) false in
  let r := api_create_subtask s today (Some tid) (Some title) in
  snd r = Ok (RespSubtask st) /\
  subtasks (fst r) = (subtasks s ++ [st])%list /\
  ~ In (Subtask.id st) (subtask_ids s) /\
  dependencies (fst r) = dependencies s /\
  forall j, j <> tid -> get_task (fst r) j = get_task s j.
Proof.
  intros Hnz Htitle Hget st r.
  assert (Hi : int_or (Some tid) 0 = tid)
    by (unfold int_or; apply Z.eqb_neq in Hnz; rewrite Hnz; reflexivity).
  assert (Ht : PyStr.strip (str_or (Some title) "") = PyStr.strip title).
  { unfold str_or. destruct (PyStr.truthy title) eqn:E; [reflexivity|].
    destruct title; [reflexivity|discriminate]. }
  pose proof (find_id_some s tid t Hget) as [_ Hid].
  split; [|split; [|split; [|split]]].
  - unfold r, api_create_subtask. rewrite Hi, Ht, Htitle.
    apply Z.eqb_neq in Hnz. rewrite Hnz. cbn [orb negb]. rewrite Hget.
    cbv zeta. cbn [snd]. rewrite Hid. reflexivity.
  - unfold r, api_create_subtask. rewrite Hi, Ht, Htitle.
    apply Z.eqb_neq in Hnz. rewrite Hnz. cbn [orb negb]. rewrite Hget.
    rewrite Hid. fold (subtask_ids s). fold st.
    cbv zeta. split_cases; cbn [fst];
      repeat (autorewrite with rows; cbn [subtasks]); reflexivity.
  - apply next_id_fresh.
  - exact (handle_keeps_edges s today (CreateSubtask (Some tid) (Some title))).
  - intros j Hj.
    apply (get_task_writes (eq tid) s); [|congruence].
    rewrite <- Hi at 1. apply create_subtask_writes.
Qed.

(** X28.  Deleting a subtask whose task has no unmet dependency (or whose
    task row is gone) answers ok and removes that subtask and nothing else
    from the subtask table: it can no longer be looked up, no edge changes,
    and no task row other than the parent changes. *)
Theorem delete_subtask_removes_one
  (s : Store) (today : date) (st : Subtask.t) :
  get_subtask s (Subtask.id st) = Some st ->
  (forall t, get_task s (Subtask.task_id st) = Some t ->
             has_blocking_dependencies s t = false) ->
  let r := api_delete_subtask s today (Subtask.id st) in
  failed (snd r) = false /\
  subtasks (fst r)
  = filter (fun x => negb (Subtask.id x =? Subtask.id st)) (subtasks s) /\
  get_subtask (fst r) (Subtask.id st) = None /\
  dependencies (fst r) = dependencies s /\
  forall j, j <> Subtask.task_id st -> get_task (fst r) j = get_task s j.
Proof.
  intros Hst Hnb r.
  assert (Hsub : subtasks (fst r)
            = filter (fun x => negb (Subtask.id x =? Subtask.id st)) (subtasks s)).
  { unfold r, api_delete_subtask. rewrite Hst. cbv zeta.
    destruct (get_task s (Subtask.task_id st)) as [t|] eqn:E.
    - rewrite (Hnb t eq_refl).
      split_cases; cbn [fst];
        repeat (autorewrite with rows; cbn [subtasks]); reflexivity.
    - reflexivity. }
  split; [|split; [exact Hsub|split; [|split]]].
  - unfold r, api_delete_subtask. rewrite Hst. cbv zeta.
    destruct (get_task s (Subtask.task_id st)) as [t|] eqn:E.
    + rewrite (Hnb t eq_refl). reflexivity.
    + reflexivity.
  - unfold get_subtask. rewrite Hsub. apply find_filter_out.
  - exact (handle_keeps_edges s today (DeleteSubtask (Subtask.id st))).
  - intros j Hj.
    apply (get_task_writes (eq (Subtask.task_id st)) s); [|congruence].
    apply delete_subtask_writes. exact Hst.
Qed.

(** X27.  Creating a subtask for a done task none of whose subtasks is done
    (in particular a done task without subtasks) reopens the task: progress
    0.0, [completed_at] cleared, [started_at] kept, and status in_progress,
    or blocked when the task has an unmet dependency. *)
Theorem create_subtask_reopens_done
  (s : Store) (today : date) (title : string) (t : Task.t) :
  Task.id t <> 0 -> PyStr.truthy (PyStr.strip title) = true ->
  get_task s (Task.id t) = Some t ->
  Task.status t = DONE ->
  (forall x, In x (subtasks_of s (Task.id t)) -> Subtask.done x = false) ->
  ~ depends_directly_on s t (Task.id t) ->
  exists t',
    get_task (fst (api_create_subtask s today (Some (Task.id t)) (Some title)))
             (Task.id t) = Some t' /\
    Task.status t'
    = (if has_blocking_dependencies s t then BLOCKED else IN_PROGRESS) /\
    Task.progress t' = PyFloat.zero /\
    Task.completed_at t' = None /\
    Task.started_at t' = Task.started_at t.
Proof.
  intros Hnz Htitle Hget Hdone Hnone Hself.
  assert (Hi : int_or (Some (Task.id t)) 0 = Task.id t)
    by (unfold int_or; apply Z.eqb_neq in Hnz; rewrite Hnz; reflexivity).
  assert (Ht : PyStr.strip (str_or (Some title) "") = PyStr.strip title).
  { unfold str_or. destruct (PyStr.truthy title) eqn:E; [reflexivity|].
    destruct title; [reflexivity|discriminate]. }
  unfold api_create_subtask. rewrite Hi, Ht, Htitle.
  pose proof Hnz as Hnz'. apply Z.eqb_neq in Hnz'. rewrite Hnz'.
  cbn [orb negb]. rewrite Hget. cbv zeta.
  set (st := Subtask.mk _ _ _ _).
  set (s1 := mkStore (tasks s) (subtasks s ++ [st]) (dependencies s)).
  assert (G1 : get_task s1 (Task.id t) = Some t) by exact Hget.
  assert (P1 : compute_task_progress s1 t = PyFloat.zero).
  { apply progress_when_none_done.
    - intros x Hx. unfold subtasks_of, s1 in Hx. cbn [subtasks] in Hx.
      rewrite filter_app in Hx. apply in_app_iff in Hx. destruct Hx as [Hx|Hx].
      + apply Hnone. exact Hx.
      + cbn [filter] in Hx. destruct (Subtask.task_id st =? Task.id t);
          [destruct Hx as [<-|[]]; reflexivity|destruct Hx].
    - left. unfold total_count, subtasks_of, s1. cbn [subtasks].
      rewrite filter_app, length_app. cbn [filter].
      change (Subtask.task_id st) with (Task.id t). rewrite Z.eqb_refl.
      cbn [List.length]. lia. }
  set (s2 := update_task s1 (Task.id t) (Task.set_progress PyFloat.zero)).
  assert (E2 : store_progress s1 t = s2)
    by (unfold store_progress; rewrite (refresh_get s1 t t G1), P1; reflexivity).
  rewrite !E2.
  set (t2 := Task.set_progress PyFloat.zero t).
  assert (G2 : get_task s2 (Task.id t) = Some t2)
    by (apply (get_task_update s1 (Task.id t)
                 (Task.set_progress PyFloat.zero) t); [reflexivity|exact G1]).
  rewrite !(refresh_get s2 t t2 G2).
  change (Task.status t2) with (Task.status t). rewrite Hdone.
  change (PyFloat.ltb (Task.progress t2) PyFloat.hundred) with true.
  change ((DONE =? DONE)%string && true) with true. cbv iota.
  set (s3 := update_task s2 (Task.id t) (Task.set_status IN_PROGRESS)).
  set (s4 := update_task s3 (Task.id t) (Task.set_completed_at None)).
  set (t4 := Task.set_completed_at None (Task.set_status IN_PROGRESS t2)).
  assert (G4 : get_task s4 (Task.id t) = Some t4).
  { apply (get_task_update s3 (Task.id t) (Task.set_completed_at None));
      [reflexivity|].
    apply (get_task_update s2 (Task.id t) (Task.set_status IN_PROGRESS));
      [reflexivity|exact G2]. }
  rewrite !(refresh_get s4 t t4 G4).
  change (PyFloat.ltb PyFloat.zero (Task.progress t4)) with false.
  cbn [andb]. rewrite !(refresh_get s4 t t4 G4).
  assert (B4 : has_blocking_dependencies s4 t4 = has_blocking_dependencies s t).
  { apply (has_blocking_writes (eq (Task.id t)) s s4 t t4); [|
      intros d Hd Hdt Heq; apply Hself; exists d; auto | reflexivity].
    apply (writes_only_trans _ _ s1); [exact (writes_only_refl _ s)|].
    eapply writes_only_trans; [|apply update_task_writes; reflexivity].
    eapply writes_only_trans; apply update_task_writes; reflexivity. }
  rewrite (enforce_open s4 t4 ltac:(discriminate) ltac:(discriminate)), B4.
  cbn [fst].
  destruct (has_blocking_dependencies s t).
  - exists (Task.set_status BLOCKED t4). split; [|repeat split].
    apply (get_task_update s4 (Task.id t) (Task.set_status BLOCKED));
      [reflexivity|exact G4].
  - exists t4. split; [exact G4|repeat split].
Qed.

Lemma get_task_replaced (s : Store) (i : Z) (t u : Task.t) :
  Task.id u = i -> get_task s i = Some t ->
  get_task (update_task s i (fun _ => u)) i = Some u.
Proof.
  intros Hu. unfold get_task, update_task. cbn [tasks].
  induction (tasks s) as [|x l IH]; cbn [find map]; [discriminate|].
  destruct (Z.eqb_spec (Task.id x) i) as [E|E].
  - intros _. rewrite Hu, Z.eqb_refl. reflexivity.
  - destruct (Z.eqb_spec (Task.id x) i); [contradiction|]. exact IH.
Qed.

Lemma get_task_replaced_other (s : Store) (i j : Z) (u : Task.t) :
  Task.id u = i -> j <> i ->
  get_task (update_task s i (fun _ => u)) j = get_task s j.
Proof.
  intros Hu Hj. unfold get_task, update_task. cbn [tasks].
  induction (tasks s) as [|x l IH]; cbn [find map]; [reflexivity|].
  destruct (Z.eqb_spec (Task.id x) i) as [E|E].
  - rewrite Hu, E. destruct (Z.eqb_spec i j); [congruence|]. exact IH.
  - rewrite IH. reflexivity.
Qed.

Lemma get_task_touches (P : Z -> Prop) (s s' : Store) (i : Z) (x : Task.t) :
  touches_only P s s' -> get_task s i = Some x ->
  exists y, get_task s' i = Some y /\ same_but_status_progress x y.
Proof.
  intros (_ & _ & H). unfold get_task.
  induction H as [|a b l l' [Hab _] _ IH]; cbn [find]; [discriminate|].
  destruct Hab as [Hid Hrest]. rewrite Hid.
  destruct (Task.id a =? i).
  - intros [= <-]. exists b. split; [reflexivity|]. split; assumption.
  - exact IH.
Qed.

(** X29.  An edit that answers ok returns the stored row of that task.
    Each key of the body overwrites its column (title and description
    stripped, the slug recomputed from the new title), a column whose key is
    absent keeps its value, the id and both timestamps are kept, the dates
    move only when a week above zero is given, and no subtask, no edge and
    no other task row changes. *)
Theorem edit_task_effect
  (s s' : Store) (tid : Z) (title description : option string)
  (priority week : option Z) (t t' : Task.t) :
  get_task s tid = Some t ->
  api_edit_task s tid title description priority week = (s', Ok (RespTask t')) ->
  get_task s' tid = Some t' /\
  Task.id t' = tid /\
  edited_columns title description priority week t t' /\
  Task.started_at t' = Task.started_at t /\
  Task.completed_at t' = Task.completed_at t /\
  (match week with
   | Some w => 0 < w
   | None => False
   end \/
   (Task.start_date t' = Task.start_date t /\
    Task.end_date t' = Task.end_date t)) /\
  subtasks s' = subtasks s /\ dependencies s' = dependencies s /\
  forall j, j <> tid -> get_task s' j = get_task s j.
Proof.
  intros Hget. pose proof (find_id_some s tid t Hget) as [_ Hid].
  unfold api_edit_task. rewrite Hget. cbv zeta.
  set (t0 := opt_apply priority Task.set_priority
               (opt_apply description _ (opt_apply title _ t))).
  assert (H0 : Task.id t0 = tid /\
               edited_columns title description priority None t t0 /\
               Task.started_at t0 = Task.started_at t /\
               Task.completed_at t0 = Task.completed_at t /\
               Task.start_date t0 = Task.start_date t /\
               Task.end_date t0 = Task.end_date t).
  { unfold t0, edited_columns.
    destruct title, description, priority; cbn; repeat split; exact Hid. }
  destruct H0 as (Hid0 & Hcols0 & Hsa0 & Hca0 & Hsd0 & Hed0).
  destruct (match week with
            | Some w => set_dates_for_week (Task.set_week w t0) DEFAULT_START_DATE
            | None => Some t0
            end) as [t1|] eqn:Hd; [|discriminate].
  assert (H1 : Task.id t1 = tid /\
               edited_columns title description priority week t t1 /\
               Task.started_at t1 = Task.started_at t /\
               Task.completed_at t1 = Task.completed_at t /\
               (match week with Some w => 0 < w | None => False end \/
                (Task.start_date t1 = Task.start_date t /\
                 Task.end_date t1 = Task.end_date t))).
  { destruct Hcols0 as (Ha & Hb & Hc & Hp & Hw).
    destruct week as [w|].
    - unfold set_dates_for_week in Hd. cbn [Task.week Task.set_week] in Hd.
      destruct (negb (w =? 0) && (0 <? w)) eqn:Ew.
      + apply andb_prop in Ew. destruct Ew as [_ Ew]. apply Z.ltb_lt in Ew.
        destruct (add_days DEFAULT_START_DATE _); [|discriminate].
        destruct (add_days _ 6); [|discriminate].
        injection Hd as <-. unfold edited_columns. cbn.
        repeat split; auto.
      + injection Hd as <-. unfold edited_columns. cbn.
        repeat split; auto.
    - injection Hd as <-. unfold edited_columns. repeat split; auto. }
  destruct H1 as (Hid1 & Hcols1 & Hsa1 & Hca1 & Hdates1).
  destruct (negb _); [discriminate|].
  destruct (slug_taken _ _ _); [discriminate|].
  rewrite Hid.
  set (s1 := update_task s tid (fun _ => t1)).
  assert (G1 : get_task s1 tid = Some t1)
    by (apply (get_task_replaced s tid t t1 Hid1 Hget)).
  set (s3 := enforce_blocking_status _ _).
  assert (T13 : touches_only (eq tid) s1 s3).
  { unfold s3. eapply touches_only_trans.
    - rewrite <- Hid. apply store_progress_touches.
    - replace tid with (Task.id (refresh (store_progress s1 t) t)).
      + apply enforce_touches.
      + unfold refresh. destruct (get_task _ (Task.id t)) as [x|] eqn:E;
          [|exact Hid]. apply find_id_some in E. rewrite <- Hid. apply E. }
  destruct (get_task_touches _ s1 s3 tid t1 T13 G1) as (y & Gy & Hy).
  intros [= <- <-].
  assert (R : refresh s3 t = y)
    by (apply refresh_get; rewrite Hid; exact Gy).
  rewrite R.
  destruct Hy as (Hy1 & Hy2 & Hy3 & Hy4 & Hy5 & Hy6 & Hy7 & Hy8 & Hy9 & Hy10).
  destruct Hcols1 as (Ha & Hb & Hc & Hp & Hw).
  split; [exact Gy|]. split; [congruence|].
  split; [unfold edited_columns; repeat split; congruence|].
  split; [congruence|]. split; [congruence|].
  split; [destruct Hdates1 as [H|[H H']]; [left; exact H|right; split; congruence]|].
  pose proof (touches_writes _ _ _ T13) as W13.
  destruct T13 as (Hs13 & Hd13 & _).
  split; [rewrite Hs13; reflexivity|]. split; [rewrite Hd13; reflexivity|].
  intros j Hj.
  rewrite (get_task_writes (eq tid) s1 s3 j W13) by congruence.
  apply get_task_replaced_other; assumption.
Qed.

(* ------------------------------------------------------------------ *)
(** ** The handlers of the last section, run on sample stores *)

Lemma half_done_others_done (x : Subtask.t) :
  In x (subtasks half_done_store) -> Subtask.task_id x = 1 ->
  Subtask.done x = negb (Subtask.id x =? 2).
Proof. intros [<-|[<-|[]]] _; reflexivity. Qed.

Lemma half_done_others_open (x : Subtask.t) :
  In x (subtasks half_done_store) -> Subtask.task_id x = 1 ->
  Subtask.done x = (Subtask.id x =? 1).
Proof. intros [<-|[<-|[]]] _; reflexivity. Qed.

Lemma toggle_last_open_subtask_witness :
  exists t',
    get_task (fst (api_toggle_subtask half_done_store day0 2)) 1 = Some t' /\
    failed (snd (api_toggle_subtask half_done_store day0 2)) = false /\
    Task.status t' = DONE /\
    Task.progress t' = PyFloat.hundred /\
    Task.completed_at t' = Some day0 /\
    Task.started_at t' = Some day0.
Proof.
  exact (toggle_last_open_subtask_completes half_done_store day0
           (Subtask.mk 2 1 "b" false) half_done_task
           eq_refl eq_refl eq_refl eq_refl half_done_no_self_edge
           half_done_others_done).
Defined.

Lemma toggle_only_done_subtask_witness :
  exists t',
    get_task (fst (api_toggle_subtask half_done_store day0 1)) 1 = Some t' /\
    failed (snd (api_toggle_subtask half_done_store day0 1)) = false /\
    Task.status t' = TODO /\
    Task.progress t' = PyFloat.zero /\
    Task.completed_at t' = None /\
    Task.started_at t' = None.
Proof.
  exact (toggle_only_done_subtask_reopens half_done_store day0
           (Subtask.mk 1 1 "a" true) half_done_task
           eq_refl eq_refl eq_refl eq_refl half_done_no_self_edge
           half_done_others_open).
Defined.

Lemma create_subtask_witness :
  snd (api_create_subtask lonely_store day0 (Some 2) (Some " x "))
  = Ok (RespSubtask (Subtask.mk 1 2 "x" false)) /\
  subtasks (fst (api_create_subtask lonely_store day0 (Some 2) (Some " x ")))
  = [Subtask.mk 1 2 "x" false] /\
  ~ In 1 (subtask_ids lonely_store) /\
  dependencies (fst (api_create_subtask lonely_store day0 (Some 2) (Some " x ")))
  = [] /\
  forall j, j <> 2 ->
    get_task (fst (api_create_subtask lonely_store day0 (Some 2) (Some " x "))) j
    = get_task lonely_store j.
Proof.
  refine (create_subtask_appends lonely_store day0 2 " x "
            (plain_task 2 "B" TODO) _ eq_refl eq_refl).
  discriminate.
Defined.

Lemma seeded_no_self_edge :
  ~ depends_directly_on seeded_store (plain_task 1 "T" DONE) 1.
Proof. intros (d & Hd & _). destruct Hd. Qed.

Lemma seeded_none_done (x : Subtask.t) :
  In x (subtasks_of seeded_store 1) -> Subtask.done x = false.
Proof. intros [<-|[]]; reflexivity. Qed.

Lemma create_subtask_reopens_witness :
  exists t',
    get_task (fst (api_create_subtask seeded_store day0 (Some 1) (Some "more")))
             1 = Some t' /\
    Task.status t' = IN_PROGRESS /\
    Task.progress t' = PyFloat.zero /\
    Task.completed_at t' = None /\
    Task.started_at t' = None.
Proof.
  refine (create_subtask_reopens_done seeded_store day0 "more"
            (plain_task 1 "T" DONE) _ eq_refl eq_refl eq_refl
            seeded_none_done seeded_no_self_edge).
  discriminate.
Defined.

Lemma half_done_not_blocked (t : Task.t) :
  get_task half_done_store 1 = Some t ->
  has_blocking_dependencies half_done_store t = false.
Proof. intros [= <-]. reflexivity. Qed.

Lemma delete_subtask_witness :
  failed (snd (api_delete_subtask half_done_store day0 2)) = false /\
  subtasks (fst (api_delete_subtask half_done_store day0 2))
  = [Subtask.mk 1 1 "a" true] /\
  get_subtask (fst (api_delete_subtask half_done_store day0 2)) 2 = None /\
  dependencies (fst (api_delete_subtask half_done_store day0 2)) = [] /\
  forall j, j <> 1 ->
    get_task (fst (api_delete_subtask half_done_store day0 2)) j
    = get_task half_done_store j.
Proof.
  exact (delete_subtask_removes_one half_done_store day0
           (Subtask.mk 2 1 "b" false) eq_refl half_done_not_blocked).
Defined.

Lemma edit_task_witness :
  let t' := Task.mk 2 "new-title" "New title" "" TODO 2 3
              (Some (mkdate 2025 9 8)) (Some (mkdate 2025 9 14))
              None None PyFloat.zero in
  let s' := mkStore [t'] [] [] in
  get_task s' 2 = Some t' /\
  Task.id t' = 2 /\
  edited_columns (Some " New title ") None None (Some 3)
    (plain_task 2 "B" TODO) t' /\
  Task.started_at t' = None /\
  Task.completed_at t' = None /\
  (0 < 3 \/ (Task.start_date t' = None /\ Task.end_date t' = None)) /\
  subtasks s' = [] /\ dependencies s' = [] /\
  forall j, j <> 2 -> get_task s' j = get_task lonely_store j.
Proof.
  exact (edit_task_effect lonely_store _ 2 (Some " New title ") None None
           (Some 3) (plain_task 2 "B" TODO) _ eq_refl eq_refl).
Defined.

Lemma failure_leaves_store_witness :
  fst (handle lonely_store day0 (AddDependency (Some 2) (Some 2)))
  = lonely_store \/
  (exists a b, AddDependency (Some 2) (Some 2) = AddDependency a b /\
               snd (handle lonely_store day0 (AddDependency (Some 2) (Some 2)))
               = Abort 404 None) \/
  (exists d, AddDependency (Some 2) (Some 2) = DeleteDependency d /\
             snd (handle lonely_store day0 (AddDependency (Some 2) (Some 2)))
             = Raise "AttributeError").
Proof.
  exact (failure_leaves_store lonely_store day0
           (AddDependency (Some 2) (Some 2)) eq_refl).
Defined.
